(** * MMS PDU codec ([messaging/mms/mms_pdu.py]): embedding and verification

    The MMS encoder and decoder are translated function by function.  The
    classes they inherit from or call into ([wsp_pdu.Decoder],
    [wsp_pdu.Encoder], [message.MMSMessage], [message.DataPart],
    [iterator.PreviewIterator]) live in other modules of the package;
    they appear here as interfaces (type classes) or are modelled from
    the specification, and are marked as such. *)

From stdpp Require Import base gmap strings list pretty.
From Stdlib Require Import ZArith Lia.

Open Scope Z_scope.


(** ** Python exceptions and results *)

Inductive exn :=
| StopIteration
| DecodeError
| EncodeError
| RuntimeError
| UnboundLocalError
| KeyError
| AttributeError
| TypeError
| ValueError
| Exception.

Global Instance exn_eq_dec : EqDecision exn.
Proof. solve_decision. Defined.

Inductive result (A : Type) :=
| Ok (a : A)
| Raise (e : exn).
Arguments Ok {A} a.
Arguments Raise {A} e.

Definition result_bind {A B} (r : result A) (k : A → result B) : result B :=
  match r with
  | Ok a => k a
  | Raise e => Raise e
  end.

Global Instance result_ret : MRet result := λ A a, Ok a.
Global Instance result_mbind : MBind result := λ A B k r, result_bind r k.

(** ** Python values carried by header maps

    Header values are heterogeneous: strings, booleans, integers, and the
    [(content_type, parameters)] pair of a Content-Type header. *)

Inductive value :=
| VStr (s : string)
| VBool (b : bool)
| VInt (n : Z)
| VDict (d : gmap string string)
| VTuple (a b : value).

Global Instance value_eq_dec : EqDecision value.
Proof. solve_decision. Defined.

(** Octets are Python ints; a byte sequence is a list of them. *)
Abbreviation bytes := (list Z).

(** ** [iterator.PreviewIterator] *)

Module iterator.

(** Modelled from the spec: the lookahead cursor of [iterator.py], a
    position into an immutable byte sequence (kept here as the bytes
    still to be read) with a single pending-peek slot. *)
Record PreviewIterator := mkIter {
  pending : bytes;
  peeked : option Z
}.

(** Modelled from the spec: [PreviewIterator(data)], a cursor at the
    start of [data] with nothing peeked. *)
Definition fresh (data : bytes) : PreviewIterator := mkIter data None.

(** Stateful computations over a cursor; the cursor survives a raise,
    as the Python object does. *)
Definition M (A : Type) : Type := PreviewIterator → result A * PreviewIterator.

(** Modelled from the spec: [preview()] returns the next byte without
    consuming it, and can be repeated; on an exhausted cursor it
    raises StopIteration. *)
Definition preview : M Z := λ it,
  match peeked it with
  | Some b => (Ok b, it)
  | None =>
      match pending it with
      | [] => (Raise StopIteration, it)
      | b :: _ => (Ok b, mkIter (pending it) (Some b))
      end
  end.

(** Modelled from the spec: [next()] consumes one byte, and fails
    with StopIteration when none remain. *)
Definition next : M Z := λ it,
  match pending it with
  | [] => (Raise StopIteration, mkIter [] None)
  | b :: rest => (Ok b, mkIter rest None)
  end.

(** Modelled from the spec: [reset_preview()] rolls back the pending
    peek. *)
Definition reset_preview : M unit := λ it, (Ok (), mkIter (pending it) None).

End iterator.
Export iterator.

Global Instance M_ret : MRet M := λ A a it, (Ok a, it).
Global Instance M_bind : MBind M := λ A B k m it,
  match m it with
  | (Ok a, it') => k a it'
  | (Raise e, it') => (Raise e, it')
  end.

Global Instance M_fmap : FMap M := λ A B f m, a ← m; mret (f a).

Definition raise {A} (e : exn) : M A := λ it, (Raise e, it).

(** A pure computation that may raise, run inside a cursor computation. *)
Definition lift {A} (r : result A) : M A := λ it, (r, it).

(** [try: m  except e: h] — only the listed exception is handled. *)
Definition try_except {A} (m : M A) (e : exn) (h : M A) : M A := λ it,
  match m it with
  | (Raise e', it') => if decide (e' = e) then h it' else (Raise e', it')
  | r => r
  end.

(** A Python dict literal (or the attribute table of a class), looked up
    with [in] / [[]]. *)
Fixpoint dict_get `{EqDecision K} {V} (d : list (K * V)) (k : K) : option V :=
  match d with
  | [] => None
  | (k', v) :: d' => if decide (k = k') then Some v else dict_get d' k
  end.

(** ** The header field registry *)

Definition mms_field_names : list (Z * (string * option string)) :=
  [ (0x01, ("Bcc", Some "EncodedStringValue"));
    (0x02, ("Cc", Some "EncodedStringValue"));
    (0x03, ("Content-Location", Some "UriValue"));
    (0x04, ("Content-Type", Some "ContentTypeValue"));
    (0x05, ("Date", Some "DateValue"));
    (0x06, ("Delivery-Report", Some "BooleanValue"));
    (0x07, ("Delivery-Time", None));
    (0x08, ("Expiry", Some "ExpiryValue"));
    (0x09, ("From", Some "FromValue"));
    (0x0a, ("Message-Class", Some "MessageClassValue"));
    (0x0b, ("Message-ID", Some "TextString"));
    (0x0c, ("Message-Type", Some "MessageTypeValue"));
    (0x0d, ("MMS-Version", Some "VersionValue"));
    (0x0e, ("Message-Size", Some "LongInteger"));
    (0x0f, ("Priority", Some "PriorityValue"));
    (0x10, ("Read-Reply", Some "BooleanValue"));
    (0x11, ("Report-Allowed", Some "BooleanValue"));
    (0x12, ("Response-Status", Some "ResponseStatusValue"));
    (0x13, ("Response-Text", Some "EncodedStringValue"));
    (0x14, ("Sender-Visibility", Some "SenderVisibilityValue"));
    (0x15, ("Status", Some "StatusValue"));
    (0x16, ("Subject", Some "EncodedStringValue"));
    (0x17, ("To", Some "EncodedStringValue"));
    (0x18, ("Transaction-Id", Some "TextString")) ].

(** ['decode%s' % name]: Python formats [None] as ["None"]. *)
Definition format_kind (prefix : string) (kind : option string) : string :=
  prefix +:+ default "None" kind.

(** ** [wsp_pdu]: the primitive codec the MMS classes build on

    [wsp_pdu.py] is another module of the package: the functions that
    [mms_pdu.py] calls on [wsp_pdu.Decoder] and [wsp_pdu.Encoder] are the
    fields of two interfaces.  The general results below hold for any
    implementation of them (under the stated laws, where laws are
    needed). *)

Module wsp_pdu.

Class Decoder := {
  decodeShortIntegerFromByte : Z → result Z;
  decodeUintvar : M Z;
  decodeValueLength : M Z;
  decodeWellKnownCharset : M value;
  decodeTextString : M string;
  decodeTokenText : M string;
  decodeContentTypeValue : M (string * gmap string string);
  decodeUriValue : M value;
  decodeDateValue : M value;
  decodeDeltaSecondsValue : M value;
  decodeVersionValue : M value;
  decodeLongInteger : M value;
  decode_header : M (string * value)
}.

Class Encoder := {
  encodeShortInteger : Z → result bytes;
  encodeUintvar : Z → result bytes;
  encodeValueLength : Z → result bytes;
  encodeTextString : value → result bytes;
  encodeTokenText : string → result bytes;
  encodeContentTypeValue : value → value → result bytes;
  encode_header : string → value → result bytes;
  (** [getattr] on the base class, for the value encoders that
      [MMSEncoder] does not define itself. *)
  Encoder_getattr : string → option (value → result bytes)
}.

End wsp_pdu.

(** ** [message]: the message and presentation model *)

Module message.

(** Modelled from the spec: the DataPart of [message.py], a content
    type string, a content-type parameter mapping, a header mapping
    that includes its own Content-Type entry, and a payload of known
    length. *)
Record DataPart := mkDataPart {
  data : bytes;
  content_type : string;
  content_type_parameters : gmap string string;
  part_headers : gmap string value
}.

(** Modelled from the spec: [message.DataPart()], a part with nothing
    set. *)
Definition new_DataPart : DataPart := mkDataPart [] "" ∅ ∅.

(** Modelled from the spec: [part.set_data(data, content_type)] sets
    the payload and the content type, which the part's header mapping
    carries as its Content-Type entry. *)
Definition set_data (d : bytes) (ct : string) (p : DataPart) : DataPart :=
  mkDataPart d ct (content_type_parameters p)
    (<["Content-Type" := VTuple (VStr ct) (VDict ∅)]> (part_headers p)).

(** The attribute assignments [part.content_type_parameters = ps] and
    [part.headers = h]. *)
Definition set_content_type_parameters (ps : gmap string string) (p : DataPart) : DataPart :=
  mkDataPart (data p) (content_type p) ps (part_headers p).

Definition set_part_headers (h : gmap string value) (p : DataPart) : DataPart :=
  mkDataPart (data p) (content_type p) (content_type_parameters p) h.

(** Modelled from the spec: [len(part)], the payload length. *)
Definition len (p : DataPart) : Z := Z.of_nat (length (data p)).

(** Modelled from the spec: a page of [message.py] groups optional
    image, audio and text entries; an entry is a tuple whose first
    component is the part (the rest is timing). *)
Record MMSMessagePage := mkPage {
  image : option (DataPart * (Z * Z));
  audio : option (DataPart * (Z * Z));
  text : option (DataPart * (Z * Z))
}.

(** Modelled from the spec: [page.number_of_parts()], the part count
    of a page. *)
Definition number_of_parts (page : MMSMessagePage) : Z :=
  Z.of_nat (length (omap id [image page; audio page; text page])).

(** Modelled from the spec: the MMSMessage of [message.py], a header
    mapping, a collection of pages and a mutable collection of
    DataParts. *)
Record MMSMessage := mkMessage {
  headers : gmap string value;
  _pages : list MMSMessagePage;
  _data_parts : list DataPart
}.

(** Modelled from the spec: [message.MMSMessage()], a message with no
    header, page or part. *)
Definition new_MMSMessage : MMSMessage := mkMessage ∅ [] [].

(** Modelled from the spec: [msg.add_data_part(part)] appends to the
    collection of DataParts. *)
Definition add_data_part (p : DataPart) (m : MMSMessage) : MMSMessage :=
  mkMessage (headers m) (_pages m) (_data_parts m ++ [p]).

(** The message after in-place updates have left its header dict as
    [h]. *)
Definition set_headers (h : gmap string value) (m : MMSMessage) : MMSMessage :=
  mkMessage h (_pages m) (_data_parts m).

(** Modelled from the spec: [msg.smil()] produces the synthesized
    presentation markup from the page structure of the message; the
    markup itself is written outside the codec, so the operation is a
    parameter. *)
Class Presentation := {
  smil : list MMSMessagePage → bytes
}.

End message.
Export message.

(** ** [class MMSDecoder(wsp_pdu.Decoder)] *)

Module MMSDecoder.
Section MMSDecoder.
Context `{D : wsp_pdu.Decoder}.

Definition decodeEncodedStringValue : M string :=
  try_except
    (value_length ← wsp_pdu.decodeValueLength;
     charset_value ← try_except wsp_pdu.decodeWellKnownCharset
                       DecodeError (raise Exception);
     wsp_pdu.decodeTextString)
    DecodeError
    wsp_pdu.decodeTextString.

Definition decodeBooleanValue : M bool :=
  byte ← preview;
  if bool_decide (byte ∉ [128; 129]) then
    reset_preview;; raise DecodeError
  else
    byte ← next;
    mret (bool_decide (byte = 128)).

Definition decodeFromValue : M string :=
  value_length ← wsp_pdu.decodeValueLength;
  byte ← next;
  if bool_decide (byte = 129) then mret "<not inserted>"
  else decodeEncodedStringValue.

Definition class_identifiers : list (Z * string) :=
  [ (128, "Personal"); (129, "Advertisement");
    (130, "Informational"); (131, "Auto") ].

Definition decodeMessageClassValue : M string :=
  byte ← preview;
  match dict_get class_identifiers byte with
  | Some name => next;; mret name
  | None => reset_preview;; wsp_pdu.decodeTokenText
  end.

Definition message_types : list (Z * string) :=
  [ (0x80, "m-send-req"); (0x81, "m-send-conf");
    (0x82, "m-notification-ind"); (0x83, "m-notifyresp-ind");
    (0x84, "m-retrieve-conf"); (0x85, "m-acknowledge-ind");
    (0x86, "m-delivery-ind") ].

Definition decodeMessageTypeValue : M string :=
  byte ← preview;
  match dict_get message_types byte with
  | Some name => next;; mret name
  | None => reset_preview;; mret "<unknown>"
  end.

Definition priorities : list (Z * string) :=
  [ (128, "Low"); (129, "Normal"); (130, "High") ].

Definition decodePriorityValue : M string :=
  byte ← preview;
  if bool_decide (is_Some (dict_get priorities byte)) then
    byte ← next;
    match dict_get priorities byte with
    | Some name => mret name
    | None => raise KeyError
    end
  else
    reset_preview;; raise DecodeError.

Definition decodeSenderVisibilityValue : M string :=
  byte ← preview;
  if bool_decide (byte ∉ [128; 129]) then
    reset_preview;; raise DecodeError
  else
    byte ← next;
    mret (if bool_decide (byte = 128) then "Hide" else "Show").

Definition response_status_values : list (Z * string) :=
  [ (0x80, "Ok"); (0x81, "Error-unspecified");
    (0x82, "Error-service-denied");
    (0x83, "Error-message-format-corrupt");
    (0x84, "Error-sending-address-unresolved");
    (0x85, "Error-message-not-found");
    (0x86, "Error-network-problem");
    (0x87, "Error-content-not-accepted");
    (0x88, "Error-unsupported-message") ].

(** [d.get(byte, fallback)]: a name on a hit, the numeric fallback on a
    miss. *)
Definition get_or (d : list (Z * string)) (byte fallback : Z) : value :=
  match dict_get d byte with
  | Some name => VStr name
  | None => VInt fallback
  end.

Definition decodeResponseStatusValue : M value :=
  byte ← preview;
  next;;
  mret (get_or response_status_values byte 0x81).

Definition status_values : list (Z * string) :=
  [ (0x80, "Expired"); (0x81, "Retrieved"); (0x82, "Rejected");
    (0x83, "Deferred"); (0x84, "Unrecognised") ].

Definition decodeStatusValue : M value :=
  byte ← next;
  mret (get_or status_values byte 0x84).

Definition decodeExpiryValue : M value :=
  value_length ← wsp_pdu.decodeValueLength;
  token ← next;
  if bool_decide (token = 0x80) then wsp_pdu.decodeDateValue
  else if bool_decide (token = 0x81) then wsp_pdu.decodeDeltaSecondsValue
  else raise DecodeError.

(** [getattr(MMSDecoder, name)]: the methods defined by the class, then
    those inherited from [wsp_pdu.Decoder]; [None] stands for the
    AttributeError of a missing attribute. *)
Definition attributes : list (string * M value) :=
  [ ("decodeEncodedStringValue", VStr <$> decodeEncodedStringValue);
    ("decodeBooleanValue", VBool <$> decodeBooleanValue);
    ("decodeFromValue", VStr <$> decodeFromValue);
    ("decodeMessageClassValue", VStr <$> decodeMessageClassValue);
    ("decodeMessageTypeValue", VStr <$> decodeMessageTypeValue);
    ("decodePriorityValue", VStr <$> decodePriorityValue);
    ("decodeSenderVisibilityValue", VStr <$> decodeSenderVisibilityValue);
    ("decodeResponseStatusValue", decodeResponseStatusValue);
    ("decodeStatusValue", decodeStatusValue);
    ("decodeExpiryValue", decodeExpiryValue);
    ("decodeUriValue", wsp_pdu.decodeUriValue);
    ("decodeContentTypeValue",
      '(ct, ps) ← wsp_pdu.decodeContentTypeValue;
      mret (VTuple (VStr ct) (VDict ps)));
    ("decodeDateValue", wsp_pdu.decodeDateValue);
    ("decodeTextString", VStr <$> wsp_pdu.decodeTextString);
    ("decodeVersionValue", wsp_pdu.decodeVersionValue);
    ("decodeLongInteger", wsp_pdu.decodeLongInteger) ].

Definition getattr (name : string) : option (M value) :=
  dict_get attributes name.

(** The value dispatch of [decodeMMSHeader]: a DecodeError is re-raised
    as such, anything else (the bare [except:]) becomes RuntimeError. *)
Definition decode_mms_value (kind : option string) : M value := λ it,
  let call : M value :=
    match getattr (format_kind "decode" kind) with
    | Some d => d
    | None => raise AttributeError
    end in
  match call it with
  | (Ok v, it') => (Ok v, it')
  | (Raise DecodeError, it') => (Raise DecodeError, it')
  | (Raise _, it') => (Raise RuntimeError, it')
  end.

Definition decodeMMSHeader : M (string * value) :=
  b ← preview;
  byte ← lift (wsp_pdu.decodeShortIntegerFromByte b);
  match dict_get mms_field_names byte with
  | Some (mms_field_name, kind) =>
      next;;
      mms_value ← decode_mms_value kind;
      mret (mms_field_name, mms_value)
  | None => reset_preview;; raise DecodeError
  end.

Definition decode_header : M (string * value) :=
  try_except decodeMMSHeader DecodeError wsp_pdu.decode_header.


(** *** The header block *)

(** The local variables of [decode_message_header] that outlive the
    loop: the header map of the message being built, the pair last
    bound to [header, value] ([None] while still unbound), and the
    cursor. *)
Record header_locals := mkLocals {
  hl_headers : gmap string value;
  hl_last : option (string * value);
  hl_iter : PreviewIterator
}.

(** [while content_type_found == False: ...].  Each round spends one
    unit of [fuel]; [None] means the fuel ran out before the loop
    ended (shown below never to happen with the fuel
    [decode_message_header] supplies). *)
Fixpoint decode_message_header_loop (fuel : nat) (st : header_locals)
  : option (result header_locals) :=
  match fuel with
  | O => None
  | S fuel' =>
      match decode_header (hl_iter st) with
      | (Raise StopIteration, it') =>
          Some (Ok (mkLocals (hl_headers st) (hl_last st) it'))
      | (Raise e, _) => Some (Raise e)
      | (Ok (header, value), it') =>
          if decide (header = "Content-Type") then
            Some (Ok (mkLocals (hl_headers st) (Some (header, value)) it'))
          else
            decode_message_header_loop fuel'
              (mkLocals (<[header := value]> (hl_headers st))
                        (Some (header, value)) it')
      end
  end.

(** The statement after the loop: [if header == 'Content-Type': ...],
    which reads [header] whether or not the loop ever bound it. *)
Definition record_content_type (st : header_locals) : result header_locals :=
  match hl_last st with
  | None => Raise UnboundLocalError
  | Some (header, value) =>
      if decide (header = "Content-Type") then
        Ok (mkLocals (<[header := value]> (hl_headers st)) (hl_last st) (hl_iter st))
      else Ok st
  end.

Definition decode_message_header (_mms_message : MMSMessage) (_mms_data : bytes)
  : option (result (MMSMessage * PreviewIterator)) :=
  let data_iter := fresh _mms_data in
  match decode_message_header_loop (S (length _mms_data))
          (mkLocals (headers _mms_message) None data_iter) with
  | None => None
  | Some (Raise e) => Some (Raise e)
  | Some (Ok st) =>
      match record_content_type st with
      | Raise e => Some (Raise e)
      | Ok st' => Some (Ok (set_headers (hl_headers st') _mms_message, hl_iter st'))
      end
  end.

(** *** The body block *)

(** [for i in range(n): acc.append(data_iter.next())] *)
Fixpoint read_bytes (n : nat) : M bytes :=
  match n with
  | O => mret []
  | S n' => b ← next; bs ← read_bytes n'; mret (b :: bs)
  end.

(** [while True: try: hdr, value = decode_header(ct_iter); headers[hdr] = value
                 except StopIteration: break] *)
Fixpoint decode_part_headers (fuel : nat) (hdrs : gmap string value)
    (ct_iter : PreviewIterator) : option (result (gmap string value * PreviewIterator)) :=
  match fuel with
  | O => None
  | S fuel' =>
      match decode_header ct_iter with
      | (Raise StopIteration, it') => Some (Ok (hdrs, it'))
      | (Raise e, _) => Some (Raise e)
      | (Ok (hdr, value), it') => decode_part_headers fuel' (<[hdr := value]> hdrs) it'
      end
  end.

(** What one part's header block decodes to: the Content-Type value
    first, then further headers until the sub-cursor over
    [ct_field_bytes] is exhausted. *)
Definition decode_part_header_block (ct_field_bytes : bytes)
  : option (result (string * gmap string string * gmap string value * PreviewIterator)) :=
  let ct_iter := fresh ct_field_bytes in
  match wsp_pdu.decodeContentTypeValue ct_iter with
  | (Raise e, _) => Some (Raise e)
  | (Ok (content_type, ct_parameters), ct_iter') =>
      let hdrs : gmap string value :=
        {[ "Content-Type" := VTuple (VStr content_type) (VDict ct_parameters) ]} in
      match decode_part_headers (S (length ct_field_bytes)) hdrs ct_iter' with
      | None => None
      | Some (Raise e) => Some (Raise e)
      | Some (Ok (hdrs', it')) => Some (Ok (content_type, ct_parameters, hdrs', it'))
      end
  end.

(** One round of [for part_num in range(num_entries)]. *)
Definition decode_part (data_iter : PreviewIterator)
  : option (result DataPart * PreviewIterator) :=
  match wsp_pdu.decodeUintvar data_iter with
  | (Raise e, it1) => Some (Raise e, it1)
  | (Ok headers_len, it1) =>
  match wsp_pdu.decodeUintvar it1 with
  | (Raise e, it2) => Some (Raise e, it2)
  | (Ok data_len, it2) =>
  match read_bytes (Z.to_nat headers_len) it2 with
  | (Raise e, it3) => Some (Raise e, it3)
  | (Ok ct_field_bytes, it3) =>
  match decode_part_header_block ct_field_bytes with
  | None => None
  | Some (Raise e) => Some (Raise e, it3)
  | Some (Ok (content_type, ct_parameters, hdrs, _)) =>
  match read_bytes (Z.to_nat data_len) it3 with
  | (Raise e, it4) => Some (Raise e, it4)
  | (Ok data, it4) =>
      let part := new_DataPart in
      let part := set_data data content_type part in
      let part := set_content_type_parameters ct_parameters part in
      let part := set_part_headers hdrs part in
      Some (Ok part, it4)
  end end end end end.

Fixpoint decode_parts (n : nat) (msg : MMSMessage) (data_iter : PreviewIterator)
  : option (result MMSMessage * PreviewIterator) :=
  match n with
  | O => Some (Ok msg, data_iter)
  | S n' =>
      match decode_part data_iter with
      | None => None
      | Some (Raise e, it') => Some (Raise e, it')
      | Some (Ok part, it') => decode_parts n' (add_data_part part msg) it'
      end
  end.

Definition decode_message_body (_mms_message : MMSMessage) (data_iter : PreviewIterator)
  : option (result MMSMessage * PreviewIterator) :=
  match wsp_pdu.decodeUintvar data_iter with
  | (Raise StopIteration, it') => Some (Ok _mms_message, it')
  | (Raise e, it') => Some (Raise e, it')
  | (Ok num_entries, it') => decode_parts (Z.to_nat num_entries) _mms_message it'
  end.

Definition decode_data (data : bytes) : option (result MMSMessage) :=
  let _mms_message := new_MMSMessage in
  match decode_message_header _mms_message data with
  | None => None
  | Some (Raise e) => Some (Raise e)
  | Some (Ok (_mms_message, body_iter)) =>
      match decode_message_body _mms_message body_iter with
      | None => None
      | Some (r, _) => Some r
      end
  end.

End MMSDecoder.
End MMSDecoder.

(** ** Python built-ins used by the encoder *)

(** [s.startswith(old)], returning what follows the prefix. *)
Fixpoint strip_prefix (old s : string) : option string :=
  match old, s with
  | EmptyString, _ => Some s
  | String a old', String b s' =>
      if decide (a = b) then strip_prefix old' s' else None
  | String _ _, EmptyString => None
  end.

(** [s.replace(old, new, 1)] *)
Fixpoint replace_first (old new s : string) : string :=
  match strip_prefix old s with
  | Some rest => new +:+ rest
  | None =>
      match s with
      | EmptyString => EmptyString
      | String c s' => String c (replace_first old new s')
      end
  end.

(** [len(v)] *)
Definition py_len (v : value) : result Z :=
  match v with
  | VStr s => Ok (Z.of_nat (String.length s))
  | VDict d => Ok (Z.of_nat (size d))
  | VTuple _ _ => Ok 2
  | VBool _ | VInt _ => Raise TypeError
  end.

(** Whether [v] can be a dict key: dicts, and tuples holding one, are
    unhashable. *)
Fixpoint hashable (v : value) : bool :=
  match v with
  | VDict _ => false
  | VTuple a b => hashable a && hashable b
  | _ => true
  end.

(** [a, b = v]: unpacking into exactly two targets. *)
Definition unpack2 (v : value) : result (value * value) :=
  match v with
  | VTuple a b => Ok (a, b)
  | VStr (String c1 (String c2 EmptyString)) =>
      Ok (VStr (String c1 EmptyString), VStr (String c2 EmptyString))
  | VStr _ => Raise ValueError
  | VDict d =>
      match map_to_list d with
      | [(k1, _); (k2, _)] => Ok (VStr k1, VStr k2)
      | _ => Raise ValueError
      end
  | VBool _ | VInt _ => Raise TypeError
  end.

(** [for assigned_number in mms_field_names: if mms_field_names[n][0] == name: ...; break] *)
Fixpoint find_field (name : string) (table : list (Z * (string * option string)))
  : option (Z * option string) :=
  match table with
  | [] => None
  | (assigned_number, (header, kind)) :: table' =>
      if decide (header = name) then Some (assigned_number, kind)
      else find_field name table'
  end.

(** ** [class MMSEncoder(wsp_pdu.Encoder)] *)

Module MMSEncoder.
Section MMSEncoder.
Context `{E : wsp_pdu.Encoder} `{P : message.Presentation}.

Definition encodeEncodedStringValue (string_value : value) : result bytes :=
  wsp_pdu.encodeTextString string_value.

Definition encodeFromValue (from_value : value) : result bytes :=
  n ← py_len from_value;
  if bool_decide (n = 0) then
    value_length ← wsp_pdu.encodeValueLength 1;
    mret (value_length ++ [129])
  else
    encoded_address ← encodeEncodedStringValue from_value;
    let length := Z.of_nat (length encoded_address) + 1 in
    value_length ← wsp_pdu.encodeValueLength length;
    mret (value_length ++ [128] ++ encoded_address).

Definition message_types : list (string * Z) :=
  [ ("m-send-req", 0x80); ("m-send-conf", 0x81);
    ("m-notification-ind", 0x82); ("m-notifyresp-ind", 0x83);
    ("m-retrieve-conf", 0x84); ("m-acknowledge-ind", 0x85);
    ("m-delivery-ind", 0x86) ].

Definition encodeMessageTypeValue (message_type : value) : result bytes :=
  if hashable message_type then
    match message_type with
    | VStr s => Ok [default 0x80 (dict_get message_types s)]
    | _ => Ok [0x80]
    end
  else Raise TypeError.

(** [getattr(MMSEncoder, name)] for the value encoders: the methods the
    class defines, then those of the base class. *)
Definition attributes : list (string * (value → result bytes)) :=
  [ ("encodeFromValue", encodeFromValue);
    ("encodeEncodedStringValue", encodeEncodedStringValue);
    ("encodeMessageTypeValue", encodeMessageTypeValue) ].

Definition getattr (name : string) : option (value → result bytes) :=
  match dict_get attributes name with
  | Some f => Some f
  | None => wsp_pdu.Encoder_getattr name
  end.

Definition encodeMMSFieldName (field_name : string) : result bytes :=
  encoded_mms_field_name ←
    match find_field field_name mms_field_names with
    | Some (assigned_number, _) => wsp_pdu.encodeShortInteger assigned_number
    | None => Ok []
    end;
  if bool_decide (length encoded_mms_field_name = 0%nat) then Raise EncodeError
  else Ok encoded_mms_field_name.

Definition encode_header (header_field_name : string) (header_value : value)
  : result bytes :=
  encoded_header ←
    match find_field header_field_name mms_field_names with
    | Some (assigned_number, expected_type) =>
        number ← wsp_pdu.encodeShortInteger assigned_number;
        match getattr (format_kind "encode" expected_type) with
        | None => Raise AttributeError
        | Some f => ret ← f header_value; Ok (number ++ ret)
        end
    | None => Ok []
    end;
  if bool_decide (length encoded_header = 0%nat) then
    encoded_header_name ← wsp_pdu.encodeTokenText header_field_name;
    text ← wsp_pdu.encodeTextString header_value;
    Ok (encoded_header_name ++ text)
  else Ok encoded_header.

(** *** The header block *)

Definition clean_header (hdr : string) : string :=
  if decide (hdr = "X-Mms-Version") then "MMS-Version"
  else replace_first "X-Mms-" "" hdr.

(** One round of the alias loop:
    [if hdr in h: h[clean_header] = h[hdr]; del h[hdr]]. *)
Definition use_alias (h : gmap string value) (hdr : string) : gmap string value :=
  match h !! hdr with
  | Some v => delete hdr (<[clean_header hdr := v]> h)
  | None => h
  end.

Definition normalize_aliases (h : gmap string value) : gmap string value :=
  foldl use_alias h ["X-Mms-Message-Type"; "X-Mms-Transaction-Id"; "X-Mms-Version"].

(** Message-Type verification. *)
Definition found_dest_address (h : gmap string value) : bool :=
  existsb (λ address_type, bool_decide (is_Some (h !! address_type)))
          ["To"; "Cc"; "Bc"].

Definition verify_message_type (h : gmap string value) : gmap string value :=
  let h := if bool_decide (is_Some (h !! "Message-Type")) then h
           else <["Message-Type" := VStr "m-retrieve-conf"]> h in
  if bool_decide (h !! "Message-Type" = Some (VStr "m-send-req")) then
    if found_dest_address h then h
    else <["Message-Type" := VStr "m-retrieve-conf"]> h
  else h.

(** Transaction-Id verification; [rand] is the number drawn by
    [random.randint(1000, 9999)]. *)
Definition verify_transaction_id (rand : Z) (h : gmap string value) : gmap string value :=
  if bool_decide (is_Some (h !! "Transaction-Id")) then h
  else <["Transaction-Id" := VStr (pretty rand)]> h.

Definition verify_version (h : gmap string value) : gmap string value :=
  if bool_decide (is_Some (h !! "MMS-Version")) then h
  else <["MMS-Version" := VStr "1.0"]> h.

(** The header map once aliases are normalized and defaults filled. *)
Definition prepare_headers (rand : Z) (h : gmap string value) : gmap string value :=
  verify_version (verify_transaction_id rand (verify_message_type (normalize_aliases h))).

(** [for hdr in (...): message_header.extend(encode_header(hdr, h[hdr])); del h[hdr]] *)
Fixpoint encode_first_headers (hdrs : list string) (message_header : bytes)
    (h : gmap string value) : result bytes * gmap string value :=
  match hdrs with
  | [] => (Ok message_header, h)
  | hdr :: hdrs' =>
      match h !! hdr with
      | None => (Raise KeyError, h)
      | Some v =>
          match encode_header hdr v with
          | Raise e => (Raise e, h)
          | Ok encoded =>
              encode_first_headers hdrs' (message_header ++ encoded) (delete hdr h)
          end
      end
  end.

(** [for hdr in h: if hdr != 'Content-Type': message_header.extend(...)],
    over the entries in the dict's iteration order. *)
Fixpoint encode_remaining_headers (entries : list (string * value))
    (message_header : bytes) : result bytes :=
  match entries with
  | [] => Ok message_header
  | (hdr, v) :: entries' =>
      if decide (hdr ≠ "Content-Type") then
        encoded ← encode_header hdr v;
        encode_remaining_headers entries' (message_header ++ encoded)
      else encode_remaining_headers entries' message_header
  end.

Definition encode_content_type_header (h : gmap string value) : result bytes :=
  match h !! "Content-Type" with
  | None => Raise KeyError
  | Some v =>
      '(content_type, ct_parameters) ← unpack2 v;
      name ← encodeMMSFieldName "Content-Type";
      val ← wsp_pdu.encodeContentTypeValue content_type ct_parameters;
      Ok (name ++ val)
  end.

(** [encode_message_header]: the bytes of the header block (or the
    exception raised) and the header map of the message as the call
    leaves it — [headers_to_encode] is the message's own dict, not a
    copy. *)
Definition encode_message_header (rand : Z) (headers_to_encode : gmap string value)
  : result bytes * gmap string value :=
  let h := prepare_headers rand headers_to_encode in
  match encode_first_headers ["Message-Type"; "Transaction-Id"; "MMS-Version"] [] h with
  | (Raise e, h) => (Raise e, h)
  | (Ok message_header, h) =>
      (message_header ← encode_remaining_headers (map_to_list h) message_header;
       ct ← encode_content_type_header h;
       Ok (message_header ++ ct), h)
  end.

(** *** The body block *)

Definition num_entries (msg : MMSMessage) : Z :=
  let n := foldl (λ n page, n + number_of_parts page) 1 (_pages msg) in
  foldl (λ n data_part, n + 1) n (_data_parts msg).

Definition smil_part (msg : MMSMessage) : DataPart :=
  let part := set_data (smil (_pages msg)) "application/smil" new_DataPart in
  set_part_headers (<["Content-ID" := VStr "<0000>"]> (part_headers part)) part.

(** [for part_tuple in (slide.image, slide.audio, slide.text):
       if part_tuple is not None: parts.append(part_tuple[0])] *)
Definition slide_parts (slide : MMSMessagePage) : list DataPart :=
  fst <$> omap id [image slide; audio slide; text slide].

Definition parts (msg : MMSMessage) : list DataPart :=
  smil_part msg :: concat (slide_parts <$> _pages msg).

Fixpoint encode_part_headers (entries : list (string * value))
    (encoded_part_headers : bytes) : result bytes :=
  match entries with
  | [] => Ok encoded_part_headers
  | (hdr, v) :: entries' =>
      if decide (hdr = "Content-Type") then
        encode_part_headers entries' encoded_part_headers
      else
        encoded ← wsp_pdu.encode_header hdr v;
        encode_part_headers entries' (encoded_part_headers ++ encoded)
  end.

(** The bytes one round of [for part in parts] appends. *)
Definition encode_part (part : DataPart) : result bytes :=
  match part_headers part !! "Content-Type" with
  | None => Raise KeyError
  | Some v =>
      '(name, val_type) ← unpack2 v;
      part_content_type ← wsp_pdu.encodeContentTypeValue name val_type;
      encoded_part_headers ← encode_part_headers (map_to_list (part_headers part)) [];
      let headers_len :=
        Z.of_nat (length part_content_type) + Z.of_nat (length encoded_part_headers) in
      hl ← wsp_pdu.encodeUintvar headers_len;
      dl ← wsp_pdu.encodeUintvar (len part);
      Ok (hl ++ dl ++ part_content_type ++ encoded_part_headers ++ data part)
  end.

Fixpoint encode_parts (ps : list DataPart) (message_body : bytes) : result bytes :=
  match ps with
  | [] => Ok message_body
  | part :: ps' =>
      encoded ← encode_part part;
      encode_parts ps' (message_body ++ encoded)
  end.

Definition encode_message_body (msg : MMSMessage) : result bytes :=
  count ← wsp_pdu.encodeUintvar (num_entries msg);
  encode_parts (parts msg) count.

(** [encode]: the PDU (or the exception raised) and the message as the
    call leaves it. *)
Definition encode (rand : Z) (mms_message : MMSMessage) : result bytes * MMSMessage :=
  match encode_message_header rand (headers mms_message) with
  | (Raise e, h) => (Raise e, set_headers h mms_message)
  | (Ok msg_data, h) =>
      let mms_message := set_headers h mms_message in
      (body ← encode_message_body mms_message; Ok (msg_data ++ body), mms_message)
  end.

End MMSEncoder.
End MMSEncoder.

(** ** Default filling as the specification words it *)

Module Spec.

(** Following the spec's words: "if Message-Type is m-send-req but
    none of To/Cc/Bcc is present, downgrade to m-retrieve-conf". *)
Definition found_dest_address (h : gmap string value) : bool :=
  existsb (λ address_type, bool_decide (is_Some (h !! address_type)))
          ["To"; "Cc"; "Bcc"].

Definition verify_message_type (h : gmap string value) : gmap string value :=
  let h := if bool_decide (is_Some (h !! "Message-Type")) then h
           else <["Message-Type" := VStr "m-retrieve-conf"]> h in
  if bool_decide (h !! "Message-Type" = Some (VStr "m-send-req")) then
    if found_dest_address h then h
    else <["Message-Type" := VStr "m-retrieve-conf"]> h
  else h.

(** The header map after alias normalization and default filling. *)
Definition prepare_headers (rand : Z) (h : gmap string value) : gmap string value :=
  MMSEncoder.verify_version
    (MMSEncoder.verify_transaction_id rand
       (verify_message_type (MMSEncoder.normalize_aliases h))).

End Spec.

(** ** A reference implementation of the primitive codec

    The general results do not depend on this implementation: it
    instantiates them and serves to run the codec on concrete messages.
    It follows what the specification says of the primitives — their
    names, the variable-length integer, the short integer, the
    null-terminated token text, the application header — in their
    textual forms; the well-known number tables of WSP are left out. *)

Module WspModel.

(** [chr(byte)] and [ord(char)] *)
Definition chr (b : Z) : Stdlib.Strings.Ascii.ascii :=
  Stdlib.Strings.Ascii.ascii_of_N (Z.to_N b).

Definition ord (c : Stdlib.Strings.Ascii.ascii) : Z :=
  Z.of_N (Stdlib.Strings.Ascii.N_of_ascii c).

(** The octets of a string. *)
Fixpoint str_bytes (s : string) : bytes :=
  match s with
  | EmptyString => []
  | String c s' => ord c :: str_bytes s'
  end.

(** *** Decoding *)

(** Modelled from the spec: [decodeShortIntegerFromByte] of
    [wsp_pdu.py]; a short integer has its high bit set and carries its
    value in the low seven bits. *)
Definition decodeShortIntegerFromByte (byte : Z) : result Z :=
  if bool_decide (Z.land byte 0x80 = 0) then Raise DecodeError
  else Ok (Z.land byte 0x7f).

(** Modelled from the spec: [decodeShortInteger] of [wsp_pdu.py], with
    the peek-then-commit discipline of all decoders. *)
Definition decodeShortInteger : M Z :=
  byte ← preview;
  if bool_decide (Z.land byte 0x80 = 0) then reset_preview;; raise DecodeError
  else byte ← next; mret (Z.land byte 0x7f).

(** Modelled from the spec: the octets of a variable-length integer,
    most significant group first; the top bit of an octet is the
    continuation flag, the low seven bits are payload. *)
Fixpoint uintvar_octets (uint : Z) (l : bytes) : result Z * bytes :=
  match l with
  | [] => (Raise StopIteration, [])
  | byte :: l' =>
      let uint := Z.lor (Z.shiftl uint 7) (Z.land byte 0x7f) in
      if bool_decide (Z.shiftr byte 7 = 1) then uintvar_octets uint l'
      else (Ok uint, l')
  end.

(** Modelled from the spec: [decodeUintvar] of [wsp_pdu.py]. *)
Definition decodeUintvar : M Z := λ it,
  let '(r, l) := uintvar_octets 0 (pending it) in (r, mkIter l None).

(** Modelled from the spec: [decodeValueLength] of [wsp_pdu.py], the
    length prefix of a structured value: a short length up to 30, or
    the length quote 31 and a variable-length integer. *)
Definition decodeValueLength : M Z :=
  byte ← preview;
  if bool_decide (0 ≤ byte ≤ 30) then next
  else if bool_decide (byte = 31) then next;; decodeUintvar
  else reset_preview;; raise DecodeError.

(** Modelled from the spec: null-terminated text, read up to and
    including the terminating zero octet. *)
Fixpoint text_octets (l : bytes) : result string * bytes :=
  match l with
  | [] => (Raise StopIteration, [])
  | byte :: l' =>
      if bool_decide (byte = 0) then (Ok EmptyString, l')
      else match text_octets l' with
           | (Ok s, l'') => (Ok (String (chr byte) s), l'')
           | r => r
           end
  end.

(** Modelled from the spec: [decodeTextString] of [wsp_pdu.py]. *)
Definition decodeTextString : M string := λ it,
  let '(r, l) := text_octets (pending it) in (r, mkIter l None).

(** Modelled from the spec: [decodeTokenText] of [wsp_pdu.py], a
    null-terminated textual token; it starts with a printable
    character, else DecodeError with the cursor unchanged. *)
Definition decodeTokenText : M string :=
  byte ← preview;
  if bool_decide (32 < byte < 127) then decodeTextString
  else reset_preview;; raise DecodeError.

(** Modelled from the spec: [decodeWellKnownCharset] of [wsp_pdu.py];
    the charset is a registered number, read here as a short
    integer. *)
Definition decodeWellKnownCharset : M value := VInt <$> decodeShortInteger.

(** Modelled from the spec: the big-endian octets of a long
    integer. *)
Definition decodeMultiOctet (n : Z) : M Z :=
  octets ← MMSDecoder.read_bytes (Z.to_nat n);
  mret (foldl (λ acc byte, acc * 256 + byte) 0 octets).

(** Modelled from the spec: [decodeLongInteger] of [wsp_pdu.py], a
    length-prefixed large integer. *)
Definition decodeLongIntegerZ : M Z :=
  byte ← preview;
  if bool_decide (1 ≤ byte ≤ 30) then next;; decodeMultiOctet byte
  else reset_preview;; raise DecodeError.

(** Modelled from the spec: the same, as a header value. *)
Definition decodeLongInteger : M value := VInt <$> decodeLongIntegerZ.

(** Modelled from the spec: an integer value of [wsp_pdu.py], short or
    long (delta-seconds). *)
Definition decodeIntegerValue : M value :=
  try_except (VInt <$> decodeShortInteger) DecodeError decodeLongInteger.

(** Modelled from the spec: [decodeVersionValue] of [wsp_pdu.py]: a
    short integer holding major and minor numbers, else text. *)
Definition decodeVersionValue : M value :=
  try_except
    (byte ← decodeShortInteger;
     let major := Z.shiftr (Z.land byte 0x70) 4 in
     let minor := Z.land byte 0x0f in
     mret (VStr (if bool_decide (minor = 0x0f) then pretty major
                 else pretty major +:+ "." +:+ pretty minor)))
    DecodeError
    (VStr <$> decodeTextString).

(** Modelled from the spec: the parameters of a content type, each a
    token-text name and a text-string value, until the octets of the
    value are used up. *)
Fixpoint decode_parameters (fuel : nat) (ps : gmap string string)
  : M (gmap string string) := λ it,
  match fuel, pending it with
  | _, [] => (Ok ps, it)
  | O, _ => (Raise DecodeError, it)
  | S fuel', _ =>
      (name ← decodeTokenText;
       v ← decodeTextString;
       decode_parameters fuel' (<[name := v]> ps)) it
  end.

(** Run [m] over a cursor of its own that holds exactly [octets]; a
    value that ends before its grammar does is malformed. *)
Definition within {A} (octets : bytes) (m : M A) : M A := λ it,
  match m (fresh octets) with
  | (Raise StopIteration, _) => (Raise DecodeError, it)
  | (r, _) => (r, it)
  end.

(** Modelled from the spec: [decodeContentTypeValue] of [wsp_pdu.py]:
    a bare media type, or a value length followed by the media type
    and its parameters. *)
Definition decodeContentTypeValue : M (string * gmap string string) :=
  try_except
    (name ← decodeTokenText; mret (name, ∅))
    DecodeError
    (n ← decodeValueLength;
     octets ← MMSDecoder.read_bytes (Z.to_nat n);
     within octets
       (name ← decodeTextString;
        ps ← decode_parameters (length octets) ∅;
        mret (name, ps))).

(** Modelled from the spec: the generic [decode_header] of
    [wsp_pdu.py], an application header: token-text name, text-string
    value. *)
Definition decode_header : M (string * value) :=
  name ← decodeTokenText;
  v ← decodeTextString;
  mret (name, VStr v).

#[export] Instance decoder : wsp_pdu.Decoder := {|
  wsp_pdu.decodeShortIntegerFromByte := decodeShortIntegerFromByte;
  wsp_pdu.decodeUintvar := decodeUintvar;
  wsp_pdu.decodeValueLength := decodeValueLength;
  wsp_pdu.decodeWellKnownCharset := decodeWellKnownCharset;
  wsp_pdu.decodeTextString := decodeTextString;
  wsp_pdu.decodeTokenText := decodeTokenText;
  wsp_pdu.decodeContentTypeValue := decodeContentTypeValue;
  wsp_pdu.decodeUriValue := VStr <$> decodeTextString;
  wsp_pdu.decodeDateValue := decodeLongInteger;
  wsp_pdu.decodeDeltaSecondsValue := decodeIntegerValue;
  wsp_pdu.decodeVersionValue := decodeVersionValue;
  wsp_pdu.decodeLongInteger := decodeLongInteger;
  wsp_pdu.decode_header := decode_header
|}.

(** *** Encoding *)

(** Modelled from the spec: [encodeShortInteger] of [wsp_pdu.py]; the
    high bit is set on a value of at most seven bits. *)
Definition encodeShortInteger (integer : Z) : result bytes :=
  if bool_decide (integer < 0 ∨ integer > 127) then Raise EncodeError
  else Ok [Z.lor 0x80 integer].

(** Modelled from the spec: the octets of a variable-length integer
    above the lowest one, each with its continuation flag. *)
Fixpoint uintvar_high (fuel : nat) (uint : Z) (uintvar : bytes) : bytes :=
  match fuel with
  | O => uintvar
  | S fuel' =>
      if bool_decide (uint > 0) then
        uintvar_high fuel' (Z.shiftr uint 7) (Z.lor 0x80 (Z.land uint 0x7f) :: uintvar)
      else uintvar
  end.

(** Modelled from the spec: [encodeUintvar] of [wsp_pdu.py]. *)
Definition encodeUintvarZ (uint : Z) : bytes :=
  uintvar_high (Z.to_nat (Z.log2 uint) + 1) (Z.shiftr uint 7) [Z.land uint 0x7f].

(** Modelled from the spec: the same, as the encoder's method; it
    does not fail. *)
Definition encodeUintvar (uint : Z) : result bytes := Ok (encodeUintvarZ uint).

(** Modelled from the spec: [encodeValueLength] of [wsp_pdu.py]. *)
Definition encodeValueLength (length : Z) : result bytes :=
  if bool_decide (0 ≤ length ≤ 30) then Ok [length]
  else Ok (31 :: encodeUintvarZ length).

(** Modelled from the spec: null-terminated text. *)
Definition encodeText (s : string) : bytes := str_bytes s ++ [0].

(** Modelled from the spec: [encodeTextString] of [wsp_pdu.py]. *)
Definition encodeTextString (v : value) : result bytes :=
  match v with
  | VStr s => Ok (encodeText s)
  | _ => Raise TypeError
  end.

(** Modelled from the spec: [encodeTokenText] of [wsp_pdu.py]. *)
Definition encodeTokenText (s : string) : result bytes := Ok (encodeText s).

(** Modelled from the spec: the parameters of a content type, each a
    token-text name and a text-string value. *)
Definition encodeParameters (ps : gmap string string) : bytes :=
  concat ((λ '(name, v), encodeText name ++ encodeText v) <$> map_to_list ps).

(** Modelled from the spec: [encodeContentTypeValue] of
    [wsp_pdu.py]. *)
Definition encodeContentTypeValue (media_type parameters : value) : result bytes :=
  match media_type, parameters with
  | VStr name, VDict ps =>
      if bool_decide (ps = ∅) then Ok (encodeText name)
      else
        let body := encodeText name ++ encodeParameters ps in
        len ← encodeValueLength (Z.of_nat (length body));
        Ok (len ++ body)
  | _, _ => Raise TypeError
  end.

(** Modelled from the spec: the generic [encode_header] of
    [wsp_pdu.py], an application header. *)
Definition encode_header (name : string) (v : value) : result bytes :=
  text ← encodeTextString v;
  Ok (encodeText name ++ text).

(** Modelled from the spec: [encodeVersionValue] of [wsp_pdu.py], for
    the versions 1.0 to 1.3, else text. *)
Definition encodeVersionValue (v : value) : result bytes :=
  match v with
  | VStr "1.0" => Ok [0x90]
  | VStr "1.1" => Ok [0x91]
  | VStr "1.2" => Ok [0x92]
  | VStr "1.3" => Ok [0x93]
  | _ => encodeTextString v
  end.

(** Modelled from the spec: the Boolean encode rule, true to 0x80 and
    false to 0x81. *)
Definition encodeBooleanValue (v : value) : result bytes :=
  match v with
  | VBool true => Ok [0x80]
  | VBool false => Ok [0x81]
  | _ => Raise EncodeError
  end.

(** The value encoders this implementation offers by name. *)
Definition encoder_attributes : list (string * (value → result bytes)) :=
  [ ("encodeTextString", encodeTextString);
    ("encodeUriValue", encodeTextString);
    ("encodeVersionValue", encodeVersionValue);
    ("encodeBooleanValue", encodeBooleanValue) ].

#[export] Instance encoder : wsp_pdu.Encoder := {|
  wsp_pdu.encodeShortInteger := encodeShortInteger;
  wsp_pdu.encodeUintvar := encodeUintvar;
  wsp_pdu.encodeValueLength := encodeValueLength;
  wsp_pdu.encodeTextString := encodeTextString;
  wsp_pdu.encodeTokenText := encodeTokenText;
  wsp_pdu.encodeContentTypeValue := encodeContentTypeValue;
  wsp_pdu.encode_header := encode_header;
  wsp_pdu.Encoder_getattr := dict_get encoder_attributes
|}.

(** A presentation whose markup is a fixed, empty document; the codec
    only carries it. *)
#[export] Instance presentation : message.Presentation := {|
  message.smil := λ _, str_bytes "<smil></smil>"
|}.

End WspModel.

(** The reference codec is the instance of the concrete runs below; the
    general results bind a codec of their own. *)
Import WspModel.

(** ** Auxiliary definitions for the statements *)

(** Every well-formed cursor whose next byte is [b]: the bytes to read
    are [b :: rest], and the peek slot is empty or holds [b]. *)
Definition cursor_at (b : Z) (rest : bytes) (peek_pending : bool) : PreviewIterator :=
  mkIter (b :: rest) (if peek_pending then Some b else None).

(** The seven names of the message-type table, in the order of their
    codes [0x80..0x86]. *)
Definition message_type_names : list string :=
  [ "m-send-req"; "m-send-conf"; "m-notification-ind"; "m-notifyresp-ind";
    "m-retrieve-conf"; "m-acknowledge-ind"; "m-delivery-ind" ].

(** The three leading headers and the aliases that may stand for them. *)
Definition leading_headers : list string :=
  [ "Message-Type"; "Transaction-Id"; "MMS-Version" ].

Definition leading_aliases : list string :=
  [ "X-Mms-Message-Type"; "X-Mms-Transaction-Id"; "X-Mms-Version" ].

(** [del h[k]] for every [k] of [ks]. *)
Definition strip (ks : list string) (h : gmap string value) : gmap string value :=
  foldl (λ h k, delete k h) h ks.

(** ** Sample headers and messages *)

Module Examples.

Definition ct_mixed : value :=
  VTuple (VStr "application/vnd.wap.multipart.mixed") (VDict ∅).

Definition ct_related : value :=
  VTuple (VStr "application/vnd.wap.multipart.related") (VDict ∅).

(** A part attached directly to the message ([add_data_part]). *)
Definition raw_part : DataPart :=
  set_data (str_bytes "hi") "text/plain" new_DataPart.

Definition msg_raw : MMSMessage :=
  mkMessage (<["Message-Type" := VStr "m-retrieve-conf"]> {[ "Content-Type" := ct_mixed ]})
            [] [raw_part].

(** A send request whose only destination header is Bcc. *)
Definition hdrs_bcc : gmap string value :=
  <["Message-Type" := VStr "m-send-req"]>
    (<["Bcc" := VStr "+15550100"]> {[ "Content-Type" := ct_mixed ]}).

(** A message that already carries the three leading headers. *)
Definition hdrs_full : gmap string value :=
  <["Message-Type" := VStr "m-retrieve-conf"]>
    (<["Transaction-Id" := VStr "1234"]>
      (<["MMS-Version" := VStr "1.0"]> {[ "Content-Type" := ct_related ]})).

Definition msg_full : MMSMessage := mkMessage hdrs_full [] [].

(** The same headers, and one page that holds a text part. *)
Definition text_part : DataPart :=
  set_data (str_bytes "hi") "text/plain" new_DataPart.

Definition msg_page : MMSMessage :=
  mkMessage hdrs_full [mkPage None None (Some (text_part, (0, 2000)))] [].

(** The PDU that [encode] produces for [msg_page] when the random
    draw is 1234 (not used: the Transaction-Id is supplied). *)
Definition pdu_page : bytes :=
  [ 140; 132; 152; 49; 50; 51; 52; 0; 141; 144; 132; 97; 112; 112; 108;
    105; 99; 97; 116; 105; 111; 110; 47; 118; 110; 100; 46; 119; 97;
    112; 46; 109; 117; 108; 116; 105; 112; 97; 114; 116; 46; 114; 101;
    108; 97; 116; 101; 100; 0; 2; 35; 13; 97; 112; 112; 108; 105; 99;
    97; 116; 105; 111; 110; 47; 115; 109; 105; 108; 0; 67; 111; 110;
    116; 101; 110; 116; 45; 73; 68; 0; 60; 48; 48; 48; 48; 62; 0; 60;
    115; 109; 105; 108; 62; 60; 47; 115; 109; 105; 108; 62; 11; 2; 116;
    101; 120; 116; 47; 112; 108; 97; 105; 110; 0; 104; 105 ].

(** A header block — Message-Type, Transaction-Id, Content-Type —
    followed by three bytes that belong to the body. *)
Definition header_block : bytes :=
  [0x8C; 0x82; 0x98] ++ str_bytes "abcd" ++ [0; 0x84]
  ++ str_bytes "application/vnd.wap.multipart.related" ++ [0].

Definition body_prefix : bytes := [0x01; 0x02; 0x03].

(** A body of two parts, each framed by its headers-length and its
    data-length. *)
Definition body_two_parts : bytes :=
  [2]
  ++ [11; 2] ++ str_bytes "text/plain" ++ [0] ++ str_bytes "hi"
  ++ [17; 3] ++ str_bytes "image/gif" ++ [0] ++ str_bytes "X-Id" ++ [0; 55; 0]
     ++ [71; 73; 70].

(** A send request with a To header, and the PDUs that two
    successive [encode] calls on it produce, with the random draws
    1234 and 5678. *)
Definition msg_send : MMSMessage :=
  mkMessage (<["To" := VStr "+15550100"]> hdrs_bcc) [] [].

Definition pdu_send_first : bytes :=
  [ 140; 128; 152; 49; 50; 51; 52; 0; 141; 144; 129; 43; 49; 53; 53;
    53; 48; 49; 48; 48; 0; 151; 43; 49; 53; 53; 53; 48; 49; 48; 48; 0;
    132; 97; 112; 112; 108; 105; 99; 97; 116; 105; 111; 110; 47; 118;
    110; 100; 46; 119; 97; 112; 46; 109; 117; 108; 116; 105; 112; 97;
    114; 116; 46; 109; 105; 120; 101; 100; 0; 1; 35; 13; 97; 112; 112;
    108; 105; 99; 97; 116; 105; 111; 110; 47; 115; 109; 105; 108; 0;
    67; 111; 110; 116; 101; 110; 116; 45; 73; 68; 0; 60; 48; 48; 48;
    48; 62; 0; 60; 115; 109; 105; 108; 62; 60; 47; 115; 109; 105; 108;
    62 ].

Definition pdu_send_second : bytes :=
  [ 140; 132; 152; 53; 54; 55; 56; 0; 141; 144; 129; 43; 49; 53; 53;
    53; 48; 49; 48; 48; 0; 151; 43; 49; 53; 53; 53; 48; 49; 48; 48; 0;
    132; 97; 112; 112; 108; 105; 99; 97; 116; 105; 111; 110; 47; 118;
    110; 100; 46; 119; 97; 112; 46; 109; 117; 108; 116; 105; 112; 97;
    114; 116; 46; 109; 105; 120; 101; 100; 0; 1; 35; 13; 97; 112; 112;
    108; 105; 99; 97; 116; 105; 111; 110; 47; 115; 109; 105; 108; 0;
    67; 111; 110; 116; 101; 110; 116; 45; 73; 68; 0; 60; 48; 48; 48;
    48; 62; 0; 60; 115; 109; 105; 108; 62; 60; 47; 115; 109; 105; 108;
    62 ].

(** A message with a Subject and no Content-Type. *)
Definition msg_subject : MMSMessage :=
  mkMessage {[ "Subject" := VStr "hi" ]} [] [].

(** The body that [encode_message_body] produces for [msg_page]:
    the count, the presentation part, the text part. *)
Definition body_page : bytes :=
  [ 2; 35; 13; 97; 112; 112; 108; 105; 99; 97; 116; 105; 111; 110; 47;
    115; 109; 105; 108; 0; 67; 111; 110; 116; 101; 110; 116; 45; 73;
    68; 0; 60; 48; 48; 48; 48; 62; 0; 60; 115; 109; 105; 108; 62; 60;
    47; 115; 109; 105; 108; 62; 11; 2; 116; 101; 120; 116; 47; 112;
    108; 97; 105; 110; 0; 104; 105 ].
End Examples.

(** ** Contracts and specifications

    What the results below ask of the primitive codec, and the
    relations in which they are stated. *)

(** A cursor computation is orderly when it only moves the cursor
    forward — the bytes left to read afterwards are a suffix of those
    left before — and raises StopIteration only with the cursor
    exhausted. *)
Definition stopped {A} (r : result A) : Prop :=
  match r with
  | Raise StopIteration => True
  | _ => False
  end.

Definition orderly {A} (m : M A) : Prop :=
  ∀ it r it', m it = (r, it') →
    pending it' `suffix_of` pending it
    ∧ (stopped r → pending it' = []).

(** It advances when a successful run consumes at least one byte. *)
Definition advances {A} (m : M A) : Prop :=
  ∀ it a it', m it = (Ok a, it') →
    (length (pending it') < length (pending it))%nat.

Class DecoderLaws `{D : wsp_pdu.Decoder} : Prop := {
  decodeShortIntegerFromByte_pure :
    ∀ b, ¬ stopped (wsp_pdu.decodeShortIntegerFromByte b);
  orderly_decodeUintvar : orderly wsp_pdu.decodeUintvar;
  orderly_decodeValueLength : orderly wsp_pdu.decodeValueLength;
  orderly_decodeWellKnownCharset : orderly wsp_pdu.decodeWellKnownCharset;
  orderly_decodeTextString : orderly wsp_pdu.decodeTextString;
  orderly_decodeTokenText : orderly wsp_pdu.decodeTokenText;
  orderly_decodeContentTypeValue : orderly wsp_pdu.decodeContentTypeValue;
  orderly_decodeUriValue : orderly wsp_pdu.decodeUriValue;
  orderly_decodeDateValue : orderly wsp_pdu.decodeDateValue;
  orderly_decodeDeltaSecondsValue : orderly wsp_pdu.decodeDeltaSecondsValue;
  orderly_decodeVersionValue : orderly wsp_pdu.decodeVersionValue;
  orderly_decodeLongInteger : orderly wsp_pdu.decodeLongInteger;
  orderly_decode_header : orderly wsp_pdu.decode_header;
  advances_decode_header : advances wsp_pdu.decode_header
}.
Arguments DecoderLaws D : clear implicits.

(** [headers[k] = v] for each accepted entry, in order of acceptance. *)
Definition record_entries (es : list (string * value)) (h : gmap string value)
  : gmap string value :=
  foldl (λ h '(k, v), <[k := v]> h) h es.

(** The value of [header, value] after a run of the header loop: the
    last accepted entry, or what it was before when none was accepted. *)
Definition last_entry (es : list (string * value)) (before : option (string * value))
  : option (string * value) :=
  match last es with
  | Some e => Some e
  | None => before
  end.

(** How the header loop comes to an end. *)
Inductive loop_stop :=
| ContentTypeSeen (v : value)
| Exhausted
| Aborted (e : exn).

Section header_run.
Context `{D : wsp_pdu.Decoder}.

(** [header_run it es stop it']: starting at cursor [it], successive
    [decode_header] calls accept the entries [es], none of them named
    Content-Type, and then the next call either accepts a Content-Type
    entry, or finds the cursor exhausted (StopIteration), or raises
    another exception; [it'] is the cursor after that last call. *)
Inductive header_run : PreviewIterator → list (string * value) → loop_stop →
                       PreviewIterator → Prop :=
| run_content_type it v it' :
    MMSDecoder.decode_header it = (Ok ("Content-Type", v), it') →
    header_run it [] (ContentTypeSeen v) it'
| run_exhausted it it' :
    MMSDecoder.decode_header it = (Raise StopIteration, it') →
    header_run it [] Exhausted it'
| run_aborted it e it' :
    MMSDecoder.decode_header it = (Raise e, it') →
    e ≠ StopIteration →
    header_run it [] (Aborted e) it'
| run_entry it header value it' es stop it'' :
    MMSDecoder.decode_header it = (Ok (header, value), it') →
    header ≠ "Content-Type" →
    header_run it' es stop it'' →
    header_run it ((header, value) :: es) stop it''.

(** What [decode_message_header] returns after such a run. *)
Definition header_outcome (msg : MMSMessage) (es : list (string * value))
    (stop : loop_stop) (it' : PreviewIterator)
  : result (MMSMessage * PreviewIterator) :=
  match stop with
  | ContentTypeSeen v =>
      Ok (set_headers (<["Content-Type" := v]> (record_entries es (headers msg))) msg, it')
  | Exhausted =>
      match es with
      | [] => Raise UnboundLocalError
      | _ => Ok (set_headers (record_entries es (headers msg)) msg, it')
      end
  | Aborted e => Raise e
  end.

(** [part_entries it es it']: from [it] on, [decode_header] accepts
    exactly the entries [es] and then finds the cursor exhausted. *)
Inductive part_entries : PreviewIterator → list (string * value) →
                         PreviewIterator → Prop :=
| entries_done it it' :
    MMSDecoder.decode_header it = (Raise StopIteration, it') →
    part_entries it [] it'
| entries_more it hdr value it' es it'' :
    MMSDecoder.decode_header it = (Ok (hdr, value), it') →
    part_entries it' es it'' →
    part_entries it ((hdr, value) :: es) it''.

(** [part_framed it part it']: at cursor [it] stand two
    variable-length integers [H] and [L], then [H] bytes that decode,
    on their own, to a Content-Type value followed by header entries
    up to their end, then [L] payload bytes; [part] is built from
    these, and [it'] is the cursor right after the payload. *)
Definition part_framed (it : PreviewIterator) (part : DataPart)
    (it' : PreviewIterator) : Prop :=
  ∃ (H L : Z) it1 it2 (header_bytes payload : bytes)
    content_type ct_parameters sub es sub',
    wsp_pdu.decodeUintvar it = (Ok H, it1)
    ∧ wsp_pdu.decodeUintvar it1 = (Ok L, it2)
    ∧ pending it2 = header_bytes ++ payload ++ pending it'
    ∧ length header_bytes = Z.to_nat H
    ∧ length payload = Z.to_nat L
    ∧ wsp_pdu.decodeContentTypeValue (fresh header_bytes) =
        (Ok (content_type, ct_parameters), sub)
    ∧ part_entries sub es sub'
    ∧ pending sub' = []
    ∧ part = mkDataPart payload content_type ct_parameters
               (record_entries es
                  {[ "Content-Type" := VTuple (VStr content_type) (VDict ct_parameters) ]}).

(** Parts framed one after the other. *)
Inductive parts_framed : PreviewIterator → list DataPart → PreviewIterator → Prop :=
| framed_nil it : parts_framed it [] it
| framed_cons it part it' ps it'' :
    part_framed it part it' →
    parts_framed it' ps it'' →
    parts_framed it (part :: ps) it''.

End header_run.

(** *** Encoding followed by decoding *)

Section roundtrip_defs.
Context `{D : wsp_pdu.Decoder} `{E : wsp_pdu.Encoder} `{P : message.Presentation}.

(** A header entry survives its own encoding: whatever follows it,
    [decode_header] reads it back and stops right after it. *)
Definition entry_roundtrips (k : string) (v : value) : Prop :=
  ∀ e rest, MMSEncoder.encode_header k v = Ok e →
    MMSDecoder.decode_header (fresh (e ++ rest)) = (Ok (k, v), fresh rest).

Definition content_type_roundtrips (cv : value) : Prop :=
  ∀ content_type ct_parameters name val rest,
    unpack2 cv = Ok (content_type, ct_parameters) →
    MMSEncoder.encodeMMSFieldName "Content-Type" = Ok name →
    wsp_pdu.encodeContentTypeValue content_type ct_parameters = Ok val →
    MMSDecoder.decode_header (fresh (name ++ val ++ rest)) =
      (Ok ("Content-Type", cv), fresh rest).

Definition count_roundtrips (n : Z) : Prop :=
  ∀ e rest, wsp_pdu.encodeUintvar n = Ok e →
    wsp_pdu.decodeUintvar (fresh (e ++ rest)) = (Ok n, fresh rest).

Definition part_roundtrips (p : DataPart) : Prop :=
  ∀ e rest, MMSEncoder.encode_part p = Ok e →
    MMSDecoder.decode_part (fresh (e ++ rest)) = Some (Ok p, fresh rest).

(** A part whose pieces survive their own encoding: its Content-Type
    header is the pair of its content type and parameters, and that
    pair, each further header, and the two lengths that frame the
    part are read back as written. *)
Record part_well_formed (p : DataPart) : Prop := {
  wf_content_type :
    part_headers p !! "Content-Type" =
      Some (VTuple (VStr (content_type p)) (VDict (content_type_parameters p)));
  wf_content_type_value : ∀ pct rest,
    wsp_pdu.encodeContentTypeValue
      (VStr (content_type p)) (VDict (content_type_parameters p)) = Ok pct →
    wsp_pdu.decodeContentTypeValue (fresh (pct ++ rest)) =
      (Ok (content_type p, content_type_parameters p), fresh rest);
  wf_headers : ∀ k v,
    part_headers p !! k = Some v → k ≠ "Content-Type" →
    ∀ e rest, wsp_pdu.encode_header k v = Ok e →
      MMSDecoder.decode_header (fresh (e ++ rest)) = (Ok (k, v), fresh rest);
  wf_headers_len : ∀ pct eph,
    wsp_pdu.encodeContentTypeValue
      (VStr (content_type p)) (VDict (content_type_parameters p)) = Ok pct →
    MMSEncoder.encode_part_headers (map_to_list (part_headers p)) [] = Ok eph →
    count_roundtrips (Z.of_nat (length pct) + Z.of_nat (length eph));
  wf_data_len : count_roundtrips (len p)
}.

(** The messages for which encoding followed by decoding is studied:
    no raw data part; the destination test of the encoder gives what
    the specification's gives; and every piece that [encode] emits —
    each header of the prepared map, the Content-Type header, the part
    count, the pieces of each part — survives its own encoding. *)
Record round_trippable (rand : Z) (msg : MMSMessage) : Prop := {
  rt_no_raw_parts : _data_parts msg = [];
  rt_destination :
    MMSEncoder.found_dest_address (MMSEncoder.normalize_aliases (headers msg)) =
    Spec.found_dest_address (MMSEncoder.normalize_aliases (headers msg));
  rt_entries : ∀ k v,
    MMSEncoder.prepare_headers rand (headers msg) !! k = Some v →
    k ≠ "Content-Type" → entry_roundtrips k v;
  rt_content_type : ∀ cv,
    headers msg !! "Content-Type" = Some cv → content_type_roundtrips cv;
  rt_count : count_roundtrips (MMSEncoder.num_entries msg);
  rt_parts : Forall part_well_formed (MMSEncoder.parts msg)
}.
End roundtrip_defs.

(** The layout of an encoded header block [bs] for the supplied
    headers [h0]: the encodings of Message-Type, Transaction-Id and
    MMS-Version (taken from the prepared map), in that order; then the
    encodings of the other supplied headers, in some order; then the
    Content-Type field name — the short integer 0x04 — and the
    content-type value. *)
Definition header_block_layout `{E : wsp_pdu.Encoder}
    (rand : Z) (h0 : gmap string value) (bs : bytes) : Prop :=
  let h := MMSEncoder.prepare_headers rand h0 in
  ∃ v1 v2 v3 e1 e2 e3 others mids cv content_type ct_parameters name val,
    h !! "Message-Type" = Some v1
    ∧ MMSEncoder.encode_header "Message-Type" v1 = Ok e1
    ∧ h !! "Transaction-Id" = Some v2
    ∧ MMSEncoder.encode_header "Transaction-Id" v2 = Ok e2
    ∧ h !! "MMS-Version" = Some v3
    ∧ MMSEncoder.encode_header "MMS-Version" v3 = Ok e3
    ∧ others ≡ₚ map_to_list
                  (strip ("Content-Type" :: leading_headers ++ leading_aliases) h0)
    ∧ Forall2 (λ kv e, MMSEncoder.encode_header kv.1 kv.2 = Ok e) others mids
    ∧ h0 !! "Content-Type" = Some cv
    ∧ unpack2 cv = Ok (content_type, ct_parameters)
    ∧ wsp_pdu.encodeShortInteger 0x04 = Ok name
    ∧ wsp_pdu.encodeContentTypeValue content_type ct_parameters = Ok val
    ∧ bs = e1 ++ e2 ++ e3 ++ concat mids ++ name ++ val.

(** *** Pieces of the encoded form *)

Section encoded_pieces.
Context `{D : wsp_pdu.Decoder} `{E : wsp_pdu.Encoder}.

(** The value length [n] survives its own encoding, whatever follows
    it. *)
Definition value_length_roundtrips (n : Z) : Prop :=
  ∀ value_length tail, wsp_pdu.encodeValueLength n = Ok value_length →
    wsp_pdu.decodeValueLength (fresh (value_length ++ tail)) = (Ok n, fresh tail).

(** The text [s] survives its encoding as an encoded-string value:
    its octets are not taken for a value length, and are read back as
    the text. *)
Definition text_roundtrips (s : string) : Prop :=
  ∀ text tail, wsp_pdu.encodeTextString (VStr s) = Ok text →
    ∃ it1, wsp_pdu.decodeValueLength (fresh (text ++ tail)) = (Raise DecodeError, it1)
           ∧ wsp_pdu.decodeTextString it1 = (Ok s, fresh tail).

(** The layout of one encoded part [e]: the two variable-length
    integers that declare the length of the header block and of the
    payload; the header block, made of the content-type value and of
    the encodings of the other headers of the part, in some order;
    and the payload as it is. *)
Definition part_layout (part : DataPart) (e : bytes) : Prop :=
  ∃ (hl dl pct : bytes) (others : list (string * value)) (encs : list bytes)
    (cv name val_type : value),
    part_headers part !! "Content-Type" = Some cv
    ∧ unpack2 cv = Ok (name, val_type)
    ∧ wsp_pdu.encodeContentTypeValue name val_type = Ok pct
    ∧ others ≡ₚ map_to_list (delete "Content-Type" (part_headers part))
    ∧ Forall2 (λ kv enc, wsp_pdu.encode_header kv.1 kv.2 = Ok enc) others encs
    ∧ wsp_pdu.encodeUintvar (Z.of_nat (length (pct ++ concat encs))) = Ok hl
    ∧ wsp_pdu.encodeUintvar (Z.of_nat (length (data part))) = Ok dl
    ∧ e = hl ++ dl ++ pct ++ concat encs ++ data part.

End encoded_pieces.

(** * Properties *)

(** ** Value decoders: peek, then commit or roll back *)

(** C9: for a cursor whose next byte is [b], [decodeBooleanValue] returns
    true and consumes [b] when [b = 0x80], returns false and consumes [b]
    when [b = 0x81], and for any other [b] raises DecodeError with the
    cursor back at [b]: the next read after the failure returns [b]. *)
Theorem decodeBooleanValue_spec (b : Z) (rest : bytes) (peek_pending : bool) :
  MMSDecoder.decodeBooleanValue (cursor_at b rest peek_pending) =
    (if bool_decide (b = 0x80) then (Ok true, fresh rest)
     else if bool_decide (b = 0x81) then (Ok false, fresh rest)
     else (Raise DecodeError, fresh (b :: rest)))
  ∧ next (MMSDecoder.decodeBooleanValue (cursor_at b rest peek_pending)).2 =
    (if bool_decide (b ∈ [0x80; 0x81]) then next (fresh rest)
     else (Ok b, fresh rest)).
Proof.
  assert (Hdec : MMSDecoder.decodeBooleanValue (cursor_at b rest peek_pending) =
    (if bool_decide (b = 0x80) then (Ok true, fresh rest)
     else if bool_decide (b = 0x81) then (Ok false, fresh rest)
     else (Raise DecodeError, fresh (b :: rest)))).
  { destruct (decide (b = 0x80)) as [->|H80]; [by destruct peek_pending|].
    destruct (decide (b = 0x81)) as [->|H81]; [by destruct peek_pending|].
    rewrite !bool_decide_eq_false_2 by done.
    unfold MMSDecoder.decodeBooleanValue, cursor_at, mbind, M_bind, preview.
    destruct peek_pending; simpl;
      (rewrite bool_decide_eq_true_2; [done|]);
      rewrite !not_elem_of_cons; repeat split; try done; apply not_elem_of_nil. }
  split; [exact Hdec|].
  rewrite Hdec.
  destruct (decide (b = 0x80)) as [->|H80]; [done|].
  destruct (decide (b = 0x81)) as [->|H81]; [done|].
  rewrite !bool_decide_eq_false_2; try done.
  rewrite !elem_of_cons. intros [?|[?|[]%elem_of_nil]]; done.
Qed.

Example decodeBooleanValue_0x80 :
  MMSDecoder.decodeBooleanValue (fresh [0x80; 0x01]) = (Ok true, fresh [0x01]).
Proof. reflexivity. Qed.

Example decodeBooleanValue_0x81 :
  MMSDecoder.decodeBooleanValue (fresh [0x81; 0x01]) = (Ok false, fresh [0x01]).
Proof. reflexivity. Qed.

Example decodeBooleanValue_0x7F :
  (MMSDecoder.decodeBooleanValue (fresh [0x7F; 0x01])).1 = Raise DecodeError
  ∧ next (MMSDecoder.decodeBooleanValue (fresh [0x7F; 0x01])).2 = (Ok 0x7F, fresh [0x01]).
Proof. split; reflexivity. Qed.

(** C8: for a cursor whose next byte is [b], [decodeMessageTypeValue]
    consumes [b] and returns the table's name for it when [b] is in
    [0x80..0x86]; for any other [b] it returns the sentinel ["<unknown>"]
    without consuming the byte, so the next read still sees [b]. *)
Theorem decodeMessageTypeValue_spec (b : Z) (rest : bytes) (peek_pending : bool) :
  MMSDecoder.decodeMessageTypeValue (cursor_at b rest peek_pending) =
    (if bool_decide (0x80 ≤ b ≤ 0x86)
     then (Ok (default "" (message_type_names !! Z.to_nat (b - 0x80))), fresh rest)
     else (Ok "<unknown>", fresh (b :: rest)))
  ∧ next (MMSDecoder.decodeMessageTypeValue (cursor_at b rest peek_pending)).2 =
    (if bool_decide (0x80 ≤ b ≤ 0x86) then next (fresh rest)
     else (Ok b, fresh rest)).
Proof.
  assert (Hdec : MMSDecoder.decodeMessageTypeValue (cursor_at b rest peek_pending) =
    (if bool_decide (0x80 ≤ b ≤ 0x86)
     then (Ok (default "" (message_type_names !! Z.to_nat (b - 0x80))), fresh rest)
     else (Ok "<unknown>", fresh (b :: rest)))).
  { unfold MMSDecoder.decodeMessageTypeValue, cursor_at, mbind, M_bind, preview.
    destruct peek_pending; simpl;
      repeat (case_decide; [subst; reflexivity|]);
      rewrite bool_decide_eq_false_2 by lia; reflexivity. }
  split; [exact Hdec|].
  rewrite Hdec. case_bool_decide; reflexivity.
Qed.

Example decodeMessageTypeValue_0x82 :
  MMSDecoder.decodeMessageTypeValue (fresh [0x82; 0x01]) =
    (Ok "m-notification-ind", fresh [0x01]).
Proof. reflexivity. Qed.

Example decodeMessageTypeValue_0xFF :
  MMSDecoder.decodeMessageTypeValue (fresh [0xFF; 0x01]) =
    (Ok "<unknown>", fresh [0xFF; 0x01]).
Proof. reflexivity. Qed.

(** ** Decoding the empty byte sequence *)

(** C10: on the empty byte sequence the header loop leaves at the first
    exhaustion with [header] still unbound, the Content-Type test after
    the loop then fails on the unbound name, and [decode_data] raises
    that error (UnboundLocalError) instead of returning a message. *)
Theorem decode_data_empty `{D : wsp_pdu.Decoder} (msg : MMSMessage) :
  MMSDecoder.decode_message_header_loop 1
      (MMSDecoder.mkLocals (headers msg) None (fresh [])) =
    Some (Ok (MMSDecoder.mkLocals (headers msg) None (fresh [])))
  ∧ MMSDecoder.decode_message_header msg [] = Some (Raise UnboundLocalError)
  ∧ MMSDecoder.decode_data [] = Some (Raise UnboundLocalError).
Proof. repeat split; reflexivity. Qed.

(** ** The body block, encoding: announced count against emitted parts *)

Section body_count.
Context `{E : wsp_pdu.Encoder} `{P : message.Presentation}.

Lemma number_of_parts_slide_parts (page : MMSMessagePage) :
  number_of_parts page = Z.of_nat (length (MMSEncoder.slide_parts page)).
Proof. unfold number_of_parts, MMSEncoder.slide_parts. by rewrite length_fmap. Qed.

Lemma foldl_number_of_parts (pages : list MMSMessagePage) (n : Z) :
  foldl (λ n page, n + number_of_parts page) n pages =
    n + Z.of_nat (length (concat (MMSEncoder.slide_parts <$> pages))).
Proof.
  revert n. induction pages as [|page pages IH]; intros n.
  - simpl. lia.
  - rewrite fmap_cons. cbn [foldl concat].
    rewrite IH, length_app, number_of_parts_slide_parts. lia.
Qed.

Lemma foldl_count {A} (l : list A) (n : Z) :
  foldl (λ n _, n + 1) n l = n + Z.of_nat (length l).
Proof. revert n. induction l as [|a l IH]; intros n; simpl; [|rewrite IH]; lia. Qed.

(** The count written in front of the body is the number of parts that
    follow it plus the number of raw data parts of the message: the raw
    parts are counted, and never appended to [parts]. *)
Lemma num_entries_parts (msg : MMSMessage) :
  MMSEncoder.num_entries msg =
    Z.of_nat (length (MMSEncoder.parts msg)) + Z.of_nat (length (_data_parts msg)).
Proof.
  unfold MMSEncoder.num_entries, MMSEncoder.parts.
  rewrite foldl_count, foldl_number_of_parts. simpl length. lia.
Qed.

End body_count.


(** C2, on a message with no page and one raw data part: the body
    announces two parts and is followed by one, the presentation part;
    the raw part is counted and not emitted. *)
Theorem encode_message_body_drops_raw_parts :
  MMSEncoder.num_entries Examples.msg_raw = 2
  ∧ MMSEncoder.parts Examples.msg_raw = [MMSEncoder.smil_part Examples.msg_raw]
  ∧ ∃ smil_bytes,
      MMSEncoder.encode_part (MMSEncoder.smil_part Examples.msg_raw) = Ok smil_bytes
      ∧ MMSEncoder.encode_message_body Examples.msg_raw = Ok (2 :: smil_bytes).
Proof.
  split; [reflexivity|]. split; [reflexivity|].
  eexists. split; [vm_compute; reflexivity|]. vm_compute. reflexivity.
Qed.

(** ** The header block, encoding *)

Section header_defaults.
Context `{E : wsp_pdu.Encoder}.

(** The destination test looks for the keys To, Cc and Bc. *)
Lemma found_dest_address_spec (h : gmap string value) :
  MMSEncoder.found_dest_address h = true ↔
  is_Some (h !! "To") ∨ is_Some (h !! "Cc") ∨ is_Some (h !! "Bc").
Proof.
  unfold MMSEncoder.found_dest_address. simpl.
  rewrite !orb_true_iff, !bool_decide_eq_true. intuition discriminate.
Qed.

(** A send request stays one exactly when that test succeeds. *)
Lemma verify_message_type_send_req (h : gmap string value) :
  h !! "Message-Type" = Some (VStr "m-send-req") →
  MMSEncoder.verify_message_type h !! "Message-Type" =
    Some (VStr (if MMSEncoder.found_dest_address h then "m-send-req"
                else "m-retrieve-conf")).
Proof.
  intros Hmt. unfold MMSEncoder.verify_message_type.
  rewrite bool_decide_eq_true_2 by (rewrite Hmt; eauto).
  rewrite bool_decide_eq_true_2 by done.
  destruct (MMSEncoder.found_dest_address h); [done|].
  by rewrite lookup_insert_eq.
Qed.

End header_defaults.

(** C3, on a send request whose only destination header is Bcc: the
    destination test misses Bcc, Message-Type becomes "m-retrieve-conf",
    and the header block starts with Message-Type (0x8C) carrying
    m-retrieve-conf (0x84). *)
Theorem encode_send_req_bcc_only_downgraded :
  MMSEncoder.found_dest_address Examples.hdrs_bcc = false
  ∧ MMSEncoder.verify_message_type (MMSEncoder.normalize_aliases Examples.hdrs_bcc)
      !! "Message-Type" = Some (VStr "m-retrieve-conf")
  ∧ ∃ rest, (MMSEncoder.encode_message_header 1234 Examples.hdrs_bcc).1
            = Ok (0x8C :: 0x84 :: rest).
Proof.
  split; [reflexivity|]. split; [reflexivity|].
  eexists. vm_compute. reflexivity.
Qed.

(** The same request with a To header keeps its type. *)
Example encode_send_req_to_kept :
  ∃ rest, (MMSEncoder.encode_message_header 1234
             (<["To" := VStr "+15550100"]> Examples.hdrs_bcc)).1
          = Ok (0x8C :: 0x80 :: rest).
Proof. eexists. vm_compute. reflexivity. Qed.

(** C4, refuted: encoding a message that carries Message-Type,
    Transaction-Id, MMS-Version and Content-Type returns a PDU and leaves
    the message with a different header map. *)
Lemma encode_changes_headers :
  ∃ pdu msg',
    MMSEncoder.encode 1234 Examples.msg_full = (Ok pdu, msg')
    ∧ headers msg' = {[ "Content-Type" := Examples.ct_related ]}
    ∧ headers msg' ≠ headers Examples.msg_full.
Proof.
  eexists _, _. split; [vm_compute; reflexivity|]. split; [reflexivity|].
  intros Heq. apply (f_equal (lookup "Message-Type")) in Heq.
  vm_compute in Heq. discriminate.
Qed.

(** *** What the call leaves in the header map *)

Section header_frame.
Context `{E : wsp_pdu.Encoder} `{P : message.Presentation}.

Lemma lookup_strip (ks : list string) (h : gmap string value) (k : string) :
  strip ks h !! k = if bool_decide (k ∈ ks) then None else h !! k.
Proof.
  unfold strip. revert h. induction ks as [|k' ks IH]; intros h; simpl.
  - done.
  - rewrite IH. destruct (decide (k = k')) as [->|Hne].
    + rewrite (bool_decide_eq_true_2 (k' ∈ k' :: ks)) by (apply elem_of_cons; by left).
      case_bool_decide; [done|]. by rewrite lookup_delete_eq.
    + rewrite lookup_delete_ne by done.
      case_bool_decide.
      * rewrite bool_decide_eq_true_2 by (apply elem_of_cons; by right). done.
      * rewrite bool_decide_eq_false_2; [done|].
        rewrite elem_of_cons. tauto.
Qed.

Lemma lookup_use_alias_ne (h : gmap string value) (a k : string) :
  k ≠ a → k ≠ MMSEncoder.clean_header a →
  MMSEncoder.use_alias h a !! k = h !! k.
Proof.
  intros Ha Hc. unfold MMSEncoder.use_alias.
  destruct (h !! a); [|done].
  by rewrite lookup_delete_ne, lookup_insert_ne.
Qed.

Lemma lookup_use_alias_eq (h : gmap string value) (a : string) :
  MMSEncoder.use_alias h a !! a = None.
Proof.
  unfold MMSEncoder.use_alias.
  destruct (h !! a) eqn:Ha; [by rewrite lookup_delete_eq|done].
Qed.

Lemma clean_header_values :
  MMSEncoder.clean_header "X-Mms-Message-Type" = "Message-Type"
  ∧ MMSEncoder.clean_header "X-Mms-Transaction-Id" = "Transaction-Id"
  ∧ MMSEncoder.clean_header "X-Mms-Version" = "MMS-Version".
Proof. repeat split; reflexivity. Qed.

Lemma lookup_normalize_aliases (h : gmap string value) (k : string) :
  k ∉ leading_headers →
  MMSEncoder.normalize_aliases h !! k =
    if bool_decide (k ∈ leading_aliases) then None else h !! k.
Proof.
  intros Hk. unfold MMSEncoder.normalize_aliases. cbn [foldl].
  destruct clean_header_values as (H1 & H2 & H3).
  unfold leading_headers, leading_aliases in *.
  case_bool_decide as Hin.
  - apply elem_of_cons in Hin as [->|Hin].
    { rewrite !lookup_use_alias_ne by (rewrite ?H2, ?H3; discriminate).
      apply lookup_use_alias_eq. }
    apply elem_of_cons in Hin as [->|Hin].
    { rewrite lookup_use_alias_ne by (rewrite ?H3; discriminate).
      apply lookup_use_alias_eq. }
    apply elem_of_cons in Hin as [->|Hin]; [|by apply elem_of_nil in Hin].
    apply lookup_use_alias_eq.
  - rewrite !not_elem_of_cons in Hin, Hk.
    rewrite !lookup_use_alias_ne by (rewrite ?H1, ?H2, ?H3; tauto).
    done.
Qed.

Lemma lookup_prepare_headers (rand : Z) (h : gmap string value) (k : string) :
  k ∉ leading_headers →
  MMSEncoder.prepare_headers rand h !! k =
    if bool_decide (k ∈ leading_aliases) then None else h !! k.
Proof.
  intros Hk. rewrite <- lookup_normalize_aliases by done.
  unfold leading_headers in Hk. rewrite !not_elem_of_cons in Hk.
  unfold MMSEncoder.prepare_headers, MMSEncoder.verify_version,
    MMSEncoder.verify_transaction_id, MMSEncoder.verify_message_type.
  repeat case_bool_decide;
    rewrite ?lookup_insert_ne by (intros <-; tauto); try done.
  all: destruct (MMSEncoder.found_dest_address _);
    rewrite ?lookup_insert_ne by (intros <-; tauto); done.
Qed.

(** Once the leading headers are deleted, what remains of the prepared
    map is the supplied map without the leading headers and their
    aliases. *)
Lemma strip_prepare_headers (rand : Z) (h : gmap string value) :
  strip leading_headers (MMSEncoder.prepare_headers rand h) =
  strip (leading_headers ++ leading_aliases) h.
Proof.
  apply map_eq. intros k. rewrite !lookup_strip.
  case_bool_decide as Hk.
  - rewrite bool_decide_eq_true_2 by (apply elem_of_app; by left). done.
  - rewrite lookup_prepare_headers by done.
    case_bool_decide as Hk'.
    + rewrite bool_decide_eq_true_2 by (apply elem_of_app; by right). done.
    + rewrite bool_decide_eq_false_2; [done|].
      rewrite elem_of_app. tauto.
Qed.
End header_frame.

Section encode_frame.
Context `{E : wsp_pdu.Encoder} `{P : message.Presentation}.

(** A completed pass over the leading headers has emitted each of
    them, in order, and deleted each from the map. *)
Lemma encode_first_headers_leading (h h' : gmap string value) (bs : bytes) :
  MMSEncoder.encode_first_headers leading_headers [] h = (Ok bs, h') →
  h' = strip leading_headers h
  ∧ ∃ v1 v2 v3 e1 e2 e3,
      h !! "Message-Type" = Some v1
      ∧ MMSEncoder.encode_header "Message-Type" v1 = Ok e1
      ∧ h !! "Transaction-Id" = Some v2
      ∧ MMSEncoder.encode_header "Transaction-Id" v2 = Ok e2
      ∧ h !! "MMS-Version" = Some v3
      ∧ MMSEncoder.encode_header "MMS-Version" v3 = Ok e3
      ∧ bs = e1 ++ e2 ++ e3.
Proof.
  unfold leading_headers, strip. cbn [MMSEncoder.encode_first_headers foldl].
  destruct (h !! "Message-Type") as [v1|] eqn:H1; [|discriminate].
  destruct (MMSEncoder.encode_header "Message-Type" v1) as [e1|] eqn:E1; [|discriminate].
  rewrite lookup_delete_ne by discriminate.
  destruct (h !! "Transaction-Id") as [v2|] eqn:H2; [|discriminate].
  destruct (MMSEncoder.encode_header "Transaction-Id" v2) as [e2|] eqn:E2; [|discriminate].
  rewrite !lookup_delete_ne by discriminate.
  destruct (h !! "MMS-Version") as [v3|] eqn:H3; [|discriminate].
  destruct (MMSEncoder.encode_header "MMS-Version" v3) as [e3|] eqn:E3; [|discriminate].
  intros [= <- <-]. split; [done|].
  exists v1, v2, v3, e1, e2, e3. rewrite <- app_assoc. by repeat split.
Qed.

Lemma encode_first_headers_state (ks : list string) (acc : bytes)
    (h h' : gmap string value) (bs : bytes) :
  MMSEncoder.encode_first_headers ks acc h = (Ok bs, h') → h' = strip ks h.
Proof.
  unfold strip. revert acc h. induction ks as [|k ks IH]; intros acc h; simpl.
  - by intros [= _ <-].
  - destruct (h !! k); [|discriminate].
    destruct (MMSEncoder.encode_header k v); [|discriminate].
    apply IH.
Qed.

(** C4, amended: when [encode] returns a PDU, the message's pages and
    data parts are as before the call, and its header map is the one
    supplied without Message-Type, Transaction-Id, MMS-Version and
    their X-Mms- aliases; every other entry, Content-Type included, is
    as before. *)
Theorem encode_frame (rand : Z) (msg msg' : MMSMessage) (pdu : bytes) :
  MMSEncoder.encode rand msg = (Ok pdu, msg') →
  _pages msg' = _pages msg
  ∧ _data_parts msg' = _data_parts msg
  ∧ headers msg' = strip (leading_headers ++ leading_aliases) (headers msg)
  ∧ ∀ k, k ∉ leading_headers ++ leading_aliases →
         headers msg' !! k = headers msg !! k.
Proof.
  unfold MMSEncoder.encode, MMSEncoder.encode_message_header.
  destruct (MMSEncoder.encode_first_headers _ _ _) as [[mh|e] h] eqn:Hfirst;
    [|discriminate].
  apply encode_first_headers_state in Hfirst.
  change ["Message-Type"; "Transaction-Id"; "MMS-Version"] with leading_headers in Hfirst.
  rewrite strip_prepare_headers in Hfirst. subst h.
  destruct (_ ≫= _) as [hb|]; simpl; [|discriminate].
  destruct (MMSEncoder.encode_message_body _); simpl; [|discriminate].
  intros [= _ <-]. cbn [headers set_headers _pages _data_parts].
  repeat split.
  intros k Hk.
  refine (eq_trans (lookup_strip (leading_headers ++ leading_aliases) _ k) _).
  by rewrite bool_decide_eq_false_2.
Qed.

End encode_frame.

(** [encode_frame] at the message of [encode_changes_headers]. *)
Lemma encode_frame_witness :
  _pages (MMSEncoder.encode 1234 Examples.msg_full).2 = _pages Examples.msg_full
  ∧ _data_parts (MMSEncoder.encode 1234 Examples.msg_full).2
    = _data_parts Examples.msg_full
  ∧ headers (MMSEncoder.encode 1234 Examples.msg_full).2
    = strip (leading_headers ++ leading_aliases) (headers Examples.msg_full)
  ∧ ∀ k, k ∉ leading_headers ++ leading_aliases →
         headers (MMSEncoder.encode 1234 Examples.msg_full).2 !! k
         = headers Examples.msg_full !! k.
Proof.
  eapply (encode_frame 1234 Examples.msg_full).
  vm_compute. reflexivity.
Defined.

Section encode_order.
Context `{E : wsp_pdu.Encoder}.

Lemma filter_Forall_id {A} (Q : A → Prop) `{!∀ x, Decision (Q x)} (l : list A) :
  Forall Q l → filter Q l = l.
Proof.
  induction 1 as [|x l Hx Hl IH]; [done|].
  rewrite filter_cons_True by done. by rewrite IH.
Qed.

(** Skipping the key [k] while iterating over a dict visits the
    entries of the dict without [k]. *)
Lemma filter_key_map_to_list (m : gmap string value) (k : string) :
  filter (λ kv, kv.1 ≠ k) (map_to_list m) ≡ₚ map_to_list (delete k m).
Proof.
  assert (Hall : Forall (λ kv : string * value, kv.1 ≠ k) (map_to_list (delete k m))).
  { apply Forall_forall. intros [k' v] Hin.
    apply elem_of_map_to_list in Hin. simpl. intros ->.
    by rewrite lookup_delete_eq in Hin. }
  destruct (m !! k) as [x|] eqn:Hk.
  - rewrite <- (map_to_list_delete m k x Hk).
    rewrite filter_cons_False by (simpl; tauto).
    by rewrite filter_Forall_id.
  - rewrite delete_id in * by done. by rewrite filter_Forall_id.
Qed.

Lemma delete_strip (ks : list string) (h : gmap string value) (k : string) :
  delete k (strip ks h) = strip (k :: ks) h.
Proof.
  apply map_eq. intros k'. rewrite lookup_delete, !lookup_strip.
  case_decide as Hk; [subst k'|].
  - by rewrite bool_decide_eq_true_2 by (apply elem_of_cons; by left).
  - case_bool_decide as Hin.
    + by rewrite bool_decide_eq_true_2 by (apply elem_of_cons; by right).
    + rewrite bool_decide_eq_false_2; [done|].
      rewrite elem_of_cons. intros [->|]; done.
Qed.

Lemma encode_remaining_headers_spec (entries : list (string * value)) (acc bs : bytes) :
  MMSEncoder.encode_remaining_headers entries acc = Ok bs →
  ∃ mids,
    Forall2 (λ kv e, MMSEncoder.encode_header kv.1 kv.2 = Ok e)
            (filter (λ kv, kv.1 ≠ "Content-Type") entries) mids
    ∧ bs = acc ++ concat mids.
Proof.
  revert acc. induction entries as [|[k v] entries IH]; intros acc; simpl.
  - intros [= <-]. exists []. split; [constructor|]. by rewrite app_nil_r.
  - case_decide as Hk.
    + destruct (MMSEncoder.encode_header k v) as [e|] eqn:He; [|discriminate].
      simpl. intros Hrest. apply IH in Hrest as (mids & Hmids & ->).
      exists (e :: mids). rewrite filter_cons_True by done.
      split; [by constructor|]. simpl. by rewrite app_assoc.
    + intros Hrest. apply IH in Hrest as (mids & Hmids & ->).
      exists mids. rewrite filter_cons_False by (intros Hne; by apply Hne). done.
Qed.

Lemma encodeMMSFieldName_content_type (name : bytes) :
  MMSEncoder.encodeMMSFieldName "Content-Type" = Ok name →
  wsp_pdu.encodeShortInteger 0x04 = Ok name.
Proof.
  unfold MMSEncoder.encodeMMSFieldName.
  change (find_field "Content-Type" mms_field_names)
    with (Some (0x04, Some "ContentTypeValue")).
  cbv beta iota.
  destruct (wsp_pdu.encodeShortInteger 4) as [enc|]; simpl; [|discriminate].
  case_bool_decide; [discriminate|].
  by intros [= <-].
Qed.

(** The bytes of a header block, entry by entry, with the middle
    entries in the iteration order of the dict. *)
Lemma encode_message_header_exact (rand : Z) (h0 h' : gmap string value) (bs : bytes) :
  MMSEncoder.encode_message_header rand h0 = (Ok bs, h') →
  let h := MMSEncoder.prepare_headers rand h0 in
  ∃ v1 v2 v3 e1 e2 e3 mids cv content_type ct_parameters name val,
    h !! "Message-Type" = Some v1
    ∧ MMSEncoder.encode_header "Message-Type" v1 = Ok e1
    ∧ h !! "Transaction-Id" = Some v2
    ∧ MMSEncoder.encode_header "Transaction-Id" v2 = Ok e2
    ∧ h !! "MMS-Version" = Some v3
    ∧ MMSEncoder.encode_header "MMS-Version" v3 = Ok e3
    ∧ Forall2 (λ kv e, MMSEncoder.encode_header kv.1 kv.2 = Ok e)
        (filter (λ kv : string * value, kv.1 ≠ "Content-Type")
           (map_to_list (strip (leading_headers ++ leading_aliases) h0)))
        mids
    ∧ h0 !! "Content-Type" = Some cv
    ∧ unpack2 cv = Ok (content_type, ct_parameters)
    ∧ MMSEncoder.encodeMMSFieldName "Content-Type" = Ok name
    ∧ wsp_pdu.encodeContentTypeValue content_type ct_parameters = Ok val
    ∧ bs = e1 ++ e2 ++ e3 ++ concat mids ++ name ++ val.
Proof.
  unfold MMSEncoder.encode_message_header.
  destruct (MMSEncoder.encode_first_headers _ _ _) as [[mh|e] h1] eqn:Hfirst;
    [|discriminate].
  destruct (encode_first_headers_leading _ _ _ Hfirst)
    as (-> & v1 & v2 & v3 & e1 & e2 & e3 & H1 & E1 & H2 & E2 & H3 & E3 & ->).
  rewrite strip_prepare_headers.
  destruct (MMSEncoder.encode_remaining_headers _ _) as [mh|] eqn:Hrem;
    [|discriminate].
  apply encode_remaining_headers_spec in Hrem as (mids & Hmids & ->).
  unfold MMSEncoder.encode_content_type_header.
  rewrite lookup_strip, bool_decide_eq_false_2
    by (unfold leading_headers, leading_aliases; simpl;
        rewrite !not_elem_of_cons; repeat split; try discriminate;
        apply not_elem_of_nil).
  destruct (h0 !! "Content-Type") as [cv|] eqn:Hcv; [|discriminate].
  destruct (unpack2 cv) as [[content_type ct_parameters]|] eqn:Hun; [|discriminate].
  cbn [mbind result_mbind result_bind].
  destruct (MMSEncoder.encodeMMSFieldName _) as [name|] eqn:Hname; [|discriminate].
  cbn [mbind result_mbind result_bind].
  destruct (wsp_pdu.encodeContentTypeValue content_type ct_parameters)
    as [val|] eqn:Hval; [|discriminate].
  cbn [mbind result_mbind result_bind]. intros [= <- _].
  exists v1, v2, v3, e1, e2, e3, mids, cv, content_type, ct_parameters, name, val.
  repeat split; try done.
  by rewrite <- !app_assoc.
Qed.

(** C7: when the headers include Content-Type and the header block is
    produced, it consists of the encodings of Message-Type,
    Transaction-Id and MMS-Version, in that order, then the encoding
    of every other supplied header, in some order, then — last — the
    Content-Type field code followed by the content-type value. *)
Theorem encode_message_header_order (rand : Z) (h0 h' : gmap string value) (bs : bytes) :
  is_Some (h0 !! "Content-Type") →
  MMSEncoder.encode_message_header rand h0 = (Ok bs, h') →
  header_block_layout rand h0 bs.
Proof.
  intros _ Henc.
  destruct (encode_message_header_exact _ _ _ _ Henc)
    as (v1 & v2 & v3 & e1 & e2 & e3 & mids & cv & content_type & ct_parameters
        & name & val & H1 & E1 & H2 & E2 & H3 & E3 & Hmids & Hcv & Hun & Hname
        & Hval & ->).
  exists v1, v2, v3, e1, e2, e3,
    (filter (λ kv : string * value, kv.1 ≠ "Content-Type")
       (map_to_list (strip (leading_headers ++ leading_aliases) h0))),
    mids, cv, content_type, ct_parameters, name, val.
  repeat split; try done.
  - rewrite filter_key_map_to_list. by rewrite delete_strip.
  - by apply encodeMMSFieldName_content_type.
Qed.

End encode_order.

(** [encode_message_header_order] at the send request of
    [encode_send_req_bcc_only_downgraded]. *)
Lemma encode_message_header_order_witness :
  header_block_layout 1234 Examples.hdrs_bcc
    [ 0x8C; 0x84; 0x98; 49; 50; 51; 52; 0; 0x8D; 0x90;
      0x81; 43; 49; 53; 53; 53; 48; 49; 48; 48; 0;
      0x84; 97; 112; 112; 108; 105; 99; 97; 116; 105; 111; 110; 47; 118; 110;
      100; 46; 119; 97; 112; 46; 109; 117; 108; 116; 105; 112; 97; 114; 116;
      46; 109; 105; 120; 101; 100; 0 ].
Proof.
  eapply (encode_message_header_order 1234 Examples.hdrs_bcc).
  - vm_compute. eauto.
  - vm_compute. reflexivity.
Defined.

(** ** Orderly cursor computations *)

Section orderly.

Lemma orderly_ret {A} (a : A) : orderly (mret a).
Proof. intros it r it' [= <- <-]. split; [done|intros []]. Qed.

Lemma orderly_raise {A} (e : exn) : e ≠ StopIteration → orderly (@raise A e).
Proof. intros He it r it' [= <- <-]. split; [done|]. by destruct e. Qed.

Lemma orderly_lift {A} (r : result A) : ¬ stopped r → orderly (lift r).
Proof. intros Hr it r' it' [= <- <-]. split; [done|tauto]. Qed.

Lemma orderly_preview : orderly preview.
Proof.
  intros [l [b|]] r it'; unfold preview; simpl.
  - intros [= <- <-]. split; [done|intros []].
  - destruct l as [|b l]; intros [= <- <-]; simpl; split; done.
Qed.

Lemma orderly_next : orderly next.
Proof.
  intros [l p] r it'; unfold next; simpl.
  destruct l as [|b l]; intros [= <- <-]; simpl; split; try done.
  by apply suffix_cons_r.
Qed.

Lemma orderly_reset_preview : orderly reset_preview.
Proof. intros it r it' [= <- <-]. split; [done|intros []]. Qed.

Lemma orderly_bind {A B} (m : M A) (k : A → M B) :
  orderly m → (∀ a, orderly (k a)) → orderly (m ≫= k).
Proof.
  intros Hm Hk it r it'. unfold mbind, M_bind.
  destruct (m it) as [[a|e] it1] eqn:Hrun.
  - intros Hrun'. destruct (Hm _ _ _ Hrun) as [Hs1 _].
    destruct (Hk a _ _ _ Hrun') as [Hs2 Hstop].
    split; [by etrans|done].
  - intros [= <- <-]. exact (Hm _ _ _ Hrun).
Qed.

Lemma orderly_fmap {A B} (f : A → B) (m : M A) : orderly m → orderly (f <$> m).
Proof. intros Hm. apply orderly_bind; [done|]. intros a. apply orderly_ret. Qed.

Lemma orderly_try_except {A} (m h : M A) (e : exn) :
  orderly m → orderly h → orderly (try_except m e h).
Proof.
  intros Hm Hh it r it'. unfold try_except.
  destruct (m it) as [[a|e'] it1] eqn:Hrun.
  - intros [= <- <-]. by apply (Hm _ _ _ Hrun).
  - destruct (Hm _ _ _ Hrun) as [Hs1 Hstop1]. case_decide.
    + intros Hrun'. destruct (Hh _ _ _ Hrun') as [Hs2 Hstop2].
      split; [by etrans|done].
    + intros [= <- <-]. done.
Qed.

Lemma orderly_length {A} (m : M A) it r it' :
  orderly m → m it = (r, it') →
  (length (pending it') ≤ length (pending it))%nat.
Proof. intros Hm Hrun. apply suffix_length, (Hm _ _ _ Hrun). Qed.

End orderly.

Create HintDb orderly.
#[export] Hint Resolve orderly_ret orderly_preview orderly_next
  orderly_reset_preview orderly_fmap orderly_try_except : orderly.
#[export] Hint Extern 1 (orderly (raise _)) => apply orderly_raise; discriminate : orderly.
#[export] Hint Extern 2 (orderly (_ ≫= _)) => apply orderly_bind; [|intros ?] : orderly.
#[export] Hint Extern 3 (orderly (if _ then _ else _)) => case_bool_decide : orderly.
#[export] Hint Extern 3 (orderly (match ?x with _ => _ end)) => destruct x : orderly.

Section decoder_orderly.
Context {D : wsp_pdu.Decoder} {L : DecoderLaws D}.

#[local] Hint Resolve orderly_decodeUintvar orderly_decodeValueLength
  orderly_decodeWellKnownCharset orderly_decodeTextString
  orderly_decodeTokenText orderly_decodeContentTypeValue
  orderly_decodeUriValue orderly_decodeDateValue
  orderly_decodeDeltaSecondsValue orderly_decodeVersionValue
  orderly_decodeLongInteger orderly_decode_header : orderly.


Lemma orderly_decodeEncodedStringValue : orderly MMSDecoder.decodeEncodedStringValue.
Proof. unfold MMSDecoder.decodeEncodedStringValue. eauto 20 with orderly. Qed.

Lemma orderly_decodeBooleanValue : orderly MMSDecoder.decodeBooleanValue.
Proof. unfold MMSDecoder.decodeBooleanValue. eauto 20 with orderly. Qed.

Lemma orderly_decodeFromValue : orderly MMSDecoder.decodeFromValue.
Proof.
  pose proof orderly_decodeEncodedStringValue.
  unfold MMSDecoder.decodeFromValue. eauto 20 with orderly.
Qed.

Lemma orderly_decodeMessageClassValue : orderly MMSDecoder.decodeMessageClassValue.
Proof. unfold MMSDecoder.decodeMessageClassValue. eauto 20 with orderly. Qed.

Lemma orderly_decodeMessageTypeValue : orderly MMSDecoder.decodeMessageTypeValue.
Proof. unfold MMSDecoder.decodeMessageTypeValue. eauto 20 with orderly. Qed.

Lemma orderly_decodePriorityValue : orderly MMSDecoder.decodePriorityValue.
Proof. unfold MMSDecoder.decodePriorityValue. eauto 20 with orderly. Qed.

Lemma orderly_decodeSenderVisibilityValue :
  orderly MMSDecoder.decodeSenderVisibilityValue.
Proof. unfold MMSDecoder.decodeSenderVisibilityValue. eauto 20 with orderly. Qed.

Lemma orderly_decodeResponseStatusValue : orderly MMSDecoder.decodeResponseStatusValue.
Proof. unfold MMSDecoder.decodeResponseStatusValue. eauto 20 with orderly. Qed.

Lemma orderly_decodeStatusValue : orderly MMSDecoder.decodeStatusValue.
Proof. unfold MMSDecoder.decodeStatusValue. eauto 20 with orderly. Qed.

Lemma orderly_decodeExpiryValue : orderly MMSDecoder.decodeExpiryValue.
Proof. unfold MMSDecoder.decodeExpiryValue. eauto 20 with orderly. Qed.

#[local] Hint Resolve orderly_decodeEncodedStringValue orderly_decodeBooleanValue
  orderly_decodeFromValue orderly_decodeMessageClassValue
  orderly_decodeMessageTypeValue orderly_decodePriorityValue
  orderly_decodeSenderVisibilityValue orderly_decodeResponseStatusValue
  orderly_decodeStatusValue orderly_decodeExpiryValue : orderly.

(** Every value decoder reachable by name is orderly. *)
Lemma orderly_getattr (name : string) (d : M value) :
  MMSDecoder.getattr name = Some d → orderly d.
Proof.
  unfold MMSDecoder.getattr, MMSDecoder.attributes. cbn [dict_get].
  repeat (case_decide; [intros [= <-]; eauto 20 with orderly|]).
  discriminate.
Qed.

Lemma orderly_decode_mms_value (kind : option string) :
  orderly (MMSDecoder.decode_mms_value kind).
Proof.
  intros it r it'. unfold MMSDecoder.decode_mms_value.
  destruct (MMSDecoder.getattr _) as [d|] eqn:Hattr.
  - apply orderly_getattr in Hattr.
    destruct (d it) as [[v|e] it1] eqn:Hrun;
      destruct (Hattr _ _ _ Hrun) as [Hs _].
    + intros [= <- <-]. split; [done|intros []].
    + destruct e; intros [= <- <-]; (split; [done|intros []]).
  - unfold raise. intros [= <- <-]. split; [done|intros []].
Qed.

Lemma orderly_decodeMMSHeader : orderly MMSDecoder.decodeMMSHeader.
Proof.
  pose proof orderly_decode_mms_value.
  pose proof decodeShortIntegerFromByte_pure.
  unfold MMSDecoder.decodeMMSHeader.
  apply orderly_bind; [apply orderly_preview|]. intros b.
  apply orderly_bind; [by apply orderly_lift|]. intros byte.
  destruct (dict_get mms_field_names byte) as [[name kind]|];
    eauto 20 with orderly.
Qed.

Lemma orderly_decode_header_mms : orderly MMSDecoder.decode_header.
Proof.
  apply orderly_try_except;
    [apply orderly_decodeMMSHeader|apply orderly_decode_header].
Qed.

Lemma preview_pending it r it' :
  preview it = (r, it') → pending it' = pending it.
Proof.
  unfold preview. destruct (peeked it); [by intros [= _ <-]|].
  destruct (pending it) eqn:Hp; intros [= _ <-]; done.
Qed.

Lemma next_Ok_pending it b it' :
  next it = (Ok b, it') → pending it = b :: pending it'.
Proof.
  unfold next. destruct (pending it); [discriminate|]. by intros [= <- <-].
Qed.

(** An accepted MMS header has consumed at least its field code. *)
Lemma advances_decodeMMSHeader : advances MMSDecoder.decodeMMSHeader.
Proof.
  intros it a it'. unfold MMSDecoder.decodeMMSHeader, mbind, M_bind, lift.
  destruct (preview it) as [[b|e] it1] eqn:Hp; [|discriminate].
  apply preview_pending in Hp.
  destruct (wsp_pdu.decodeShortIntegerFromByte b) as [byte|]; [|discriminate].
  destruct (dict_get mms_field_names byte) as [[name kind]|].
  - destruct (next it1) as [[b'|e] it2] eqn:Hn; [|discriminate].
    apply next_Ok_pending in Hn.
    destruct (MMSDecoder.decode_mms_value kind it2) as [[v|e] it3] eqn:Hv;
      [|discriminate].
    apply (orderly_length _ _ _ _ (orderly_decode_mms_value kind)) in Hv.
    intros [= <- <-]. rewrite <- Hp, Hn. simpl. lia.
  - unfold reset_preview, raise. discriminate.
Qed.

Lemma advances_decode_header_mms : advances MMSDecoder.decode_header.
Proof.
  intros it a it'. unfold MMSDecoder.decode_header, try_except.
  destruct (MMSDecoder.decodeMMSHeader it) as [[hv|e] it1] eqn:Hmms.
  - intros [= <- <-]. by eapply advances_decodeMMSHeader.
  - apply (orderly_length _ _ _ _ orderly_decodeMMSHeader) in Hmms.
    case_decide; [|discriminate].
    intros Hgen%advances_decode_header. lia.
Qed.

End decoder_orderly.

(** ** The header block, decoding *)

Section header_loop.
Context {D : wsp_pdu.Decoder} {L : DecoderLaws D}.

Lemma last_entry_cons e es before :
  last_entry (e :: es) before = last_entry es (Some e).
Proof.
  unfold last_entry. destruct es as [|e' es]; [done|].
  change (last (e :: e' :: es)) with (last (e' :: es)).
  destruct (last (e' :: es)) eqn:Hlast; [done|].
  by apply last_None in Hlast.
Qed.

(** The loop terminates within the fuel it is given, having performed
    a run; it hands back the headers recorded along it. *)
Lemma decode_message_header_loop_run (fuel : nat) (st : MMSDecoder.header_locals) :
  (length (pending (MMSDecoder.hl_iter st)) < fuel)%nat →
  ∃ es stop it',
    header_run (MMSDecoder.hl_iter st) es stop it'
    ∧ pending it' `suffix_of` pending (MMSDecoder.hl_iter st)
    ∧ (stop = Exhausted → pending it' = [])
    ∧ MMSDecoder.decode_message_header_loop fuel st =
        Some match stop with
             | ContentTypeSeen v =>
                 Ok (MMSDecoder.mkLocals
                       (record_entries es (MMSDecoder.hl_headers st))
                       (Some ("Content-Type", v)) it')
             | Exhausted =>
                 Ok (MMSDecoder.mkLocals
                       (record_entries es (MMSDecoder.hl_headers st))
                       (last_entry es (MMSDecoder.hl_last st)) it')
             | Aborted e => Raise e
             end.
Proof.
  revert st. induction fuel as [|fuel IH]; intros [hs last it] Hfuel;
    cbn [MMSDecoder.hl_iter MMSDecoder.hl_headers MMSDecoder.hl_last] in *;
    [lia|].
  cbn [MMSDecoder.decode_message_header_loop MMSDecoder.hl_iter
       MMSDecoder.hl_headers MMSDecoder.hl_last].
  destruct (MMSDecoder.decode_header it) as [[[header value]|e] it1] eqn:Hdec.
  - destruct (orderly_decode_header_mms _ _ _ Hdec) as [Hsuf _].
    case_decide as Hct.
    + subst header. exists [], (ContentTypeSeen value), it1.
      split; [by constructor|]. split; [done|]. split; [discriminate|done].
    + pose proof (advances_decode_header_mms _ _ _ Hdec) as Hadv.
      destruct (IH (MMSDecoder.mkLocals (<[header:=value]> hs)
                      (Some (header, value)) it1))
        as (es & stop & it' & Hrun & Hsuf' & Hex & Hloop).
      { cbn [MMSDecoder.hl_iter]. lia. }
      cbn [MMSDecoder.hl_iter MMSDecoder.hl_headers MMSDecoder.hl_last] in *.
      exists ((header, value) :: es), stop, it'.
      split; [by econstructor|]. split; [by etrans|]. split; [done|].
      rewrite Hloop, last_entry_cons. done.
  - destruct (orderly_decode_header_mms _ _ _ Hdec) as [Hsuf Hstop].
    destruct (decide (e = StopIteration)) as [->|Hne].
    + exists [], Exhausted, it1.
      split; [by constructor|]. split; [done|]. split; [by intros; apply Hstop|done].
    + exists [], (Aborted e), it1.
      split; [by constructor|]. split; [done|]. split; [discriminate|].
      by destruct e.
Qed.

Lemma header_run_names it es stop it' :
  header_run it es stop it' → Forall (λ e, e.1 ≠ "Content-Type") es.
Proof. induction 1; constructor; done. Qed.

(** C5: on every input the header loop performs a run of accepted
    entries that ends exactly when a Content-Type entry is accepted or
    when the cursor is exhausted (or, failing both, when a header
    decoder raises, which aborts the call).  Every entry accepted
    before that point is recorded in the header map; an accepted
    Content-Type entry is recorded too; and the cursor handed to the
    body decoder is the one the last [decode_header] call left, so the
    bytes after the Content-Type entry are still to be read. *)
Theorem decode_message_header_run (msg : MMSMessage) (data : bytes) :
  ∃ es stop it',
    header_run (fresh data) es stop it'
    ∧ pending it' `suffix_of` data
    ∧ (stop = Exhausted → pending it' = [])
    ∧ MMSDecoder.decode_message_header msg data =
        Some (header_outcome msg es stop it').
Proof.
  destruct (decode_message_header_loop_run (S (length data))
              (MMSDecoder.mkLocals (headers msg) None (fresh data)))
    as (es & stop & it' & Hrun & Hsuf & Hex & Hloop).
  { simpl. lia. }
  exists es, stop, it'. split; [done|]. split; [done|]. split; [done|].
  unfold MMSDecoder.decode_message_header. rewrite Hloop.
  cbn [MMSDecoder.hl_headers MMSDecoder.hl_last].
  destruct stop as [v| |e]; cbn [header_outcome].
  - unfold MMSDecoder.record_content_type. cbn [MMSDecoder.hl_last].
    rewrite decide_True by done. done.
  - unfold MMSDecoder.record_content_type. cbn [MMSDecoder.hl_last].
    apply header_run_names in Hrun.
    destruct es as [|e es _] using rev_ind; [done|].
    unfold last_entry. rewrite last_snoc.
    apply Forall_app in Hrun as [_ Hlast]. apply Forall_inv in Hlast.
    destruct e as [header value]. rewrite decide_False by exact Hlast.
    by destruct (es ++ [(header, value)]) eqn:Heq; [destruct es|].
  - done.
Qed.


End header_loop.

(** ** The body block, decoding *)

Section body_framing.
Context {D : wsp_pdu.Decoder} {L : DecoderLaws D}.

Lemma read_bytes_Ok (n : nat) it bs it' :
  MMSDecoder.read_bytes n it = (Ok bs, it') →
  pending it = bs ++ pending it' ∧ length bs = n.
Proof.
  revert it bs it'. induction n as [|n IH]; intros it bs it'; simpl.
  - by intros [= <- <-].
  - unfold mbind, M_bind.
    destruct (next it) as [[b|e] it1] eqn:Hn; [|discriminate].
    apply next_Ok_pending in Hn.
    destruct (MMSDecoder.read_bytes n it1) as [[bs'|e] it2] eqn:Hr; [|discriminate].
    apply IH in Hr as [Hp Hl]. intros [= <- <-].
    rewrite Hn, Hp. simpl. by rewrite Hl.
Qed.

(** The further headers of a part: the loop ends within its fuel, and
    when it ends normally the sub-cursor is exhausted. *)
Lemma decode_part_headers_run (fuel : nat) (hdrs : gmap string value) it :
  (length (pending it) < fuel)%nat →
  ∃ outcome,
    MMSDecoder.decode_part_headers fuel hdrs it = Some outcome
    ∧ ∀ hdrs' it', outcome = Ok (hdrs', it') →
        ∃ es, part_entries it es it' ∧ pending it' = []
              ∧ hdrs' = record_entries es hdrs.
Proof.
  revert hdrs it. induction fuel as [|fuel IH]; intros hdrs it Hfuel; [lia|].
  cbn [MMSDecoder.decode_part_headers].
  destruct (MMSDecoder.decode_header it) as [[[hdr value]|e] it1] eqn:Hdec.
  - pose proof (advances_decode_header_mms _ _ _ Hdec) as Hadv.
    destruct (IH (<[hdr:=value]> hdrs) it1) as (outcome & Hrun & Hok); [lia|].
    exists outcome. split; [done|]. intros hdrs' it' ->.
    destruct (Hok _ _ eq_refl) as (es & Hes & Hend & ->).
    exists ((hdr, value) :: es). split; [by econstructor|]. done.
  - destruct (orderly_decode_header_mms _ _ _ Hdec) as [_ Hstop].
    destruct e; (eexists; split; [reflexivity|]); try discriminate.
    intros hdrs' it' [= <- <-]. exists []. split; [by constructor|].
    split; [by apply Hstop|done].
Qed.

Lemma decode_part_framed it :
  ∃ outcome,
    MMSDecoder.decode_part it = Some outcome
    ∧ ∀ part it', outcome = (Ok part, it') → part_framed it part it'.
Proof.
  unfold MMSDecoder.decode_part.
  destruct (wsp_pdu.decodeUintvar it) as [[H|e] it1] eqn:HH;
    [|eexists; split; [reflexivity|discriminate]].
  destruct (wsp_pdu.decodeUintvar it1) as [[Len|e] it2] eqn:HL;
    [|eexists; split; [reflexivity|discriminate]].
  destruct (MMSDecoder.read_bytes (Z.to_nat H) it2) as [[hb|e] it3] eqn:Hhb;
    [|eexists; split; [reflexivity|discriminate]].
  apply read_bytes_Ok in Hhb as [Hp3 Hlen3].
  unfold MMSDecoder.decode_part_header_block.
  destruct (wsp_pdu.decodeContentTypeValue (fresh hb)) as [[[ct ps]|e] sub] eqn:Hct;
    [|eexists; split; [reflexivity|discriminate]].
  pose proof (orderly_length _ _ _ _ orderly_decodeContentTypeValue Hct) as Hsub.
  cbn [fresh pending] in Hsub.
  destruct (decode_part_headers_run (S (length hb))
              {["Content-Type" := VTuple (VStr ct) (VDict ps)]} sub)
    as (outcome & Hrun & Hok); [lia|].
  rewrite Hrun. destruct outcome as [[hdrs sub']|e];
    [|eexists; split; [reflexivity|discriminate]].
  destruct (Hok _ _ eq_refl) as (es & Hes & Hend & ->).
  destruct (MMSDecoder.read_bytes (Z.to_nat Len) it3) as [[payload|e] it4] eqn:Hpl;
    [|eexists; split; [reflexivity|discriminate]].
  apply read_bytes_Ok in Hpl as [Hp4 Hlen4].
  eexists. split; [reflexivity|]. intros part it' [= <- <-].
  exists H, Len, it1, it2, hb, payload, ct, ps, sub, es, sub'.
  repeat split; try done.
  by rewrite Hp3, Hp4.
Qed.

Lemma decode_parts_framed (n : nat) (msg : MMSMessage) it :
  ∃ outcome,
    MMSDecoder.decode_parts n msg it = Some outcome
    ∧ ∀ msg' it', outcome = (Ok msg', it') →
        ∃ ps, length ps = n
              ∧ parts_framed it ps it'
              ∧ msg' = mkMessage (headers msg) (_pages msg) (_data_parts msg ++ ps).
Proof.
  revert msg it. induction n as [|n IH]; intros msg it; simpl.
  - eexists. split; [reflexivity|]. intros msg' it' [= <- <-].
    exists []. split; [done|]. split; [constructor|].
    rewrite app_nil_r. by destruct msg.
  - destruct (decode_part_framed it) as ([r it1] & Hpart & Hframed).
    rewrite Hpart. destruct r as [part|e];
      [|eexists; split; [reflexivity|discriminate]].
    destruct (IH (add_data_part part msg) it1) as (outcome & Hrest & Hok).
    exists outcome. split; [done|]. intros msg' it' ->.
    destruct (Hok _ _ eq_refl) as (ps & Hlen & Hps & ->).
    exists (part :: ps). split; [simpl; by rewrite Hlen|].
    split; [econstructor; eauto|].
    simpl. by rewrite <- app_assoc.
Qed.

(** C6: the body decoder always comes to an end, and when the body
    declares [N] parts and decoding completes, the message has gained
    exactly [N] parts, in arrival order, each framed by its two
    variable-length integers [H] and [L]: its Content-Type value and
    further headers are decoded, Content-Type first, from a
    sub-cursor over exactly the next [H] bytes, which they use up, and
    its payload is exactly the [L] bytes after those. *)
Theorem decode_message_body_framing (msg : MMSMessage) it :
  ∃ outcome,
    MMSDecoder.decode_message_body msg it = Some outcome
    ∧ ∀ N it0, wsp_pdu.decodeUintvar it = (Ok N, it0) →
      ∀ msg' it', outcome = (Ok msg', it') →
        ∃ ps, length ps = Z.to_nat N
              ∧ parts_framed it0 ps it'
              ∧ headers msg' = headers msg
              ∧ _pages msg' = _pages msg
              ∧ _data_parts msg' = _data_parts msg ++ ps.
Proof.
  unfold MMSDecoder.decode_message_body.
  destruct (wsp_pdu.decodeUintvar it) as [[N|e] it0] eqn:HN.
  - destruct (decode_parts_framed (Z.to_nat N) msg it0) as (outcome & Hrun & Hok).
    exists outcome. split; [done|]. intros N' it0' [= <- <-] msg' it' ->.
    destruct (Hok _ _ eq_refl) as (ps & Hlen & Hps & ->).
    exists ps. done.
  - destruct e; (eexists; split; [reflexivity|]); discriminate.
Qed.

End body_framing.

(** ** The reference codec meets the contract *)

Section model_laws.

Lemma uintvar_octets_spec (uint : Z) (l : bytes) r l' :
  uintvar_octets uint l = (r, l') →
  l' `suffix_of` l ∧ (stopped r → l' = []).
Proof.
  revert uint. induction l as [|b l IH]; intros uint; simpl.
  - intros [= <- <-]. done.
  - case_bool_decide.
    + intros Hrec. destruct (IH _ Hrec) as [Hs Hstop].
      split; [by apply suffix_cons_r|done].
    + intros [= <- <-]. split; [by apply suffix_cons_r|intros []].
Qed.

Lemma orderly_model_decodeUintvar : orderly WspModel.decodeUintvar.
Proof.
  intros it r it'. unfold WspModel.decodeUintvar.
  destruct (uintvar_octets 0 (pending it)) as [r' l'] eqn:Hrun.
  intros [= <- <-]. by apply uintvar_octets_spec in Hrun.
Qed.

Lemma text_octets_spec (l : bytes) r l' :
  text_octets l = (r, l') →
  l' `suffix_of` l ∧ (stopped r → l' = [])
  ∧ (∀ s, r = Ok s → (length l' < length l)%nat).
Proof.
  revert r l'. induction l as [|b l IH]; intros r l'; simpl.
  - intros [= <- <-]. done.
  - case_bool_decide.
    + intros [= <- <-]. split; [by apply suffix_cons_r|].
      split; [intros []|]. intros; simpl; lia.
    + destruct (text_octets l) as [[s|e] l1] eqn:Hrec;
        destruct (IH _ _ eq_refl) as (Hs & Hstop & Hlen);
        intros [= <- <-]; (split; [by apply suffix_cons_r|]); split;
        try done.
      * intros s' _. specialize (Hlen s eq_refl). simpl. lia.
Qed.

Lemma orderly_model_decodeTextString : orderly WspModel.decodeTextString.
Proof.
  intros it r it'. unfold WspModel.decodeTextString.
  destruct (text_octets (pending it)) as [r' l'] eqn:Hrun.
  intros [= <- <-]. apply text_octets_spec in Hrun. tauto.
Qed.

Lemma advances_model_decodeTextString : advances WspModel.decodeTextString.
Proof.
  intros it s it'. unfold WspModel.decodeTextString.
  destruct (text_octets (pending it)) as [r' l'] eqn:Hrun.
  intros [= -> <-]. apply text_octets_spec in Hrun as (_ & _ & Hlen).
  by eapply Hlen.
Qed.

#[local] Hint Resolve orderly_model_decodeUintvar orderly_model_decodeTextString
  : orderly.

Lemma orderly_model_decodeShortInteger : orderly WspModel.decodeShortInteger.
Proof. unfold WspModel.decodeShortInteger. eauto 20 with orderly. Qed.

Lemma orderly_model_decodeValueLength : orderly WspModel.decodeValueLength.
Proof. unfold WspModel.decodeValueLength. eauto 20 with orderly. Qed.

Lemma orderly_model_decodeTokenText : orderly WspModel.decodeTokenText.
Proof. unfold WspModel.decodeTokenText. eauto 20 with orderly. Qed.

Lemma orderly_read_bytes (n : nat) : orderly (MMSDecoder.read_bytes n).
Proof. induction n; simpl; eauto 20 with orderly. Qed.

#[local] Hint Resolve orderly_model_decodeShortInteger
  orderly_model_decodeValueLength orderly_model_decodeTokenText
  orderly_read_bytes : orderly.

Lemma orderly_model_decodeLongInteger : orderly WspModel.decodeLongInteger.
Proof.
  unfold WspModel.decodeLongInteger, decodeLongIntegerZ, decodeMultiOctet.
  eauto 20 with orderly.
Qed.

#[local] Hint Resolve orderly_model_decodeLongInteger : orderly.

Lemma orderly_model_decodeIntegerValue : orderly WspModel.decodeIntegerValue.
Proof. unfold WspModel.decodeIntegerValue. eauto 20 with orderly. Qed.

Lemma orderly_model_decodeVersionValue : orderly WspModel.decodeVersionValue.
Proof. unfold WspModel.decodeVersionValue. eauto 20 with orderly. Qed.

Lemma orderly_within {A} (octets : bytes) (m : M A) : orderly (within octets m).
Proof.
  intros it r it'. unfold within.
  destruct (m (fresh octets)) as [[a|e] it1].
  - intros [= <- <-]. split; [done|intros []].
  - destruct e; intros [= <- <-]; (split; [done|intros []]).
Qed.

Lemma orderly_model_decodeContentTypeValue : orderly WspModel.decodeContentTypeValue.
Proof.
  pose proof @orderly_within.
  unfold WspModel.decodeContentTypeValue. eauto 20 with orderly.
Qed.

Lemma orderly_model_decode_header : orderly WspModel.decode_header.
Proof. unfold WspModel.decode_header. eauto 20 with orderly. Qed.

Lemma advances_model_decode_header : advances WspModel.decode_header.
Proof.
  intros it a it'. unfold WspModel.decode_header, mbind, M_bind.
  destruct (WspModel.decodeTokenText it) as [[name|e] it1] eqn:Hname;
    [|discriminate].
  pose proof (orderly_length _ _ _ _ orderly_model_decodeTokenText Hname).
  destruct (WspModel.decodeTextString it1) as [[v|e] it2] eqn:Hv; [|discriminate].
  apply advances_model_decodeTextString in Hv.
  intros [= <- <-]. lia.
Qed.

#[export] Instance model_laws : DecoderLaws WspModel.decoder.
Proof.
  split; simpl.
  - intros b. unfold WspModel.decodeShortIntegerFromByte.
    case_bool_decide; simpl; tauto.
  - apply orderly_model_decodeUintvar.
  - apply orderly_model_decodeValueLength.
  - unfold WspModel.decodeWellKnownCharset. eauto with orderly.
  - apply orderly_model_decodeTextString.
  - apply orderly_model_decodeTokenText.
  - apply orderly_model_decodeContentTypeValue.
  - eauto with orderly.
  - apply orderly_model_decodeLongInteger.
  - apply orderly_model_decodeIntegerValue.
  - apply orderly_model_decodeVersionValue.
  - apply orderly_model_decodeLongInteger.
  - apply orderly_model_decode_header.
  - apply advances_model_decode_header.
Qed.

End model_laws.

Section roundtrip.
Context {D : wsp_pdu.Decoder} {L : DecoderLaws D}
        `{E : wsp_pdu.Encoder} `{P : message.Presentation}.

Lemma header_run_deterministic it es1 stop1 it1 es2 stop2 it2 :
  header_run it es1 stop1 it1 → header_run it es2 stop2 it2 →
  es1 = es2 ∧ stop1 = stop2 ∧ it1 = it2.
Proof.
  intros Hrun1. revert es2 stop2 it2.
  induction Hrun1 as [it v it' Hd|it it' Hd|it e it' Hd He
                      |it header value it' es stop it'' Hd Hne Hrun IH];
    intros es2 stop2 it2 Hrun2; inversion Hrun2; subst; try congruence.
  - rewrite Hd in *. simplify_eq. done.
  - rewrite Hd in *. simplify_eq. done.
  - rewrite Hd in *. simplify_eq. done.
  - rewrite Hd in *. simplify_eq.
    match goal with H : header_run _ _ _ _ |- _ =>
      destruct (IH _ _ _ H) as (-> & -> & ->) end.
    done.
Qed.

(** Entries that round-trip, laid end to end, are accepted one after
    the other. *)
Lemma header_run_app (entries : list (string * value)) (encs : list bytes)
    (rest : bytes) es stop it' :
  Forall2 (λ kv e, MMSEncoder.encode_header kv.1 kv.2 = Ok e) entries encs →
  Forall (λ kv, kv.1 ≠ "Content-Type" ∧ entry_roundtrips kv.1 kv.2) entries →
  header_run (fresh rest) es stop it' →
  header_run (fresh (concat encs ++ rest)) (entries ++ es) stop it'.
Proof.
  intros Henc. revert rest. induction Henc as [|[k v] e entries encs He Henc IH];
    intros rest Hall Hrun; [done|].
  apply Forall_cons in Hall as [[Hne Hrt] Hall]. simpl in *.
  rewrite <- app_assoc. econstructor; [by apply Hrt|done|by apply IH].
Qed.


Lemma record_entries_app es1 es2 (m : gmap string value) :
  record_entries (es1 ++ es2) m = record_entries es2 (record_entries es1 m).
Proof. apply foldl_app. Qed.

Lemma lookup_record_entries (es : list (string * value)) (m : gmap string value) k :
  NoDup es.*1 →
  record_entries es m !! k =
    match (list_to_map es : gmap string value) !! k with
    | Some v => Some v
    | None => m !! k
    end.
Proof.
  revert m. induction es as [|[k' v'] es IH]; intros m Hnd; [done|].
  apply NoDup_cons in Hnd as [Hk' Hnd].
  change (record_entries ((k', v') :: es) m)
    with (record_entries es (<[k':=v']> m)).
  rewrite IH by done. cbn [list_to_map foldr]. cbn [uncurry fst snd].
  destruct (decide (k = k')) as [->|Hne].
  - rewrite !lookup_insert_eq.
    by rewrite (not_elem_of_list_to_map_1 _ _ Hk').
  - by rewrite !lookup_insert_ne.
Qed.

(** Recording the emitted entries in the order of emission rebuilds
    the prepared header map. *)
Lemma record_prepared (h : gmap string value) v1 v2 v3 cv :
  h !! "Message-Type" = Some v1 →
  h !! "Transaction-Id" = Some v2 →
  h !! "MMS-Version" = Some v3 →
  h !! "Content-Type" = Some cv →
  <["Content-Type" := cv]>
    (record_entries
       ([("Message-Type", v1); ("Transaction-Id", v2); ("MMS-Version", v3)]
        ++ filter (λ kv : string * value, kv.1 ≠ "Content-Type")
             (map_to_list (strip leading_headers h)))
       ∅) = h.
Proof.
  intros H1 H2 H3 Hct. apply map_eq. intros k.
  destruct (decide (k = "Content-Type")) as [->|Hk];
    [by rewrite lookup_insert_eq|].
  rewrite lookup_insert_ne by done.
  rewrite record_entries_app.
  set (es := filter _ _).
  assert (Hperm : es ≡ₚ map_to_list (strip ("Content-Type" :: leading_headers) h)).
  { unfold es. rewrite filter_key_map_to_list. by rewrite delete_strip. }
  assert (Hnd : NoDup es.*1).
  { rewrite Hperm. apply NoDup_fst_map_to_list. }
  rewrite lookup_record_entries by done.
  rewrite (list_to_map_proper _ _ Hnd Hperm), list_to_map_to_list.
  rewrite lookup_strip. unfold leading_headers.
  case_bool_decide as Hin.
  - apply elem_of_cons in Hin as [->|Hin]; [done|].
    apply elem_of_cons in Hin as [->|Hin]; [by rewrite H1|].
    apply elem_of_cons in Hin as [->|Hin]; [by rewrite H2|].
    apply elem_of_cons in Hin as [->|Hin]; [by rewrite H3|].
    by apply elem_of_nil in Hin.
  - destruct (h !! k) eqn:Hk'; [done|].
    rewrite !not_elem_of_cons in Hin. destruct Hin as (_ & ? & ? & ? & _).
    cbn [record_entries foldl].
    by rewrite !lookup_insert_ne, lookup_empty.
Qed.


(** Decoding the header block of an encoded message gives back the
    prepared header map and leaves the cursor at the body. *)
Lemma decode_encoded_header (rand : Z) (msg : MMSMessage)
    (h' : gmap string value) (hb bb : bytes) :
  round_trippable rand msg →
  MMSEncoder.encode_message_header rand (headers msg) = (Ok hb, h') →
  MMSDecoder.decode_message_header new_MMSMessage (hb ++ bb) =
    Some (Ok (set_headers (MMSEncoder.prepare_headers rand (headers msg))
                new_MMSMessage, fresh bb)).
Proof.
  intros Hrt Henc.
  destruct (encode_message_header_exact _ _ _ _ Henc)
    as (v1 & v2 & v3 & e1 & e2 & e3 & mids & cv & content_type & ct_parameters
        & name & val & H1 & E1 & H2 & E2 & H3 & E3 & Hmids & Hcv & Hun & Hname
        & Hval & ->).
  set (h := MMSEncoder.prepare_headers rand (headers msg)) in *.
  set (others := filter (λ kv : string * value, kv.1 ≠ "Content-Type")
                   (map_to_list (strip (leading_headers ++ leading_aliases)
                                   (headers msg)))) in *.
  set (entries := [("Message-Type", v1); ("Transaction-Id", v2);
                   ("MMS-Version", v3)] ++ others).
  assert (Hrun : header_run (fresh ((e1 ++ e2 ++ e3 ++ concat mids ++ name ++ val) ++ bb))
                   (entries ++ []) (ContentTypeSeen cv) (fresh bb)).
  { replace ((e1 ++ e2 ++ e3 ++ concat mids ++ name ++ val) ++ bb)
      with (concat ([e1; e2; e3] ++ mids) ++ (name ++ val ++ bb))
      by (rewrite concat_app; cbn [concat];
          by rewrite (app_nil_r e3), <- !app_assoc).
    apply header_run_app.
    - apply Forall2_app; [|done]. by repeat constructor.
    - apply Forall_app. split.
      + repeat constructor; try discriminate; simpl;
          by apply (rt_entries _ _ Hrt).
      + apply Forall_forall. intros [k v] Hin.
        apply list_elem_of_filter in Hin as [Hk Hin]. simpl in Hk.
        apply elem_of_map_to_list in Hin.
        rewrite <- (strip_prepare_headers rand), lookup_strip in Hin.
        case_bool_decide; [discriminate|].
        split; [done|]. by apply (rt_entries _ _ Hrt).
    - constructor. by eapply (rt_content_type _ _ Hrt). }
  rewrite app_nil_r in Hrun.
  set (data := (e1 ++ e2 ++ e3 ++ concat mids ++ name ++ val) ++ bb) in *.
  destruct (decode_message_header_loop_run (S (length data))
              (MMSDecoder.mkLocals (headers new_MMSMessage) None (fresh data)))
    as (es & stop & it' & Hrun' & _ & _ & Hloop); [simpl; lia|].
  cbn [MMSDecoder.hl_iter MMSDecoder.hl_headers MMSDecoder.hl_last] in *.
  destruct (header_run_deterministic _ _ _ _ _ _ _ Hrun' Hrun) as (-> & -> & ->).
  unfold MMSDecoder.decode_message_header. rewrite Hloop.
  unfold MMSDecoder.record_content_type.
  cbn [MMSDecoder.hl_iter MMSDecoder.hl_headers MMSDecoder.hl_last].
  rewrite decide_True by done.
  cbn [MMSDecoder.hl_iter MMSDecoder.hl_headers MMSDecoder.hl_last].
  change (headers new_MMSMessage) with (∅ : gmap string value).
  subst entries others h. rewrite <- (strip_prepare_headers rand).
  rewrite (record_prepared _ v1 v2 v3 cv); try done.
  rewrite lookup_prepare_headers
    by (unfold leading_headers; rewrite !not_elem_of_cons;
        repeat split; try discriminate; apply not_elem_of_nil).
  rewrite bool_decide_eq_false_2; [done|].
  unfold leading_aliases. rewrite !not_elem_of_cons.
  repeat split; try discriminate. apply not_elem_of_nil.
Qed.


(** *** One part *)

Lemma read_bytes_app (bs rest : bytes) :
  MMSDecoder.read_bytes (length bs) (fresh (bs ++ rest)) = (Ok bs, fresh rest).
Proof.
  induction bs as [|b bs IH]; [done|].
  cbn [length MMSDecoder.read_bytes app]. unfold mbind, M_bind.
  change (next (fresh (b :: bs ++ rest))) with (Ok b, fresh (bs ++ rest)).
  cbv beta iota. by rewrite IH.
Qed.

Lemma decode_header_exhausted :
  MMSDecoder.decode_header (fresh []) = (Raise StopIteration, fresh []).
Proof. reflexivity. Qed.

Lemma encode_part_headers_spec (entries : list (string * value)) (acc bs : bytes) :
  MMSEncoder.encode_part_headers entries acc = Ok bs →
  ∃ encs,
    Forall2 (λ kv e, wsp_pdu.encode_header kv.1 kv.2 = Ok e)
            (filter (λ kv, kv.1 ≠ "Content-Type") entries) encs
    ∧ bs = acc ++ concat encs.
Proof.
  revert acc. induction entries as [|[k v] entries IH]; intros acc; simpl.
  - intros [= <-]. exists []. split; [constructor|]. by rewrite app_nil_r.
  - case_decide as Hk.
    + intros Hrest. apply IH in Hrest as (encs & Hencs & ->).
      exists encs. rewrite filter_cons_False by (intros Hne; by apply Hne). done.
    + destruct (wsp_pdu.encode_header k v) as [e|] eqn:He; simpl; [|discriminate].
      intros Hrest. apply IH in Hrest as (encs & Hencs & ->).
      exists (e :: encs). rewrite filter_cons_True by done.
      split; [by constructor|]. simpl. by rewrite app_assoc.
Qed.

(** Headers that round-trip, laid end to end and followed by nothing,
    are accepted one after the other up to the end of the sub-cursor. *)
Lemma part_entries_app (entries : list (string * value)) (encs : list bytes) :
  Forall2 (λ kv e, wsp_pdu.encode_header kv.1 kv.2 = Ok e) entries encs →
  Forall (λ kv, ∀ e rest, wsp_pdu.encode_header kv.1 kv.2 = Ok e →
            MMSDecoder.decode_header (fresh (e ++ rest)) = (Ok kv, fresh rest))
         entries →
  part_entries (fresh (concat encs)) entries (fresh []).
Proof.
  induction 1 as [|[k v] e entries encs He Henc IH]; intros Hall.
  - constructor. apply decode_header_exhausted.
  - apply Forall_cons in Hall as [Hrt Hall]. simpl.
    econstructor; [by apply Hrt|by apply IH].
Qed.

Lemma part_entries_length it es it' :
  part_entries it es it' → (length es ≤ length (pending it))%nat.
Proof.
  induction 1 as [|it hdr value it' es it'' Hd Hrun IH]; simpl; [lia|].
  apply advances_decode_header_mms in Hd. lia.
Qed.

Lemma decode_part_headers_entries it es it' :
  part_entries it es it' →
  ∀ fuel hdrs, (length es < fuel)%nat →
    MMSDecoder.decode_part_headers fuel hdrs it =
      Some (Ok (record_entries es hdrs, it')).
Proof.
  induction 1 as [it it' Hd|it hdr value it' es it'' Hd Hrun IH];
    intros [|fuel] hdrs Hfuel; simpl in Hfuel; try lia;
    cbn [MMSDecoder.decode_part_headers]; rewrite Hd; [done|].
  apply IH. lia.
Qed.

(** Recording the further headers of a part over its Content-Type
    entry rebuilds its header map. *)
Lemma record_part_headers (h : gmap string value) (cv : value) :
  h !! "Content-Type" = Some cv →
  record_entries
    (filter (λ kv : string * value, kv.1 ≠ "Content-Type") (map_to_list h))
    {[ "Content-Type" := cv ]} = h.
Proof.
  intros Hct. apply map_eq. intros k.
  set (es := filter _ _).
  assert (Hperm : es ≡ₚ map_to_list (delete "Content-Type" h))
    by apply filter_key_map_to_list.
  assert (Hnd : NoDup es.*1).
  { rewrite Hperm. apply NoDup_fst_map_to_list. }
  rewrite lookup_record_entries by done.
  rewrite (list_to_map_proper _ _ Hnd Hperm), list_to_map_to_list.
  destruct (decide (k = "Content-Type")) as [->|Hk].
  - by rewrite lookup_delete_eq, lookup_singleton_eq.
  - rewrite lookup_delete_ne by done.
    destruct (h !! k); [done|]. by rewrite lookup_singleton_ne.
Qed.

(** A well-formed part survives its own encoding. *)
Lemma part_well_formed_roundtrips (p : DataPart) :
  part_well_formed p → part_roundtrips p.
Proof.
  intros [Hct Hctv Hhdrs Hhl Hdl] e rest.
  unfold MMSEncoder.encode_part. rewrite Hct.
  cbn [unpack2 mbind result_mbind result_bind].
  destruct (wsp_pdu.encodeContentTypeValue _ _) as [pct|] eqn:Hpct; [|discriminate].
  cbn [mbind result_mbind result_bind].
  destruct (MMSEncoder.encode_part_headers _ _) as [eph|] eqn:Heph; [|discriminate].
  cbn [mbind result_mbind result_bind].
  destruct (wsp_pdu.encodeUintvar (_ + _)) as [hl|] eqn:Hhlen; [|discriminate].
  cbn [mbind result_mbind result_bind].
  destruct (wsp_pdu.encodeUintvar (len p)) as [dl|] eqn:Hdlen; [|discriminate].
  cbn [mbind result_mbind result_bind]. intros [= <-].
  unfold MMSDecoder.decode_part.
  rewrite <- !app_assoc.
  rewrite (Hhl _ _ eq_refl eq_refl _ _ Hhlen), (Hdl _ _ Hdlen).
  rewrite <- Nat2Z.inj_add, Nat2Z.id, <- length_app.
  rewrite (app_assoc pct eph), read_bytes_app.
  unfold MMSDecoder.decode_part_header_block.
  rewrite (Hctv _ _ eq_refl).
  pose proof Heph as Heph'.
  apply encode_part_headers_spec in Heph' as (encs & Hencs & ->).
  rewrite app_nil_l.
  assert (Hrun : part_entries (fresh (concat encs))
                   (filter (λ kv : string * value, kv.1 ≠ "Content-Type")
                      (map_to_list (part_headers p)))
                   (fresh [])).
  { apply part_entries_app; [done|]. apply Forall_forall. intros [k v] Hin.
    apply list_elem_of_filter in Hin as [Hk Hin].
    apply elem_of_map_to_list in Hin. by apply Hhdrs. }
  rewrite (decode_part_headers_entries _ _ _ Hrun).
  2:{ apply part_entries_length in Hrun. cbn [fresh pending] in Hrun.
      rewrite length_app. lia. }
  unfold len. rewrite Nat2Z.id, read_bytes_app.
  rewrite (record_part_headers _ _ Hct).
  by destruct p.
Qed.

(** *** The sequence of parts *)

Lemma encode_parts_spec (ps : list DataPart) (acc bs : bytes) :
  MMSEncoder.encode_parts ps acc = Ok bs →
  ∃ encs, Forall2 (λ p e, MMSEncoder.encode_part p = Ok e) ps encs
          ∧ bs = acc ++ concat encs.
Proof.
  revert acc. induction ps as [|p ps IH]; intros acc; simpl.
  - intros [= <-]. exists []. split; [constructor|]. by rewrite app_nil_r.
  - destruct (MMSEncoder.encode_part p) as [e|] eqn:He; simpl; [|discriminate].
    intros Hrest. apply IH in Hrest as (encs & Hencs & ->).
    exists (e :: encs). split; [by constructor|]. simpl. by rewrite app_assoc.
Qed.

Lemma decode_parts_roundtrip (ps : list DataPart) (encs : list bytes)
    (msg : MMSMessage) (rest : bytes) :
  Forall2 (λ p e, MMSEncoder.encode_part p = Ok e) ps encs →
  Forall part_roundtrips ps →
  MMSDecoder.decode_parts (length ps) msg (fresh (concat encs ++ rest)) =
    Some (Ok (mkMessage (headers msg) (_pages msg) (_data_parts msg ++ ps)),
          fresh rest).
Proof.
  intros Henc. revert msg. induction Henc as [|p e ps encs He Henc IH];
    intros msg Hall; simpl.
  - rewrite app_nil_r. by destruct msg.
  - apply Forall_cons in Hall as [Hp Hall].
    rewrite <- app_assoc, (Hp _ _ He). rewrite IH by done.
    simpl. by rewrite <- app_assoc.
Qed.

(** Where the two destination tests agree, so do the prepared maps. *)
Lemma prepare_headers_spec (rand : Z) (h : gmap string value) :
  MMSEncoder.found_dest_address (MMSEncoder.normalize_aliases h) =
    Spec.found_dest_address (MMSEncoder.normalize_aliases h) →
  MMSEncoder.prepare_headers rand h = Spec.prepare_headers rand h.
Proof.
  intros Hdest. unfold MMSEncoder.prepare_headers, Spec.prepare_headers.
  do 2 f_equal.
  unfold MMSEncoder.verify_message_type, Spec.verify_message_type.
  destruct (bool_decide (is_Some (MMSEncoder.normalize_aliases h !! "Message-Type"))).
  - by rewrite Hdest.
  - rewrite lookup_insert_eq. by rewrite !bool_decide_eq_false_2.
Qed.

(** C1, amended: for a message without raw data parts, all of whose
    emitted pieces survive their own encoding, decoding the encoded
    message succeeds and yields a message whose header map is the
    supplied one with the X-Mms- aliases renamed and the defaults for
    Message-Type, Transaction-Id and MMS-Version filled in, which has
    no pages, and whose data parts are the presentation part followed
    by the image, audio and text parts of the pages, in order. *)
Theorem decode_encode (rand : Z) (msg msg' : MMSMessage) (pdu : bytes) :
  round_trippable rand msg →
  MMSEncoder.encode rand msg = (Ok pdu, msg') →
  MMSDecoder.decode_data pdu =
    Some (Ok (mkMessage (Spec.prepare_headers rand (headers msg)) []
                (MMSEncoder.smil_part msg
                 :: concat (MMSEncoder.slide_parts <$> _pages msg)))).
Proof.
  intros Hrt. rewrite <- (prepare_headers_spec _ _ (rt_destination _ _ Hrt)).
  unfold MMSEncoder.encode.
  destruct (MMSEncoder.encode_message_header rand (headers msg))
    as [[hb|e] h'] eqn:Hhdr; [|discriminate].
  destruct (MMSEncoder.encode_message_body _) as [bb|] eqn:Hbody;
    simpl; [|discriminate].
  intros [= <- _].
  unfold MMSDecoder.decode_data.
  rewrite (decode_encoded_header rand msg h' hb bb Hrt Hhdr).
  unfold MMSEncoder.encode_message_body in Hbody.
  change (MMSEncoder.num_entries (set_headers h' msg))
    with (MMSEncoder.num_entries msg) in Hbody.
  change (MMSEncoder.parts (set_headers h' msg))
    with (MMSEncoder.parts msg) in Hbody.
  destruct (wsp_pdu.encodeUintvar (MMSEncoder.num_entries msg)) as [count|] eqn:Hcount;
    cbn [mbind result_mbind result_bind] in Hbody; [|discriminate].
  apply encode_parts_spec in Hbody as (encs & Hencs & ->).
  unfold MMSDecoder.decode_message_body.
  rewrite (rt_count _ _ Hrt _ _ Hcount).
  rewrite num_entries_parts, (rt_no_raw_parts _ _ Hrt). simpl length.
  rewrite Z.add_0_r, Nat2Z.id.
  rewrite <- (app_nil_r (concat encs)).
  rewrite (decode_parts_roundtrip _ _ _ _ Hencs);
    [|eapply Forall_impl; [exact (rt_parts _ _ Hrt)|];
      apply part_well_formed_roundtrips].
  done.
Qed.

End roundtrip.

(** ** Runs of the codec on the sample messages *)

(** The header block of the sample ends at Content-Type; the three
    bytes after it are left for the body. *)
Example decode_message_header_sample :
  MMSDecoder.decode_message_header new_MMSMessage
      (Examples.header_block ++ Examples.body_prefix) =
    Some (Ok (mkMessage
                (<["Message-Type" := VStr "m-notification-ind"]>
                   (<["Transaction-Id" := VStr "abcd"]>
                      {[ "Content-Type" := Examples.ct_related ]}))
                [] [],
              fresh Examples.body_prefix)).
Proof. vm_compute. reflexivity. Qed.

(** [decode_message_header_run] on that input. *)
Lemma decode_message_header_run_witness :
  ∃ es stop it',
    header_run (fresh (Examples.header_block ++ Examples.body_prefix)) es stop it'
    ∧ pending it' `suffix_of` Examples.header_block ++ Examples.body_prefix
    ∧ (stop = Exhausted → pending it' = [])
    ∧ MMSDecoder.decode_message_header new_MMSMessage
        (Examples.header_block ++ Examples.body_prefix) =
        Some (header_outcome new_MMSMessage es stop it').
Proof.
  exact (decode_message_header_run (L := model_laws) new_MMSMessage
           (Examples.header_block ++ Examples.body_prefix)).
Defined.

(** A header decoder that raises ends the loop, and the call, without
    a Content-Type entry and before the cursor is exhausted:
    Delivery-Time (0x07) has no value decoder. *)
Example decode_message_header_aborted :
  MMSDecoder.decode_header (fresh [0x87; 0x00]) = (Raise RuntimeError, fresh [0x00])
  ∧ MMSDecoder.decode_message_header new_MMSMessage [0x87; 0x00] =
      Some (Raise RuntimeError).
Proof. split; vm_compute; reflexivity. Qed.

(** Two framed parts are recovered, in order, with their content types,
    headers and payloads. *)
Example decode_message_body_sample :
  MMSDecoder.decode_message_body new_MMSMessage (fresh Examples.body_two_parts) =
    Some (Ok (mkMessage ∅ []
                [ Examples.text_part;
                  mkDataPart [71; 73; 70] "image/gif" ∅
                    (<["X-Id" := VStr "7"]>
                       {[ "Content-Type" := VTuple (VStr "image/gif") (VDict ∅) ]}) ]),
          fresh []).
Proof. vm_compute. reflexivity. Qed.

(** [decode_message_body_framing] on that body. *)
Lemma decode_message_body_framing_witness :
  ∃ outcome,
    MMSDecoder.decode_message_body new_MMSMessage (fresh Examples.body_two_parts)
      = Some outcome
    ∧ ∀ N it0, wsp_pdu.decodeUintvar (fresh Examples.body_two_parts) = (Ok N, it0) →
      ∀ msg' it', outcome = (Ok msg', it') →
        ∃ ps, length ps = Z.to_nat N
              ∧ parts_framed it0 ps it'
              ∧ headers msg' = headers new_MMSMessage
              ∧ _pages msg' = _pages new_MMSMessage
              ∧ _data_parts msg' = _data_parts new_MMSMessage ++ ps.
Proof.
  exact (decode_message_body_framing (L := model_laws) new_MMSMessage
           (fresh Examples.body_two_parts)).
Defined.

(** ** Encoding followed by decoding, on the sample messages *)

(** Case analysis on the membership of an entry in a map that
    evaluates to a list of entries. *)
Ltac each_entry Hk :=
  apply elem_of_map_to_list in Hk; vm_compute map_to_list in Hk;
  repeat (apply elem_of_cons in Hk as [[= -> ->]|Hk]);
  try (by apply elem_of_nil in Hk); try done.

(** An encoding that evaluates to given bytes is read back by
    evaluation, whatever follows it. *)
Ltac read_back He :=
  vm_compute in He; injection He as <-; reflexivity.

Lemma sample_part_well_formed (p : DataPart) :
  p ∈ [MMSEncoder.smil_part Examples.msg_page; Examples.text_part] →
  part_well_formed p.
Proof.
  intros Hp.
  repeat (apply elem_of_cons in Hp as [->|Hp]); [| |by apply elem_of_nil in Hp].
  all: split.
  all: try reflexivity.
  all: try (intros pct rest He; read_back He).
  all: try (intros k v Hk Hne e rest He; each_entry Hk; read_back He).
  all: try (intros pct eph Hpct Heph e rest He;
            vm_compute in Hpct, Heph; injection Hpct as <-; injection Heph as <-;
            read_back He).
Qed.

Lemma msg_page_round_trippable : round_trippable 1234 Examples.msg_page.
Proof.
  split.
  - reflexivity.
  - reflexivity.
  - intros k v Hk Hne e rest He. each_entry Hk; read_back He.
  - intros cv [= <-] content_type ct_parameters name val rest Hun Hname Hval.
    vm_compute in Hun, Hname.
    injection Hun as <- <-. injection Hname as <-.
    read_back Hval.
  - intros e rest He. read_back He.
  - apply Forall_forall, sample_part_well_formed.
Qed.

(** [decode_encode] at the message with one text page. *)
Lemma decode_encode_witness :
  MMSDecoder.decode_data Examples.pdu_page =
    Some (Ok (mkMessage
                (Spec.prepare_headers 1234 (headers Examples.msg_page)) []
                (MMSEncoder.smil_part Examples.msg_page
                 :: concat (MMSEncoder.slide_parts <$> _pages Examples.msg_page)))).
Proof.
  apply (decode_encode (L := model_laws) 1234 Examples.msg_page
           (MMSEncoder.encode 1234 Examples.msg_page).2 Examples.pdu_page).
  - exact msg_page_round_trippable.
  - vm_compute. reflexivity.
Defined.

(** C1, refuted: the message with one text page is encoded, the PDU
    decodes to a message with the same header values, and its data parts
    are the presentation part followed by the text part — neither the
    data parts attached to the original (none) nor the parts of its
    pages (the text part alone). *)
Lemma decode_encode_adds_presentation_part :
  ∃ msg',
    (MMSEncoder.encode 1234 Examples.msg_page).1 = Ok Examples.pdu_page
    ∧ MMSDecoder.decode_data Examples.pdu_page = Some (Ok msg')
    ∧ headers msg' = headers Examples.msg_page
    ∧ _data_parts msg' =
        [MMSEncoder.smil_part Examples.msg_page; Examples.text_part]
    ∧ _data_parts msg' ≠ _data_parts Examples.msg_page
    ∧ _data_parts msg' ≠
        concat (MMSEncoder.slide_parts <$> _pages Examples.msg_page)
        ++ _data_parts Examples.msg_page.
Proof.
  exists (mkMessage Examples.hdrs_full []
            [MMSEncoder.smil_part Examples.msg_page; Examples.text_part]).
  split; [vm_compute; reflexivity|].
  split; [vm_compute; reflexivity|].
  split; [reflexivity|]. split; [reflexivity|].
  split; intros Heq; apply (f_equal length) in Heq; discriminate.
Qed.

(** The variable-length integers at the group boundaries survive
    encoding. *)
Example uintvar_boundaries :
  Forall (λ n, WspModel.decodeUintvar (fresh (WspModel.encodeUintvarZ n)) =
               (Ok n, fresh []))
         [0; 127; 128; 16383; 16384].
Proof. repeat constructor. Qed.

(** With a raw data part attached, the announced count exceeds the
    parts present, and decoding the PDU runs off its end. *)
Example decode_encode_raw_part :
  ∃ pdu,
    (MMSEncoder.encode 1234 Examples.msg_raw).1 = Ok pdu
    ∧ MMSDecoder.decode_data pdu = Some (Raise StopIteration).
Proof. eexists. split; [vm_compute; reflexivity|]. vm_compute. reflexivity. Qed.

(** ** The other value decoders *)

Section value_decoders.
Context `{D : wsp_pdu.Decoder}.

(** X1: for a cursor whose next byte is [b], [decodePriorityValue]
    consumes [b] and returns "Low", "Normal" or "High" when [b] is
    128, 129 or 130; for any other [b] it raises DecodeError with the
    cursor rolled back, so that [b] is still the next byte to read. *)
Theorem decodePriorityValue_spec (b : Z) (rest : bytes) (peek_pending : bool) :
  MMSDecoder.decodePriorityValue (cursor_at b rest peek_pending) =
    (if bool_decide (b = 128) then (Ok "Low", fresh rest)
     else if bool_decide (b = 129) then (Ok "Normal", fresh rest)
     else if bool_decide (b = 130) then (Ok "High", fresh rest)
     else (Raise DecodeError, fresh (b :: rest))).
Proof.
  destruct (decide (b = 128)) as [->|H128]; [by destruct peek_pending|].
  destruct (decide (b = 129)) as [->|H129]; [by destruct peek_pending|].
  destruct (decide (b = 130)) as [->|H130]; [by destruct peek_pending|].
  rewrite !bool_decide_eq_false_2 by done.
  unfold MMSDecoder.decodePriorityValue, MMSDecoder.priorities,
    cursor_at, mbind, M_bind, preview.
  destruct peek_pending; cbn [peeked pending dict_get];
    rewrite !decide_False by done;
    (rewrite bool_decide_eq_false_2 by (by intros [? ?])); reflexivity.
Qed.

(** X2: for a cursor whose next byte is [b],
    [decodeSenderVisibilityValue] consumes [b] and returns "Hide" for
    128 and "Show" for 129; for any other [b] it raises DecodeError
    with the cursor rolled back to [b]. *)
Theorem decodeSenderVisibilityValue_spec (b : Z) (rest : bytes) (peek_pending : bool) :
  MMSDecoder.decodeSenderVisibilityValue (cursor_at b rest peek_pending) =
    (if bool_decide (b = 128) then (Ok "Hide", fresh rest)
     else if bool_decide (b = 129) then (Ok "Show", fresh rest)
     else (Raise DecodeError, fresh (b :: rest))).
Proof.
  destruct (decide (b = 128)) as [->|H128]; [by destruct peek_pending|].
  destruct (decide (b = 129)) as [->|H129]; [by destruct peek_pending|].
  rewrite !bool_decide_eq_false_2 by done.
  unfold MMSDecoder.decodeSenderVisibilityValue, cursor_at, mbind, M_bind, preview.
  destruct peek_pending; simpl;
    (rewrite bool_decide_eq_true_2; [done|]);
    rewrite !not_elem_of_cons; repeat split; try done; apply not_elem_of_nil.
Qed.

(** X3: for a cursor whose next byte is [b],
    [decodeMessageClassValue] consumes [b] and returns the class name
    when [b] is one of the four class identifiers 128..131; for any
    other [b] it rolls the cursor back and hands over to
    [decodeTokenText], which starts at [b]. *)
Theorem decodeMessageClassValue_spec (b : Z) (rest : bytes) (peek_pending : bool) :
  MMSDecoder.decodeMessageClassValue (cursor_at b rest peek_pending) =
    (if bool_decide (b = 128) then (Ok "Personal", fresh rest)
     else if bool_decide (b = 129) then (Ok "Advertisement", fresh rest)
     else if bool_decide (b = 130) then (Ok "Informational", fresh rest)
     else if bool_decide (b = 131) then (Ok "Auto", fresh rest)
     else wsp_pdu.decodeTokenText (fresh (b :: rest))).
Proof.
  destruct (decide (b = 128)) as [->|H128]; [by destruct peek_pending|].
  destruct (decide (b = 129)) as [->|H129]; [by destruct peek_pending|].
  destruct (decide (b = 130)) as [->|H130]; [by destruct peek_pending|].
  destruct (decide (b = 131)) as [->|H131]; [by destruct peek_pending|].
  rewrite !bool_decide_eq_false_2 by done.
  unfold MMSDecoder.decodeMessageClassValue, MMSDecoder.class_identifiers,
    cursor_at, mbind, M_bind, preview.
  destruct peek_pending; cbn [peeked pending dict_get];
    rewrite !decide_False by done; cbn;
    by destruct (wsp_pdu.decodeTokenText _) as [[?|?] ?].
Qed.

(** X4: [decodeResponseStatusValue] and [decodeStatusValue] always
    consume the next byte [b] and never raise on it: a byte of the
    table (0x80..0x88, resp. 0x80..0x84) gives the table's name, any
    other byte gives the integer fallback (0x81, resp. 0x84), not a
    name; only an exhausted cursor makes them raise, StopIteration. *)
Theorem decode_status_values_spec (b : Z) (rest : bytes) (peek_pending : bool) :
  (∃ v, MMSDecoder.decodeResponseStatusValue (cursor_at b rest peek_pending)
          = (Ok v, fresh rest)
        ∧ (0x80 ≤ b ≤ 0x88 →
             ∃ s, v = VStr s ∧ (b, s) ∈ MMSDecoder.response_status_values)
        ∧ (¬ 0x80 ≤ b ≤ 0x88 → v = VInt 0x81))
  ∧ (∃ v, MMSDecoder.decodeStatusValue (cursor_at b rest peek_pending)
            = (Ok v, fresh rest)
          ∧ (0x80 ≤ b ≤ 0x84 →
               ∃ s, v = VStr s ∧ (b, s) ∈ MMSDecoder.status_values)
          ∧ (¬ 0x80 ≤ b ≤ 0x84 → v = VInt 0x84))
  ∧ MMSDecoder.decodeResponseStatusValue (fresh []) = (Raise StopIteration, fresh [])
  ∧ MMSDecoder.decodeStatusValue (fresh []) = (Raise StopIteration, fresh []).
Proof.
  split; [|split; [|split; reflexivity]].
  - exists (MMSDecoder.get_or MMSDecoder.response_status_values b 0x81).
    split; [by destruct peek_pending|].
    unfold MMSDecoder.get_or, MMSDecoder.response_status_values.
    cbn [dict_get].
    repeat (case_decide;
            [subst b; split; [intros _; eexists; split; [reflexivity|]|intros []; lia];
             rewrite !elem_of_cons; tauto|]).
    split; [intros ?; lia|done].
  - exists (MMSDecoder.get_or MMSDecoder.status_values b 0x84).
    split; [by destruct peek_pending|].
    unfold MMSDecoder.get_or, MMSDecoder.status_values.
    cbn [dict_get].
    repeat (case_decide;
            [subst b; split; [intros _; eexists; split; [reflexivity|]|intros []; lia];
             rewrite !elem_of_cons; tauto|]).
    split; [intros ?; lia|done].
Qed.

End value_decoders.

(** ** Composite value decoders: a length, a token, a value *)

Section composite_decoders.
Context `{D : wsp_pdu.Decoder}.

(** X5: in [decodeEncodedStringValue], once a value length has been
    read, a charset that fails to decode is not recovered by the
    Text-string fallback: the call raises a plain Exception, with
    the cursor where the charset decoder left it; reached through the
    header value dispatch, that is a RuntimeError. *)
Theorem decodeEncodedStringValue_charset_error
    (it it1 it2 : PreviewIterator) (n : Z) :
  wsp_pdu.decodeValueLength it = (Ok n, it1) →
  wsp_pdu.decodeWellKnownCharset it1 = (Raise DecodeError, it2) →
  MMSDecoder.decodeEncodedStringValue it = (Raise Exception, it2)
  ∧ MMSDecoder.decode_mms_value (Some "EncodedStringValue") it =
      (Raise RuntimeError, it2).
Proof.
  intros Hlen Hcs.
  assert (Hdec : MMSDecoder.decodeEncodedStringValue it = (Raise Exception, it2)).
  { unfold MMSDecoder.decodeEncodedStringValue, try_except, mbind, M_bind.
    rewrite Hlen. cbv beta iota. rewrite Hcs. reflexivity. }
  split; [exact Hdec|].
  unfold MMSDecoder.decode_mms_value.
  change (MMSDecoder.getattr (format_kind "decode" (Some "EncodedStringValue")))
    with (Some (VStr <$> MMSDecoder.decodeEncodedStringValue)).
  cbv beta iota. unfold fmap, M_fmap, mbind, M_bind. by rewrite Hdec.
Qed.

(** X6: [decodeFromValue] reads a value length and then one token
    byte.  The length plays no part in what follows; the token 129
    gives "<not inserted>", and every other token — not 128 alone —
    is taken as the address-present token, the address being decoded
    from the byte after it.  With no token left the call raises
    StopIteration. *)
Theorem decodeFromValue_spec (it it1 : PreviewIterator) (n : Z) :
  wsp_pdu.decodeValueLength it = (Ok n, it1) →
  MMSDecoder.decodeFromValue it =
    match pending it1 with
    | [] => (Raise StopIteration, fresh [])
    | token :: rest =>
        if bool_decide (token = 129) then (Ok "<not inserted>", fresh rest)
        else MMSDecoder.decodeEncodedStringValue (fresh rest)
    end.
Proof.
  intros Hlen. unfold MMSDecoder.decodeFromValue, mbind, M_bind.
  rewrite Hlen. cbv beta iota. unfold next.
  destruct (pending it1) as [|token rest]; [done|].
  cbv beta iota. case_bool_decide; [done|].
  by destruct (MMSDecoder.decodeEncodedStringValue _) as [[?|?] ?].
Qed.

(** X7: [decodeExpiryValue] reads a value length and then one token
    byte: 0x80 hands over to the date decoder and 0x81 to the
    delta-seconds decoder, each starting at the byte after the token;
    any other token raises DecodeError, and the cursor is not rolled
    back — the length and the token stay consumed. *)
Theorem decodeExpiryValue_spec (it it1 : PreviewIterator) (n : Z) :
  wsp_pdu.decodeValueLength it = (Ok n, it1) →
  MMSDecoder.decodeExpiryValue it =
    match pending it1 with
    | [] => (Raise StopIteration, fresh [])
    | token :: rest =>
        if bool_decide (token = 0x80) then wsp_pdu.decodeDateValue (fresh rest)
        else if bool_decide (token = 0x81)
             then wsp_pdu.decodeDeltaSecondsValue (fresh rest)
             else (Raise DecodeError, fresh rest)
    end.
Proof.
  intros Hlen. unfold MMSDecoder.decodeExpiryValue, mbind, M_bind.
  rewrite Hlen. cbv beta iota. unfold next.
  destruct (pending it1) as [|token rest]; [done|].
  cbv beta iota. repeat case_bool_decide; try done.
  all: by destruct (_ (fresh rest)) as [[?|?] ?].
Qed.

End composite_decoders.

(** [decodeEncodedStringValue_charset_error] on a value length 3
    followed by a byte that is no charset. *)
Lemma decodeEncodedStringValue_charset_error_witness :
  MMSDecoder.decodeEncodedStringValue (fresh [3; 0x41; 0x42; 0]) =
    (Raise Exception, fresh [0x41; 0x42; 0])
  ∧ MMSDecoder.decode_mms_value (Some "EncodedStringValue") (fresh [3; 0x41; 0x42; 0]) =
      (Raise RuntimeError, fresh [0x41; 0x42; 0]).
Proof.
  apply (decodeEncodedStringValue_charset_error
           (fresh [3; 0x41; 0x42; 0]) (fresh [0x41; 0x42; 0])
           (fresh [0x41; 0x42; 0]) 3); reflexivity.
Defined.

(** [decodeFromValue_spec] on the insert-address form. *)
Lemma decodeFromValue_spec_witness :
  MMSDecoder.decodeFromValue (fresh [1; 129; 7]) = (Ok "<not inserted>", fresh [7]).
Proof.
  exact (decodeFromValue_spec (fresh [1; 129; 7]) (fresh [129; 7]) 1 eq_refl).
Defined.

(** [decodeExpiryValue_spec] on a token that is neither absolute nor
    relative. *)
Lemma decodeExpiryValue_spec_witness :
  MMSDecoder.decodeExpiryValue (fresh [2; 0x82; 7]) = (Raise DecodeError, fresh [7]).
Proof.
  exact (decodeExpiryValue_spec (fresh [2; 0x82; 7]) (fresh [0x82; 7]) 2 eq_refl).
Defined.

(** ** The field registry *)

Lemma dict_get_mms_field_names_None (n : Z) :
  ¬ 0x01 ≤ n ≤ 0x18 → dict_get mms_field_names n = None.
Proof.
  intros Hn. unfold mms_field_names. cbn [dict_get].
  repeat (case_decide; [lia|]). done.
Qed.

Lemma dict_get_mms_field_names_is_Some (n : Z) :
  0x01 ≤ n ≤ 0x18 → is_Some (dict_get mms_field_names n).
Proof.
  intros Hn. unfold mms_field_names. cbn [dict_get].
  repeat (case_decide; [eauto|]). lia.
Qed.

Lemma delivery_time_kind (n : Z) (kind : option string) :
  dict_get mms_field_names n = Some ("Delivery-Time", kind) → kind = None.
Proof.
  unfold mms_field_names. cbn [dict_get].
  repeat (case_decide; [by intros [= <-]|]). discriminate.
Qed.

Lemma find_field_dict_get (name : string) (n : Z) (kind : option string) :
  find_field name mms_field_names = Some (n, kind) →
  dict_get mms_field_names n = Some (name, kind).
Proof.
  unfold mms_field_names. cbn [find_field dict_get].
  repeat (case_decide; [intros [= <- <-]; subst name; reflexivity|]).
  discriminate.
Qed.

Lemma dict_get_find_field (name : string) (n : Z) (kind : option string) :
  dict_get mms_field_names n = Some (name, kind) →
  find_field name mms_field_names = Some (n, kind).
Proof.
  unfold mms_field_names. cbn [find_field dict_get].
  repeat (case_decide; [intros [= <- <-]; subst n; reflexivity|]).
  discriminate.
Qed.

(** X8: the two ways the registry is searched agree.  The encoder
    scans it for the first entry with a given name, the decoder looks
    a number up: a name leads to a number and a value kind exactly when
    that number leads back to the name and the kind — no name and no
    number occurs twice. *)
Theorem mms_field_names_inverse (name : string) (n : Z) (kind : option string) :
  find_field name mms_field_names = Some (n, kind)
  ↔ dict_get mms_field_names n = Some (name, kind).
Proof. split; [apply find_field_dict_get|apply dict_get_find_field]. Qed.

(** ** One header entry *)

Section header_entry.
Context {D : wsp_pdu.Decoder} {L : DecoderLaws D}.

(** X9: when the next byte [b] is no registered field — it is not a
    short integer, or its number is outside [0x01..0x18] —
    [decodeMMSHeader] raises DecodeError with [b] still the next byte
    to read, and [decode_header] hands the same bytes to the
    application-header decoder. *)
Theorem decode_header_unregistered (b : Z) (rest : bytes) (peek_pending : bool) :
  (wsp_pdu.decodeShortIntegerFromByte b = Raise DecodeError
   ∨ ∃ n, wsp_pdu.decodeShortIntegerFromByte b = Ok n ∧ ¬ 0x01 ≤ n ≤ 0x18) →
  ∃ peek_pending',
    MMSDecoder.decodeMMSHeader (cursor_at b rest peek_pending) =
      (Raise DecodeError, cursor_at b rest peek_pending')
    ∧ MMSDecoder.decode_header (cursor_at b rest peek_pending) =
        wsp_pdu.decode_header (cursor_at b rest peek_pending').
Proof.
  intros Hb.
  assert (Hmms : ∃ peek_pending',
    MMSDecoder.decodeMMSHeader (cursor_at b rest peek_pending) =
      (Raise DecodeError, cursor_at b rest peek_pending')).
  { unfold MMSDecoder.decodeMMSHeader, mbind, M_bind, lift.
    assert (Hp : preview (cursor_at b rest peek_pending) = (Ok b, cursor_at b rest true))
      by by destruct peek_pending.
    rewrite Hp. cbv beta iota.
    destruct Hb as [Hb|(n & Hb & Hn)]; rewrite Hb; cbv beta iota.
    - by exists true.
    - rewrite dict_get_mms_field_names_None by done. by exists false. }
  destruct Hmms as (peek_pending' & Hmms). exists peek_pending'.
  split; [exact Hmms|].
  unfold MMSDecoder.decode_header, try_except. rewrite Hmms.
  by rewrite decide_True.
Qed.

(** X10: the field Delivery-Time (0x07) has no value decoder.  No
    header entry is ever decoded under that name; a cursor at its
    field code makes [decode_header] raise RuntimeError, the code
    consumed, and a message that starts with it makes [decode_data]
    raise RuntimeError. *)
Theorem decode_header_delivery_time (b : Z) (rest : bytes) (peek_pending : bool) :
  wsp_pdu.decodeShortIntegerFromByte b = Ok 0x07 →
  MMSDecoder.decode_header (cursor_at b rest peek_pending) =
    (Raise RuntimeError, fresh rest)
  ∧ MMSDecoder.decode_data (b :: rest) = Some (Raise RuntimeError)
  ∧ ∀ it v it', MMSDecoder.decodeMMSHeader it ≠ (Ok ("Delivery-Time", v), it').
Proof.
  intros Hb.
  assert (Hhdr : ∀ peek_pending, MMSDecoder.decode_header (cursor_at b rest peek_pending) =
                   (Raise RuntimeError, fresh rest)).
  { intros pp. unfold MMSDecoder.decode_header, try_except,
      MMSDecoder.decodeMMSHeader, mbind, M_bind, lift.
    assert (Hp : preview (cursor_at b rest pp) = (Ok b, cursor_at b rest true))
      by by destruct pp.
    rewrite Hp. cbv beta iota. rewrite Hb. reflexivity. }
  split; [apply Hhdr|]. split.
  - unfold MMSDecoder.decode_data, MMSDecoder.decode_message_header.
    cbn [MMSDecoder.decode_message_header_loop MMSDecoder.hl_iter].
    change (fresh (b :: rest)) with (cursor_at b rest false).
    by rewrite Hhdr.
  - intros it v it'. unfold MMSDecoder.decodeMMSHeader, mbind, M_bind, lift.
    destruct (preview it) as [[b'|e] it1]; [|discriminate].
    destruct (wsp_pdu.decodeShortIntegerFromByte b') as [n|e]; [|discriminate].
    destruct (dict_get mms_field_names n) as [[name kind]|] eqn:Hn;
      [|discriminate].
    destruct (next it1) as [[b''|e] it2]; [|discriminate].
    destruct (decide (name = "Delivery-Time")) as [->|Hne].
    + apply delivery_time_kind in Hn. subst kind.
      discriminate.
    + destruct (MMSDecoder.decode_mms_value kind it2) as [[v'|e] it3];
        [|discriminate].
      intros [= ? ? ?]. done.
Qed.

(** X11: when the field code [b] is registered and its value fails
    to decode with DecodeError, [decodeMMSHeader] raises DecodeError
    with the field code consumed: the cursor stays where the value
    decoder left it, within the bytes after [b], and that is where
    the application-header fallback of [decode_header] starts. *)
Theorem decode_header_value_error (b n : Z) (rest : bytes) (peek_pending : bool)
    (name : string) (kind : option string) (it' : PreviewIterator) :
  wsp_pdu.decodeShortIntegerFromByte b = Ok n →
  dict_get mms_field_names n = Some (name, kind) →
  MMSDecoder.decode_mms_value kind (fresh rest) = (Raise DecodeError, it') →
  MMSDecoder.decodeMMSHeader (cursor_at b rest peek_pending) =
    (Raise DecodeError, it')
  ∧ MMSDecoder.decode_header (cursor_at b rest peek_pending) =
      wsp_pdu.decode_header it'
  ∧ pending it' `suffix_of` rest.
Proof.
  intros Hb Hn Hv.
  assert (Hmms : MMSDecoder.decodeMMSHeader (cursor_at b rest peek_pending) =
                   (Raise DecodeError, it')).
  { unfold MMSDecoder.decodeMMSHeader, mbind, M_bind, lift.
    assert (Hp : preview (cursor_at b rest peek_pending) = (Ok b, cursor_at b rest true))
      by by destruct peek_pending.
    rewrite Hp. cbv beta iota. rewrite Hb. cbv beta iota. rewrite Hn.
    change (next (cursor_at b rest true)) with (Ok b, fresh rest).
    cbv beta iota. by rewrite Hv. }
  split; [exact Hmms|]. split.
  - unfold MMSDecoder.decode_header, try_except. rewrite Hmms.
    by rewrite decide_True.
  - apply (orderly_decode_mms_value kind _ _ _ Hv).
Qed.

End header_entry.

(** [decode_header_unregistered] at a byte that is no short integer. *)
Lemma decode_header_unregistered_witness :
  ∃ peek_pending',
    MMSDecoder.decodeMMSHeader (cursor_at 0x41 [0; 0x42; 0] false) =
      (Raise DecodeError, cursor_at 0x41 [0; 0x42; 0] peek_pending')
    ∧ MMSDecoder.decode_header (cursor_at 0x41 [0; 0x42; 0] false) =
        wsp_pdu.decode_header (cursor_at 0x41 [0; 0x42; 0] peek_pending').
Proof.
  apply (decode_header_unregistered 0x41 [0; 0x42; 0] false).
  left. reflexivity.
Defined.

(** [decode_header_delivery_time] at the short integer 0x87. *)
Lemma decode_header_delivery_time_witness :
  MMSDecoder.decode_header (cursor_at 0x87 [0x00] false) =
    (Raise RuntimeError, fresh [0x00])
  ∧ MMSDecoder.decode_data [0x87; 0x00] = Some (Raise RuntimeError)
  ∧ ∀ it v it', MMSDecoder.decodeMMSHeader it ≠ (Ok ("Delivery-Time", v), it').
Proof.
  apply (decode_header_delivery_time 0x87 [0x00] false). reflexivity.
Defined.

(** [decode_header_value_error] at a Priority field (0x8F) whose value
    byte is no priority. *)
Lemma decode_header_value_error_witness :
  MMSDecoder.decodeMMSHeader (cursor_at 0x8F [0x41; 0; 0x42; 0] false) =
    (Raise DecodeError, fresh [0x41; 0; 0x42; 0])
  ∧ MMSDecoder.decode_header (cursor_at 0x8F [0x41; 0; 0x42; 0] false) =
      wsp_pdu.decode_header (fresh [0x41; 0; 0x42; 0])
  ∧ pending (fresh [0x41; 0; 0x42; 0]) `suffix_of` [0x41; 0; 0x42; 0].
Proof.
  apply (decode_header_value_error (L := model_laws) 0x8F 0x0F
           [0x41; 0; 0x42; 0] false "Priority" (Some "PriorityValue"));
    reflexivity.
Defined.

(** A Priority field with a malformed value is thus read as an
    application header named by the value bytes. *)
Example decode_header_malformed_priority :
  MMSDecoder.decode_header (fresh [0x8F; 0x41; 0; 0x42; 0]) =
    (Ok ("A", VStr "B"), fresh []).
Proof. vm_compute. reflexivity. Qed.

(** ** Decoding a whole message *)

Section decode_data_shape.
Context {D : wsp_pdu.Decoder} {L : DecoderLaws D}.

Lemma record_entries_snoc_ne (es : list (string * value)) (e : string * value)
    (h : gmap string value) :
  record_entries (es ++ [e]) h ≠ ∅.
Proof.
  rewrite record_entries_app. destruct e as [k v].
  cbn [record_entries foldl]. apply insert_non_empty.
Qed.

Lemma record_entries_ne (es : list (string * value)) (h : gmap string value) :
  es ≠ [] → record_entries es h ≠ ∅.
Proof.
  destruct es as [|e es _] using rev_ind; [done|].
  intros _. apply record_entries_snoc_ne.
Qed.

(** X12: [decode_data] comes to an end on every byte sequence — it
    returns a message or raises — and a message it returns has at
    least one header and no page: whatever the PDU carries beyond
    its headers is delivered as data parts. *)
Theorem decode_data_returns (data : bytes) :
  ∃ r, MMSDecoder.decode_data data = Some r
       ∧ ∀ msg, r = Ok msg → headers msg ≠ ∅ ∧ _pages msg = [].
Proof.
  unfold MMSDecoder.decode_data, MMSDecoder.decode_message_header.
  destruct (decode_message_header_loop_run (S (length data))
              (MMSDecoder.mkLocals (headers new_MMSMessage) None (fresh data)))
    as (es & stop & it' & Hrun & _ & _ & Hloop); [simpl; lia|].
  rewrite Hloop.
  cbn [MMSDecoder.hl_headers MMSDecoder.hl_last MMSDecoder.hl_iter].
  assert (Hbody : ∀ h, h ≠ ∅ →
    ∃ r, match MMSDecoder.decode_message_body (set_headers h new_MMSMessage) it' with
         | Some (r, _) => Some r
         | None => None
         end = Some r
         ∧ ∀ msg, r = Ok msg → headers msg ≠ ∅ ∧ _pages msg = []).
  { intros h Hh. unfold MMSDecoder.decode_message_body.
    destruct (wsp_pdu.decodeUintvar it') as [[N|e] it0].
    - destruct (decode_parts_framed (Z.to_nat N) (set_headers h new_MMSMessage) it0)
        as ([r it1] & Hparts & Hok).
      rewrite Hparts. exists r. split; [done|]. intros msg ->.
      destruct (Hok _ _ eq_refl) as (ps & _ & _ & ->). done.
    - destruct e; (eexists; split; [reflexivity|]); try discriminate.
      intros msg [= <-]. done. }
  destruct stop as [v| |e].
  - unfold MMSDecoder.record_content_type. cbn [MMSDecoder.hl_last].
    rewrite decide_True by done.
    cbn [MMSDecoder.hl_headers MMSDecoder.hl_iter].
    apply Hbody, insert_non_empty.
  - unfold MMSDecoder.record_content_type. cbn [MMSDecoder.hl_last].
    destruct es as [|e es _] using rev_ind.
    + cbn. eexists. split; [reflexivity|discriminate].
    + unfold last_entry. rewrite last_snoc. destruct e as [header value].
      case_decide; cbn [MMSDecoder.hl_headers MMSDecoder.hl_iter].
      * apply Hbody, insert_non_empty.
      * apply Hbody, record_entries_snoc_ne.
  - eexists. split; [reflexivity|discriminate].
Qed.

Lemma read_bytes_short (n : nat) (it : PreviewIterator) :
  (length (pending it) < n)%nat →
  MMSDecoder.read_bytes n it = (Raise StopIteration, fresh []).
Proof.
  revert it. induction n as [|n IH]; intros it Hlen; [lia|].
  cbn [MMSDecoder.read_bytes]. unfold mbind, M_bind, next.
  destruct (pending it) as [|b bs] eqn:Hp; [done|].
  cbv beta iota. rewrite IH; [done|]. simpl in *. lia.
Qed.

(** X13: a body that announces at least one part and then breaks off
    inside the header block of a part — fewer bytes are left than
    the part's headers-length declares — makes [decode_message_body]
    raise StopIteration with the cursor exhausted: only the
    StopIteration of the part count itself is turned into a normal
    return. *)
Theorem decode_message_body_truncated (msg : MMSMessage)
    (it it0 it1 it2 : PreviewIterator) (N H Len : Z) :
  wsp_pdu.decodeUintvar it = (Ok N, it0) →
  0 < N →
  wsp_pdu.decodeUintvar it0 = (Ok H, it1) →
  wsp_pdu.decodeUintvar it1 = (Ok Len, it2) →
  (length (pending it2) < Z.to_nat H)%nat →
  MMSDecoder.decode_message_body msg it = Some (Raise StopIteration, fresh []).
Proof.
  intros HN Hpos HH HL Hshort.
  unfold MMSDecoder.decode_message_body. rewrite HN.
  destruct (Z.to_nat N) as [|n] eqn:Hn; [lia|].
  cbn [MMSDecoder.decode_parts]. unfold MMSDecoder.decode_part.
  rewrite HH, HL, read_bytes_short by done. done.
Qed.

End decode_data_shape.

(** [decode_data_returns] on the sample header block. *)
Lemma decode_data_returns_witness :
  ∃ r, MMSDecoder.decode_data Examples.header_block = Some r
       ∧ ∀ msg, r = Ok msg → headers msg ≠ ∅ ∧ _pages msg = [].
Proof.
  exact (decode_data_returns (L := model_laws) Examples.header_block).
Defined.

(** [decode_message_body_truncated] on a body that announces one part
    with five header bytes and holds two. *)
Lemma decode_message_body_truncated_witness :
  MMSDecoder.decode_message_body new_MMSMessage (fresh [1; 5; 0; 0x41; 0]) =
    Some (Raise StopIteration, fresh []).
Proof.
  apply (decode_message_body_truncated new_MMSMessage
           (fresh [1; 5; 0; 0x41; 0]) (fresh [5; 0; 0x41; 0])
           (fresh [0; 0x41; 0]) (fresh [0x41; 0]) 1 5 0);
    try reflexivity. simpl. lia.
Defined.

(** ** Value encoders and their decoders *)

(** X14: [encodeMessageTypeValue] turns every string into one byte,
    and [decodeMessageTypeValue] reads that byte back: as the same name
    when it is one of the seven message types, as "m-send-req" when it
    is any other string, which the encoder silently encodes as 0x80. *)
Theorem decodeMessageTypeValue_encodeMessageTypeValue (s : string) (rest : bytes) :
  ∃ code,
    MMSEncoder.encodeMessageTypeValue (VStr s) = Ok [code]
    ∧ MMSDecoder.decodeMessageTypeValue (fresh (code :: rest)) =
        (Ok (if bool_decide (s ∈ message_type_names) then s else "m-send-req"),
         fresh rest).
Proof.
  exists (default 0x80 (dict_get MMSEncoder.message_types s)).
  split; [reflexivity|].
  unfold MMSEncoder.message_types. cbn [dict_get].
  repeat (case_decide; [subst s; reflexivity|]).
  rewrite bool_decide_eq_false_2; [reflexivity|].
  unfold message_type_names. rewrite !not_elem_of_cons.
  repeat split; try done. apply not_elem_of_nil.
Qed.

Section from_value.
Context `{D : wsp_pdu.Decoder} `{E : wsp_pdu.Encoder}.

(** X15: the bytes [encodeFromValue] returns are a value length
    followed by exactly as many bytes as it declares: the single
    token 129 when the sender is empty, else the token 128 and the
    encoded address.  A value without a length (a number, a boolean)
    raises TypeError. *)
Theorem encodeFromValue_length (from_value : value) :
  match MMSEncoder.encodeFromValue from_value with
  | Ok bs =>
      ∃ value_length body,
        bs = value_length ++ body
        ∧ wsp_pdu.encodeValueLength (Z.of_nat (length body)) = Ok value_length
        ∧ (py_len from_value = Ok 0 ∧ body = [129]
           ∨ ∃ addr, py_len from_value ≠ Ok 0
                     ∧ wsp_pdu.encodeTextString from_value = Ok addr
                     ∧ body = 128 :: addr)
  | Raise e =>
      (∀ s, from_value ≠ VStr s) → (∀ d, from_value ≠ VDict d) →
      (∀ a b, from_value ≠ VTuple a b) → e = TypeError
  end.
Proof.
  unfold MMSEncoder.encodeFromValue, MMSEncoder.encodeEncodedStringValue.
  destruct (py_len from_value) as [n|e] eqn:Hlen;
    cbn [mbind result_mbind result_bind].
  - case_bool_decide as Hn.
    + subst n.
      destruct (wsp_pdu.encodeValueLength 1) as [vl|e] eqn:Hvl;
        cbn [mbind result_mbind result_bind mret result_ret].
      * exists vl, [129]. split; [done|]. split; [exact Hvl|]. by left.
      * destruct from_value; try discriminate; intros H1 H2 H3;
          by first [destruct (H1 s)|destruct (H2 d)|destruct (H3 from_value1 from_value2)].
    + destruct (wsp_pdu.encodeTextString from_value) as [addr|e] eqn:Haddr;
        cbn [mbind result_mbind result_bind].
      * destruct (wsp_pdu.encodeValueLength _) as [vl|e] eqn:Hvl;
          cbn [mbind result_mbind result_bind mret result_ret].
        -- exists vl, (128 :: addr). split; [done|].
           split; [|right; exists addr; split; [congruence|done]].
           rewrite <- Hvl. f_equal. simpl length. lia.
        -- destruct from_value; try discriminate; intros H1 H2 H3;
             by first [destruct (H1 s)|destruct (H2 d)|destruct (H3 from_value1 from_value2)].
      * destruct from_value; try discriminate; intros H1 H2 H3;
          by first [destruct (H1 s)|destruct (H2 d)|destruct (H3 from_value1 from_value2)].
  - destruct from_value; try discriminate; by injection Hlen as <-.
Qed.

(** X16: a sender address survives [encodeFromValue] followed by
    [decodeFromValue] whenever the primitives it is built from do —
    the value length is read back, and the text is read back as an
    encoded-string value; the empty sender does not: it is encoded as
    the insert-address token and decoded as "<not inserted>". *)
Theorem decodeFromValue_encodeFromValue (s : string) (bs rest : bytes) :
  value_length_roundtrips 1 →
  (∀ text, wsp_pdu.encodeTextString (VStr s) = Ok text →
     value_length_roundtrips (Z.of_nat (length text) + 1)) →
  text_roundtrips s →
  MMSEncoder.encodeFromValue (VStr s) = Ok bs →
  MMSDecoder.decodeFromValue (fresh (bs ++ rest)) =
    (Ok (if bool_decide (s = "") then "<not inserted>" else s), fresh rest).
Proof.
  intros Hone Hlen Htext.
  unfold MMSEncoder.encodeFromValue, MMSEncoder.encodeEncodedStringValue.
  cbn [py_len mbind result_mbind result_bind].
  destruct s as [|c s].
  - cbn [String.length]. rewrite bool_decide_eq_true_2 by done.
    destruct (wsp_pdu.encodeValueLength 1) as [vl|e] eqn:Hvl; [|discriminate].
    cbn [mbind result_mbind result_bind mret result_ret]. intros [= <-].
    unfold MMSDecoder.decodeFromValue, mbind, M_bind.
    rewrite <- app_assoc, (Hone _ _ Hvl). reflexivity.
  - rewrite bool_decide_eq_false_2 by (cbn [String.length]; lia).
    destruct (wsp_pdu.encodeTextString _) as [text|e] eqn:Htxt; [|discriminate].
    cbn [mbind result_mbind result_bind].
    destruct (wsp_pdu.encodeValueLength _) as [vl|e] eqn:Hvl; [|discriminate].
    cbn [mbind result_mbind result_bind mret result_ret]. intros [= <-].
    unfold MMSDecoder.decodeFromValue, mbind, M_bind.
    rewrite <- !app_assoc, (Hlen _ eq_refl _ _ Hvl).
    cbn [app]. change (next (fresh (128 :: text ++ rest)))
      with (Ok 128, fresh (text ++ rest)).
    cbv beta iota. rewrite bool_decide_eq_false_2 by done.
    destruct (Htext _ rest Htxt) as (it1 & Hno & Hread).
    unfold MMSDecoder.decodeEncodedStringValue, try_except, mbind, M_bind.
    rewrite Hno. rewrite decide_True by done. by rewrite Hread.
Qed.

End from_value.

(** [decodeFromValue_encodeFromValue] at the address "+15550100". *)
Lemma decodeFromValue_encodeFromValue_witness :
  MMSDecoder.decodeFromValue
    (fresh ([11; 128; 43; 49; 53; 53; 53; 48; 49; 48; 48; 0] ++ [7])) =
    (Ok "+15550100", fresh [7]).
Proof.
  apply (decodeFromValue_encodeFromValue "+15550100"
           [11; 128; 43; 49; 53; 53; 53; 48; 49; 48; 48; 0] [7]).
  - intros vl tail [= <-]. reflexivity.
  - intros text [= <-] vl tail [= <-]. reflexivity.
  - intros text tail [= <-]. eexists. split; reflexivity.
  - reflexivity.
Defined.

(** ** A header entry, encoded and decoded *)

Section header_roundtrip.
Context `{D : wsp_pdu.Decoder} `{E : wsp_pdu.Encoder}.

(** X17: a header of the registry survives [encode_header] followed
    by [decode_header] as soon as its two halves do: the field number
    is written as a one-byte short integer that reads back as that
    number, and the value encoder and value decoder that the kind of
    the field selects by name are inverse on the value. *)
Theorem encode_header_decode_header (name kind : string) (n b : Z) (v : value)
    (enc : value → result bytes) (dec : M value) :
  find_field name mms_field_names = Some (n, Some kind) →
  wsp_pdu.encodeShortInteger n = Ok [b] →
  wsp_pdu.decodeShortIntegerFromByte b = Ok n →
  MMSEncoder.getattr ("encode" +:+ kind) = Some enc →
  MMSDecoder.getattr ("decode" +:+ kind) = Some dec →
  (∀ ev rest, enc v = Ok ev → dec (fresh (ev ++ rest)) = (Ok v, fresh rest)) →
  entry_roundtrips name v.
Proof.
  intros Hfield Hnum Hbyte Henc Hdec Hvalue e rest.
  unfold MMSEncoder.encode_header. rewrite Hfield, Hnum.
  cbn [mbind result_mbind result_bind].
  change (format_kind "encode" (Some kind)) with ("encode" +:+ kind).
  rewrite Henc.
  destruct (enc v) as [ev|] eqn:Hev; cbn [mbind result_mbind result_bind];
    [|discriminate].
  rewrite bool_decide_eq_false_2 by done. intros [= <-].
  apply find_field_dict_get in Hfield.
  unfold MMSDecoder.decode_header, try_except,
    MMSDecoder.decodeMMSHeader, mbind, M_bind, lift.
  change (preview (fresh ((b :: ev) ++ rest)))
    with (Ok b, cursor_at b (ev ++ rest) true).
  cbv beta iota. rewrite Hbyte. cbv beta iota. rewrite Hfield.
  change (next (cursor_at b (ev ++ rest) true)) with (Ok b, fresh (ev ++ rest)).
  cbv beta iota.
  unfold MMSDecoder.decode_mms_value.
  change (format_kind "decode" (Some kind)) with ("decode" +:+ kind).
  rewrite Hdec. by rewrite (Hvalue _ _ eq_refl).
Qed.

End header_roundtrip.

(** [encode_header_decode_header] at a Message-Type header followed
    by one more byte. *)
Lemma encode_header_decode_header_witness :
  MMSDecoder.decode_header (fresh ([0x8c; 0x82] ++ [7])) =
    (Ok ("Message-Type", VStr "m-notification-ind"), fresh [7]).
Proof.
  refine (encode_header_decode_header "Message-Type" "MessageTypeValue"
            0x0c 0x8c (VStr "m-notification-ind")
            MMSEncoder.encodeMessageTypeValue
            (VStr <$> MMSDecoder.decodeMessageTypeValue)
            eq_refl eq_refl eq_refl eq_refl eq_refl _ [0x8c; 0x82] [7] eq_refl).
  intros ev rest [= <-]. reflexivity.
Defined.

(** ** Preparing the header map *)

Section header_preparation.
Context `{E : wsp_pdu.Encoder} `{P : message.Presentation}.

Lemma lookup_use_alias_clean (h : gmap string value) (a : string) :
  MMSEncoder.clean_header a ≠ a →
  MMSEncoder.use_alias h a !! MMSEncoder.clean_header a =
    match h !! a with
    | Some v => Some v
    | None => h !! MMSEncoder.clean_header a
    end.
Proof.
  intros Hne. unfold MMSEncoder.use_alias.
  destruct (h !! a); [|done].
  by rewrite lookup_delete_ne, lookup_insert_eq.
Qed.

(** X18: after the alias pass each X-Mms- alias is gone, and the
    header it stands for holds the value supplied under the alias
    when there was one — an alias takes precedence over a value
    supplied under the plain name — and the value supplied under the
    plain name otherwise. *)
Theorem normalize_aliases_precedence (h : gmap string value) :
  Forall (λ ac : string * string,
            MMSEncoder.normalize_aliases h !! ac.1 = None
            ∧ MMSEncoder.normalize_aliases h !! ac.2 =
                match h !! ac.1 with
                | Some v => Some v
                | None => h !! ac.2
                end)
         [ ("X-Mms-Message-Type", "Message-Type");
           ("X-Mms-Transaction-Id", "Transaction-Id");
           ("X-Mms-Version", "MMS-Version") ].
Proof.
  destruct clean_header_values as (H1 & H2 & H3).
  unfold MMSEncoder.normalize_aliases. cbn [foldl].
  repeat constructor; cbn [fst snd].
  - rewrite !lookup_use_alias_ne by (rewrite ?H2, ?H3; discriminate).
    apply lookup_use_alias_eq.
  - rewrite !lookup_use_alias_ne by (rewrite ?H2, ?H3; discriminate).
    rewrite <- H1 at 1. rewrite lookup_use_alias_clean by (rewrite H1; discriminate).
    by rewrite H1.
  - rewrite lookup_use_alias_ne by (rewrite ?H3; discriminate).
    apply lookup_use_alias_eq.
  - rewrite lookup_use_alias_ne by (rewrite ?H3; discriminate).
    rewrite <- H2 at 1. rewrite lookup_use_alias_clean by (rewrite H2; discriminate).
    rewrite H2. by rewrite !lookup_use_alias_ne by (rewrite ?H1; discriminate).
  - apply lookup_use_alias_eq.
  - rewrite <- H3 at 1. rewrite lookup_use_alias_clean by (rewrite H3; discriminate).
    rewrite H3.
    by rewrite !lookup_use_alias_ne by (rewrite ?H1, ?H2; discriminate).
Qed.

Lemma lookup_verify_message_type_ne (h : gmap string value) (k : string) :
  k ≠ "Message-Type" → MMSEncoder.verify_message_type h !! k = h !! k.
Proof.
  intros Hk. unfold MMSEncoder.verify_message_type.
  repeat case_bool_decide;
    try destruct (MMSEncoder.found_dest_address _);
    by rewrite ?lookup_insert_ne by done.
Qed.

Lemma found_dest_address_insert_message_type (h : gmap string value) (v : value) :
  MMSEncoder.found_dest_address (<["Message-Type" := v]> h) =
  MMSEncoder.found_dest_address h.
Proof.
  unfold MMSEncoder.found_dest_address. cbn [existsb].
  by rewrite !lookup_insert_ne by discriminate.
Qed.

Lemma lookup_verify_message_type (h : gmap string value) :
  MMSEncoder.verify_message_type h !! "Message-Type" =
    Some match h !! "Message-Type" with
         | None => VStr "m-retrieve-conf"
         | Some v =>
             if bool_decide (v = VStr "m-send-req")
                && negb (MMSEncoder.found_dest_address h)
             then VStr "m-retrieve-conf" else v
         end.
Proof.
  unfold MMSEncoder.verify_message_type.
  destruct (h !! "Message-Type") as [v|] eqn:Hmt.
  - rewrite (bool_decide_eq_true_2 (is_Some _)) by eauto. rewrite Hmt.
    destruct (decide (v = VStr "m-send-req")) as [->|Hv].
    + rewrite !bool_decide_eq_true_2 by done.
      destruct (MMSEncoder.found_dest_address h); [done|].
      by rewrite lookup_insert_eq.
    + rewrite (bool_decide_eq_false_2 (Some v = _)) by congruence.
      by rewrite bool_decide_eq_false_2.
  - rewrite (bool_decide_eq_false_2 (is_Some _)) by (by intros [? ?]).
    rewrite lookup_insert_eq.
    rewrite bool_decide_eq_false_2 by discriminate.
    by rewrite lookup_insert_eq.
Qed.

Lemma lookup_prepare_message_type (rand : Z) (h : gmap string value) :
  MMSEncoder.prepare_headers rand h !! "Message-Type" =
    MMSEncoder.verify_message_type (MMSEncoder.normalize_aliases h) !! "Message-Type".
Proof.
  unfold MMSEncoder.prepare_headers, MMSEncoder.verify_version,
    MMSEncoder.verify_transaction_id.
  repeat case_bool_decide; by rewrite ?lookup_insert_ne by discriminate.
Qed.

Lemma lookup_prepare_transaction_id (rand : Z) (h : gmap string value) :
  MMSEncoder.prepare_headers rand h !! "Transaction-Id" =
    Some (default (VStr (pretty rand))
            (MMSEncoder.normalize_aliases h !! "Transaction-Id")).
Proof.
  unfold MMSEncoder.prepare_headers, MMSEncoder.verify_version.
  set (h1 := MMSEncoder.verify_transaction_id rand _).
  assert (Hti : h1 !! "Transaction-Id" =
            Some (default (VStr (pretty rand))
                    (MMSEncoder.normalize_aliases h !! "Transaction-Id"))).
  { unfold h1, MMSEncoder.verify_transaction_id.
    rewrite lookup_verify_message_type_ne by discriminate.
    destruct (MMSEncoder.normalize_aliases h !! "Transaction-Id") as [v|] eqn:Hv.
    - rewrite bool_decide_eq_true_2 by eauto.
      by rewrite lookup_verify_message_type_ne by discriminate.
    - rewrite bool_decide_eq_false_2 by (by intros [? ?]).
      by rewrite lookup_insert_eq. }
  case_bool_decide; by rewrite ?lookup_insert_ne by discriminate.
Qed.

Lemma lookup_prepare_version (rand : Z) (h : gmap string value) :
  MMSEncoder.prepare_headers rand h !! "MMS-Version" =
    Some (default (VStr "1.0") (MMSEncoder.normalize_aliases h !! "MMS-Version")).
Proof.
  unfold MMSEncoder.prepare_headers, MMSEncoder.verify_version.
  set (h1 := MMSEncoder.verify_transaction_id rand _).
  assert (Hv : h1 !! "MMS-Version" = MMSEncoder.normalize_aliases h !! "MMS-Version").
  { unfold h1, MMSEncoder.verify_transaction_id.
    case_bool_decide; rewrite ?lookup_insert_ne by discriminate;
      by rewrite lookup_verify_message_type_ne by discriminate. }
  rewrite Hv.
  destruct (MMSEncoder.normalize_aliases h !! "MMS-Version") as [v|] eqn:Hn.
  - rewrite bool_decide_eq_true_2 by eauto. by rewrite Hv.
  - rewrite bool_decide_eq_false_2 by (by intros [? ?]).
    by rewrite lookup_insert_eq.
Qed.

Lemma leading_headers_present (rand : Z) (h : gmap string value) :
  is_Some (MMSEncoder.prepare_headers rand h !! "Message-Type")
  ∧ is_Some (MMSEncoder.prepare_headers rand h !! "Transaction-Id")
  ∧ is_Some (MMSEncoder.prepare_headers rand h !! "MMS-Version").
Proof.
  rewrite lookup_prepare_message_type, lookup_verify_message_type,
    lookup_prepare_transaction_id, lookup_prepare_version.
  eauto.
Qed.

(** X19: the prepared header map always holds the three leading
    headers.  Message-Type is the supplied one, "m-retrieve-conf"
    when none was supplied, and "m-retrieve-conf" too when
    "m-send-req" was supplied without one of the keys the
    destination test looks for; Transaction-Id is the supplied one,
    else the decimal form of the random draw; MMS-Version is the
    supplied one, else "1.0".  Supplied means: after the alias
    pass. *)
Theorem prepare_headers_leading (rand : Z) (h : gmap string value) :
  let supplied := MMSEncoder.normalize_aliases h in
  MMSEncoder.prepare_headers rand h !! "Message-Type" =
    Some match supplied !! "Message-Type" with
         | None => VStr "m-retrieve-conf"
         | Some v =>
             if bool_decide (v = VStr "m-send-req")
                && negb (MMSEncoder.found_dest_address supplied)
             then VStr "m-retrieve-conf" else v
         end
  ∧ MMSEncoder.prepare_headers rand h !! "Transaction-Id" =
      Some (default (VStr (pretty rand)) (supplied !! "Transaction-Id"))
  ∧ MMSEncoder.prepare_headers rand h !! "MMS-Version" =
      Some (default (VStr "1.0") (supplied !! "MMS-Version")).
Proof.
  intros supplied. split; [|split].
  - rewrite lookup_prepare_message_type. apply lookup_verify_message_type.
  - apply lookup_prepare_transaction_id.
  - apply lookup_prepare_version.
Qed.

End header_preparation.

(** ** Encoding the same message again *)

Section encode_again.
Context `{E : wsp_pdu.Encoder} `{P : message.Presentation}.

Lemma encode_Ok_message (rand : Z) (msg msg' : MMSMessage) (pdu : bytes) :
  MMSEncoder.encode rand msg = (Ok pdu, msg') →
  msg' = set_headers (strip (leading_headers ++ leading_aliases) (headers msg)) msg
  ∧ ∃ hb body,
      MMSEncoder.encode_message_header rand (headers msg) = (Ok hb, headers msg')
      ∧ pdu = hb ++ body.
Proof.
  unfold MMSEncoder.encode.
  destruct (MMSEncoder.encode_message_header rand (headers msg))
    as [[hb|e] h] eqn:Hhdr; [|discriminate].
  destruct (MMSEncoder.encode_message_body _) as [body|]; simpl; [|discriminate].
  intros [= <- <-]. cbn [headers set_headers].
  split; [|by exists hb, body].
  f_equal. unfold MMSEncoder.encode_message_header in Hhdr.
  destruct (MMSEncoder.encode_first_headers _ _ _) as [[mh|e] h1] eqn:Hfirst;
    [|discriminate].
  apply encode_first_headers_state in Hfirst.
  change ["Message-Type"; "Transaction-Id"; "MMS-Version"] with leading_headers in Hfirst.
  rewrite strip_prepare_headers in Hfirst. by injection Hhdr as _ <-.
Qed.

Lemma strip_strip (ks : list string) (h : gmap string value) :
  strip ks (strip ks h) = strip ks h.
Proof.
  apply map_eq. intros k. rewrite !lookup_strip. by case_bool_decide.
Qed.

Lemma normalize_aliases_id (h : gmap string value) :
  Forall (λ a, h !! a = None) leading_aliases →
  MMSEncoder.normalize_aliases h = h.
Proof.
  unfold leading_aliases. intros Hall.
  apply Forall_cons in Hall as [H1 Hall].
  apply Forall_cons in Hall as [H2 Hall].
  apply Forall_cons in Hall as [H3 _].
  unfold MMSEncoder.normalize_aliases, MMSEncoder.use_alias. cbn [foldl].
  by rewrite H1, H2, H3.
Qed.

(** X20: a message that has been encoded once is encoded differently
    the second time.  The first call has removed the three leading
    headers from the message, so the second call starts its PDU with
    the defaults — Message-Type "m-retrieve-conf", a Transaction-Id
    drawn anew, MMS-Version "1.0" — whatever the message carried at
    first; and it leaves the message as the first call left it. *)
Theorem encode_again_defaults (rand1 rand2 : Z) (msg msg1 msg2 : MMSMessage)
    (pdu1 pdu2 : bytes) :
  MMSEncoder.encode rand1 msg = (Ok pdu1, msg1) →
  MMSEncoder.encode rand2 msg1 = (Ok pdu2, msg2) →
  msg2 = msg1
  ∧ ∃ e1 e2 e3 tail,
      MMSEncoder.encode_header "Message-Type" (VStr "m-retrieve-conf") = Ok e1
      ∧ MMSEncoder.encode_header "Transaction-Id" (VStr (pretty rand2)) = Ok e2
      ∧ MMSEncoder.encode_header "MMS-Version" (VStr "1.0") = Ok e3
      ∧ pdu2 = e1 ++ e2 ++ e3 ++ tail.
Proof.
  intros Hfirst Hsecond.
  apply encode_Ok_message in Hfirst as [Hmsg1 _].
  apply encode_Ok_message in Hsecond as (Hmsg2 & hb & body & Hhdr & ->).
  assert (Hh1 : headers msg1 = strip (leading_headers ++ leading_aliases) (headers msg))
    by by rewrite Hmsg1.
  split.
  { rewrite Hmsg2, Hh1, strip_strip, Hmsg1. done. }
  assert (Hnone : ∀ k, k ∈ leading_headers ++ leading_aliases →
                       headers msg1 !! k = None).
  { intros k Hk. rewrite Hh1, lookup_strip. by rewrite bool_decide_eq_true_2. }
  assert (Hnorm : MMSEncoder.normalize_aliases (headers msg1) = headers msg1).
  { apply normalize_aliases_id, Forall_forall. intros a Ha.
    apply Hnone, elem_of_app. by right. }
  destruct (encode_message_header_exact _ _ _ _ Hhdr)
    as (v1 & v2 & v3 & e1 & e2 & e3 & mids & cv & content_type & ct_parameters
        & name & val & H1 & E1 & H2 & E2 & H3 & E3 & _ & _ & _ & _ & _ & ->).
  assert (Hlead : Forall (λ k, headers msg1 !! k = None) leading_headers).
  { apply Forall_forall. intros k Hk. apply Hnone, elem_of_app. by left. }
  unfold leading_headers in Hlead.
  apply Forall_cons in Hlead as [N1 Hlead].
  apply Forall_cons in Hlead as [N2 Hlead].
  apply Forall_cons in Hlead as [N3 _].
  rewrite lookup_prepare_message_type, lookup_verify_message_type, Hnorm, N1 in H1.
  rewrite lookup_prepare_transaction_id, Hnorm, N2 in H2.
  rewrite lookup_prepare_version, Hnorm, N3 in H3.
  injection H1 as <-. injection H2 as <-. injection H3 as <-.
  exists e1, e2, e3, ((concat mids ++ name ++ val) ++ body).
  repeat split; try done. by rewrite <- !app_assoc.
Qed.

Lemma encode_remaining_headers_Ok (entries : list (string * value)) (acc : bytes) :
  Forall (λ kv, ∃ e, MMSEncoder.encode_header kv.1 kv.2 = Ok e) entries →
  ∃ bs, MMSEncoder.encode_remaining_headers entries acc = Ok bs.
Proof.
  intros Hall. revert acc.
  induction Hall as [|[k v] entries [e He] _ IH]; intros acc; simpl in *.
  - by eexists.
  - case_decide; [|apply IH]. rewrite He. simpl. apply IH.
Qed.

(** X21: [encode] never returns a PDU for a message without a
    Content-Type header.  When every header it has to emit can be
    encoded, the call raises KeyError — at the very end of the header
    block — and by then it has removed the three leading headers and
    their aliases from the message. *)
Theorem encode_without_content_type (rand : Z) (msg : MMSMessage) :
  headers msg !! "Content-Type" = None →
  (∀ pdu, (MMSEncoder.encode rand msg).1 ≠ Ok pdu)
  ∧ ((∀ k v, MMSEncoder.prepare_headers rand (headers msg) !! k = Some v →
             ∃ e, MMSEncoder.encode_header k v = Ok e) →
     MMSEncoder.encode rand msg =
       (Raise KeyError,
        set_headers (strip (leading_headers ++ leading_aliases) (headers msg)) msg)).
Proof.
  intros Hct. split.
  - intros pdu Hpdu.
    destruct (MMSEncoder.encode rand msg) as [r msg'] eqn:Henc.
    simpl in Hpdu. subst r.
    apply encode_Ok_message in Henc as (_ & hb & body & Hhdr & _).
    destruct (encode_message_header_exact _ _ _ _ Hhdr)
      as (? & ? & ? & ? & ? & ? & ? & cv & ? & ? & ? & ? & _ & _ & _ & _ & _ & _
          & _ & Hcv & _).
    congruence.
  - intros Hall. unfold MMSEncoder.encode, MMSEncoder.encode_message_header.
    set (h := MMSEncoder.prepare_headers rand (headers msg)) in *.
    destruct (leading_headers_present rand (headers msg))
      as ((v1 & H1) & (v2 & H2) & (v3 & H3)).
    fold h in H1, H2, H3.
    destruct (Hall _ _ H1) as [e1 E1].
    destruct (Hall _ _ H2) as [e2 E2].
    destruct (Hall _ _ H3) as [e3 E3].
    cbn [MMSEncoder.encode_first_headers].
    rewrite H1, E1, lookup_delete_ne, H2, E2, !lookup_delete_ne, H3, E3
      by discriminate.
    change (delete "MMS-Version" (delete "Transaction-Id" (delete "Message-Type" h)))
      with (strip leading_headers h).
    assert (Hstrip : strip leading_headers h =
              strip (leading_headers ++ leading_aliases) (headers msg))
      by apply strip_prepare_headers.
    rewrite !Hstrip.
    destruct (encode_remaining_headers_Ok
                (map_to_list (strip (leading_headers ++ leading_aliases) (headers msg)))
                (([] ++ e1) ++ e2 ++ e3)) as [bs Hbs].
    { apply Forall_forall. intros [k v] Hkv.
      apply elem_of_map_to_list in Hkv.
      rewrite <- Hstrip, lookup_strip in Hkv.
      case_bool_decide; [discriminate|]. by apply Hall. }
    rewrite <- !app_assoc in Hbs. rewrite <- !app_assoc, Hbs.
    unfold MMSEncoder.encode_content_type_header.
    rewrite lookup_strip, bool_decide_eq_false_2, Hct; [done|].
    unfold leading_headers, leading_aliases. simpl.
    rewrite !not_elem_of_cons. repeat split; try discriminate.
    apply not_elem_of_nil.
Qed.

End encode_again.

(** [encode_again_defaults] at a send request with a To header: the
    first PDU starts with Message-Type m-send-req (0x8C 0x80), the
    second with Message-Type m-retrieve-conf (0x8C 0x84). *)
Lemma encode_again_defaults_witness :
  (MMSEncoder.encode 5678 (MMSEncoder.encode 1234 Examples.msg_send).2).2 =
    (MMSEncoder.encode 1234 Examples.msg_send).2
  ∧ ∃ e1 e2 e3 tail,
      MMSEncoder.encode_header "Message-Type" (VStr "m-retrieve-conf") = Ok e1
      ∧ MMSEncoder.encode_header "Transaction-Id" (VStr (pretty 5678)) = Ok e2
      ∧ MMSEncoder.encode_header "MMS-Version" (VStr "1.0") = Ok e3
      ∧ Examples.pdu_send_second = e1 ++ e2 ++ e3 ++ tail.
Proof.
  apply (encode_again_defaults 1234 5678 Examples.msg_send
           (MMSEncoder.encode 1234 Examples.msg_send).2
           (MMSEncoder.encode 5678 (MMSEncoder.encode 1234 Examples.msg_send).2).2
           Examples.pdu_send_first Examples.pdu_send_second).
  - vm_compute. reflexivity.
  - vm_compute. reflexivity.
Defined.

(** [encode_without_content_type] at a message that carries a Subject
    alone. *)
Lemma encode_without_content_type_witness :
  (∀ pdu, (MMSEncoder.encode 1234 Examples.msg_subject).1 ≠ Ok pdu)
  ∧ ((∀ k v, MMSEncoder.prepare_headers 1234 (headers Examples.msg_subject) !! k = Some v →
             ∃ e, MMSEncoder.encode_header k v = Ok e) →
     MMSEncoder.encode 1234 Examples.msg_subject =
       (Raise KeyError,
        set_headers (strip (leading_headers ++ leading_aliases)
                       (headers Examples.msg_subject)) Examples.msg_subject)).
Proof.
  apply (encode_without_content_type 1234 Examples.msg_subject). reflexivity.
Defined.

(** ** The body block, encoding: what each part declares *)

Section body_layout.
Context `{E : wsp_pdu.Encoder} `{P : message.Presentation}.

Lemma encode_part_layout (part : DataPart) (e : bytes) :
  MMSEncoder.encode_part part = Ok e → part_layout part e.
Proof.
  unfold MMSEncoder.encode_part, part_layout.
  destruct (part_headers part !! "Content-Type") as [cv|] eqn:Hcv; [|discriminate].
  destruct (unpack2 cv) as [[name val_type]|] eqn:Hun; [|discriminate].
  cbn [mbind result_mbind result_bind].
  destruct (wsp_pdu.encodeContentTypeValue name val_type) as [pct|] eqn:Hpct;
    [|discriminate].
  cbn [mbind result_mbind result_bind].
  destruct (MMSEncoder.encode_part_headers _ _) as [eph|] eqn:Heph; [|discriminate].
  cbn [mbind result_mbind result_bind].
  destruct (wsp_pdu.encodeUintvar (_ + _)) as [hl|] eqn:Hhl; [|discriminate].
  cbn [mbind result_mbind result_bind].
  destruct (wsp_pdu.encodeUintvar (len part)) as [dl|] eqn:Hdl; [|discriminate].
  cbn [mbind result_mbind result_bind]. intros [= <-].
  apply encode_part_headers_spec in Heph as (encs & Hencs & ->).
  rewrite app_nil_l in *.
  exists hl, dl, pct,
    (filter (λ kv : string * value, kv.1 ≠ "Content-Type")
       (map_to_list (part_headers part))),
    encs, cv, name, val_type.
  repeat split; try done.
  - apply filter_key_map_to_list.
  - by rewrite length_app, Nat2Z.inj_add.
Qed.

(** X22: the body [encode_message_body] returns is the part count
    followed by the parts it emits — the presentation part, then the
    parts of the pages — one after the other.  The count is the
    number of these parts plus the number of raw data parts of the
    message.  Each part declares, in its two leading variable-length
    integers, exactly the length of its header block — the
    content-type value and the encodings of its other headers, in
    some order — and exactly the length of its payload, which
    follows unchanged. *)
Theorem encode_message_body_layout (msg : MMSMessage) (bs : bytes) :
  MMSEncoder.encode_message_body msg = Ok bs →
  ∃ count encs,
    wsp_pdu.encodeUintvar
      (Z.of_nat (length (MMSEncoder.parts msg))
       + Z.of_nat (length (_data_parts msg))) = Ok count
    ∧ Forall2 part_layout (MMSEncoder.parts msg) encs
    ∧ bs = count ++ concat encs.
Proof.
  unfold MMSEncoder.encode_message_body. rewrite num_entries_parts.
  destruct (wsp_pdu.encodeUintvar _) as [count|] eqn:Hcount; [|discriminate].
  cbn [mbind result_mbind result_bind]. intros Hparts.
  apply encode_parts_spec in Hparts as (encs & Hencs & ->).
  exists count, encs. split; [done|]. split; [|done].
  eapply Forall2_impl; [exact Hencs|]. apply encode_part_layout.
Qed.

End body_layout.

(** [encode_message_body_layout] at the message with one text page. *)
Lemma encode_message_body_layout_witness :
  ∃ count encs,
    wsp_pdu.encodeUintvar
      (Z.of_nat (length (MMSEncoder.parts Examples.msg_page))
       + Z.of_nat (length (_data_parts Examples.msg_page))) = Ok count
    ∧ Forall2 part_layout (MMSEncoder.parts Examples.msg_page) encs
    ∧ Examples.body_page = count ++ concat encs.
Proof.
  apply (encode_message_body_layout Examples.msg_page Examples.body_page).
  vm_compute. reflexivity.
Defined.

(** ** One part, encoded and decoded *)

Section part_roundtrip.
Context {D : wsp_pdu.Decoder} {L : DecoderLaws D}
        `{E : wsp_pdu.Encoder} `{P : message.Presentation}.

(** X23: a data part whose pieces survive their own encoding
    survives [encode_part] followed by [decode_part]: whatever
    follows the encoded part, decoding returns the part — content
    type, parameters, headers and payload — and stops right after
    it. *)
Theorem decode_part_encode_part (part : DataPart) (e rest : bytes) :
  part_well_formed part →
  MMSEncoder.encode_part part = Ok e →
  MMSDecoder.decode_part (fresh (e ++ rest)) = Some (Ok part, fresh rest).
Proof.
  intros Hwf Henc. exact (part_well_formed_roundtrips part Hwf e rest Henc).
Qed.

End part_roundtrip.

(** [decode_part_encode_part] at the text part of the sample page. *)
Lemma decode_part_encode_part_witness :
  MMSDecoder.decode_part
    (fresh ([11; 2; 116; 101; 120; 116; 47; 112; 108; 97; 105; 110; 0; 104; 105]
            ++ [7; 7])) =
    Some (Ok Examples.text_part, fresh [7; 7]).
Proof.
  apply (decode_part_encode_part (L := model_laws) Examples.text_part).
  - apply sample_part_well_formed. apply elem_of_cons. right.
    apply elem_of_cons. by left.
  - vm_compute. reflexivity.
Defined.

(** ** Field names outside and inside the registry *)

Section field_names.
Context `{E : wsp_pdu.Encoder} `{P : message.Presentation}.

Lemma find_field_None (name : string) :
  (∀ n kind, dict_get mms_field_names n ≠ Some (name, kind)) →
  find_field name mms_field_names = None.
Proof.
  intros Hnone.
  destruct (find_field name mms_field_names) as [[n kind]|] eqn:Hfind; [|done].
  apply find_field_dict_get in Hfind. by destruct (Hnone n kind).
Qed.

(** X24: for a name that is not in the registry, [encodeMMSFieldName]
    raises EncodeError, and [encode_header] writes the entry in the
    application form: the name as token text, then the value as a
    text string. *)
Theorem encode_unregistered_name (name : string) (v : value) :
  (∀ n kind, dict_get mms_field_names n ≠ Some (name, kind)) →
  MMSEncoder.encodeMMSFieldName name = Raise EncodeError
  ∧ MMSEncoder.encode_header name v =
      (encoded_header_name ← wsp_pdu.encodeTokenText name;
       text ← wsp_pdu.encodeTextString v;
       Ok (encoded_header_name ++ text)).
Proof.
  intros Hnone%find_field_None.
  unfold MMSEncoder.encodeMMSFieldName, MMSEncoder.encode_header.
  rewrite Hnone. split; reflexivity.
Qed.

(** X25: when [encodeMMSFieldName] returns bytes, the name is in the
    registry and the bytes are the short integer of the one number
    that the decoder's lookup maps back to that name. *)
Theorem encodeMMSFieldName_registered (name : string) (bs : bytes) :
  MMSEncoder.encodeMMSFieldName name = Ok bs →
  ∃ n kind,
    dict_get mms_field_names n = Some (name, kind)
    ∧ (∀ n' kind', dict_get mms_field_names n' = Some (name, kind') → n' = n)
    ∧ wsp_pdu.encodeShortInteger n = Ok bs
    ∧ bs ≠ [].
Proof.
  unfold MMSEncoder.encodeMMSFieldName.
  destruct (find_field name mms_field_names) as [[n kind]|] eqn:Hfind.
  - destruct (wsp_pdu.encodeShortInteger n) as [num|] eqn:Hnum;
      cbn [mbind result_mbind result_bind]; [|discriminate].
    case_bool_decide as Hlen; [discriminate|]. intros [= <-].
    exists n, kind. split; [by apply find_field_dict_get|].
    split; [|split; [done|by intros ->]].
    intros n' kind' Hn'. apply dict_get_find_field in Hn'. congruence.
  - cbn [mbind result_mbind result_bind]. by rewrite bool_decide_eq_true_2.
Qed.

(** X26: the header Delivery-Time cannot be encoded: its kind is
    [None], the value encoder looked up by name is "encodeNone", and
    as the encoder classes have no such attribute, [encode_header]
    raises AttributeError once the field number is written. *)
Theorem encode_header_delivery_time (v : value) (number : bytes) :
  wsp_pdu.encodeShortInteger 0x07 = Ok number →
  wsp_pdu.Encoder_getattr "encodeNone" = None →
  MMSEncoder.encode_header "Delivery-Time" v = Raise AttributeError.
Proof.
  intros Hnum Hattr. unfold MMSEncoder.encode_header.
  change (find_field "Delivery-Time" mms_field_names) with (Some (0x07, @None string)).
  cbv beta iota. rewrite Hnum. cbn [mbind result_mbind result_bind].
  change (MMSEncoder.getattr (format_kind "encode" None))
    with (wsp_pdu.Encoder_getattr "encodeNone").
  by rewrite Hattr.
Qed.

End field_names.

(** [encode_unregistered_name] at the header X-Id. *)
Lemma encode_unregistered_name_witness :
  MMSEncoder.encodeMMSFieldName "X-Id" = Raise EncodeError
  ∧ MMSEncoder.encode_header "X-Id" (VStr "7") =
      (encoded_header_name ← wsp_pdu.encodeTokenText "X-Id";
       text ← wsp_pdu.encodeTextString (VStr "7");
       Ok (encoded_header_name ++ text)).
Proof.
  apply (encode_unregistered_name "X-Id" (VStr "7")).
  intros n kind Hn. apply dict_get_find_field in Hn. discriminate.
Defined.

(** [encodeMMSFieldName_registered] at the name Subject. *)
Lemma encodeMMSFieldName_registered_witness :
  ∃ n kind,
    dict_get mms_field_names n = Some ("Subject", kind)
    ∧ (∀ n' kind', dict_get mms_field_names n' = Some ("Subject", kind') → n' = n)
    ∧ wsp_pdu.encodeShortInteger n = Ok [0x96]
    ∧ [0x96] ≠ [].
Proof.
  apply (encodeMMSFieldName_registered "Subject" [0x96]). reflexivity.
Defined.

(** [encode_header_delivery_time] with the reference encoder. *)
Lemma encode_header_delivery_time_witness :
  MMSEncoder.encode_header "Delivery-Time" (VStr "tomorrow") = Raise AttributeError.
Proof.
  apply (encode_header_delivery_time (VStr "tomorrow") [0x87]); reflexivity.
Defined.

(** ** The header map a header block decodes to *)

Section header_map.
Context {D : wsp_pdu.Decoder} {L : DecoderLaws D}.

Lemma record_entries_notin (es : list (string * value)) (h : gmap string value)
    (k : string) :
  k ∉ es.*1 → record_entries es h !! k = h !! k.
Proof.
  revert h. induction es as [|[k' v'] es IH]; intros h Hk; [done|].
  rewrite fmap_cons, not_elem_of_cons in Hk. destruct Hk as [Hne Hk].
  change (record_entries ((k', v') :: es) h)
    with (record_entries es (<[k':=v']> h)).
  rewrite IH by done. by rewrite lookup_insert_ne.
Qed.

Lemma record_entries_last (es1 es2 : list (string * value)) (h : gmap string value)
    (k : string) (v : value) :
  k ∉ es2.*1 → record_entries (es1 ++ (k, v) :: es2) h !! k = Some v.
Proof.
  intros Hk. rewrite record_entries_app.
  change (record_entries ((k, v) :: es2) (record_entries es1 h))
    with (record_entries es2 (<[k:=v]> (record_entries es1 h))).
  rewrite record_entries_notin by done. apply lookup_insert_eq.
Qed.

(** X27: the header map [decode_message_header] leaves in the
    message is read off the accepted entries of the header block:
    for a name that occurs among them, the value of its last
    occurrence — a repeated header overwrites the earlier one — and
    for any other name, Content-Type apart, what the message held
    before the call. *)
Theorem decode_message_header_last_wins (msg msg' : MMSMessage) (data : bytes)
    (it' : PreviewIterator) :
  MMSDecoder.decode_message_header msg data = Some (Ok (msg', it')) →
  ∃ es stop,
    header_run (fresh data) es stop it'
    ∧ (∀ es1 k v es2, es = es1 ++ (k, v) :: es2 → k ∉ es2.*1 →
         headers msg' !! k = Some v)
    ∧ (∀ k, k ∉ es.*1 → k ≠ "Content-Type" →
         headers msg' !! k = headers msg !! k).
Proof.
  unfold MMSDecoder.decode_message_header.
  destruct (decode_message_header_loop_run (S (length data))
              (MMSDecoder.mkLocals (headers msg) None (fresh data)))
    as (es & stop & it1 & Hrun & _ & _ & Hloop); [simpl; lia|].
  rewrite Hloop.
  cbn [MMSDecoder.hl_headers MMSDecoder.hl_last MMSDecoder.hl_iter] in *.
  pose proof (header_run_names _ _ _ _ Hrun) as Hnames.
  assert (Hct : ∀ es1 k v es2, es = es1 ++ (k, v) :: es2 → k ≠ "Content-Type").
  { intros es1 k v es2 ->. apply Forall_app in Hnames as [_ Hnames].
    by apply Forall_inv in Hnames. }
  destruct stop as [v| |e]; [| |discriminate].
  - unfold MMSDecoder.record_content_type. cbn [MMSDecoder.hl_last].
    rewrite decide_True by done.
    cbn [MMSDecoder.hl_headers MMSDecoder.hl_iter].
    intros [= <- <-]. exists es, (ContentTypeSeen v).
    split; [done|]. cbn [headers set_headers]. split.
    + intros es1 k v' es2 Hes Hk.
      rewrite lookup_insert_ne by (intros <-; by eapply Hct).
      subst es. by apply record_entries_last.
    + intros k Hk Hne. rewrite lookup_insert_ne by done.
      by apply record_entries_notin.
  - unfold MMSDecoder.record_content_type. cbn [MMSDecoder.hl_last].
    destruct es as [|e es _] using rev_ind; [discriminate|].
    unfold last_entry. rewrite last_snoc. destruct e as [header value].
    rewrite decide_False by (by eapply (Hct es header value [])).
    intros [= <- <-]. exists (es ++ [(header, value)]), Exhausted.
    split; [done|]. cbn [headers set_headers]. split.
    + intros es1 k v' es2 Hes Hk. rewrite Hes. by apply record_entries_last.
    + intros k Hk _. by apply record_entries_notin.
Qed.

End header_map.

(** [decode_message_header_last_wins] on the sample header block. *)
Lemma decode_message_header_last_wins_witness :
  ∃ es stop,
    header_run (fresh (Examples.header_block ++ Examples.body_prefix)) es stop
      (fresh Examples.body_prefix)
    ∧ (∀ es1 k v es2, es = es1 ++ (k, v) :: es2 → k ∉ es2.*1 →
         headers (mkMessage
                    (<["Message-Type" := VStr "m-notification-ind"]>
                       (<["Transaction-Id" := VStr "abcd"]>
                          {[ "Content-Type" := Examples.ct_related ]}))
                    [] []) !! k = Some v)
    ∧ (∀ k, k ∉ es.*1 → k ≠ "Content-Type" →
         headers (mkMessage
                    (<["Message-Type" := VStr "m-notification-ind"]>
                       (<["Transaction-Id" := VStr "abcd"]>
                          {[ "Content-Type" := Examples.ct_related ]}))
                    [] []) !! k = headers new_MMSMessage !! k).
Proof.
  apply (decode_message_header_last_wins (L := model_laws) new_MMSMessage _
           (Examples.header_block ++ Examples.body_prefix)).
  vm_compute. reflexivity.
Defined.

(** A header block that carries Subject twice decodes to the second
    value. *)
Example decode_message_header_repeated_subject :
  MMSDecoder.decode_message_header new_MMSMessage
      ([0x96] ++ str_bytes "one" ++ [0; 0x96] ++ str_bytes "two" ++ [0]) =
    Some (Ok (mkMessage {[ "Subject" := VStr "two" ]} [] [], fresh [])).
Proof. vm_compute. reflexivity. Qed.

(** ** The default Transaction-Id *)

(** Over the whole range of the random draw, the decimal form has
    four characters, each of them a digit. *)
Lemma four_digits_range :
  forallb (λ rand,
             bool_decide (String.length (pretty rand) = 4%nat
                          ∧ Forall (λ b, 48 ≤ b ≤ 57) (str_bytes (pretty rand))))
          (seqZ 1000 9000) = true.
Proof. vm_compute. reflexivity. Qed.

Section transaction_id.
Context `{E : wsp_pdu.Encoder} `{P : message.Presentation}.

(** X28: when no Transaction-Id is supplied, under the plain name or
    under its alias, and the random draw lies in the range 1000..9999
    of [random.randint(1000, 9999)], the Transaction-Id that
    [encode_message_header] fills in is a string of exactly four
    decimal digits. *)
Theorem transaction_id_default (rand : Z) (h : gmap string value) :
  1000 ≤ rand ≤ 9999 →
  h !! "Transaction-Id" = None →
  h !! "X-Mms-Transaction-Id" = None →
  ∃ s, MMSEncoder.prepare_headers rand h !! "Transaction-Id" = Some (VStr s)
       ∧ String.length s = 4%nat
       ∧ Forall (λ b, 48 ≤ b ≤ 57) (str_bytes s).
Proof.
  intros Hrand Hplain Halias. exists (pretty rand).
  split.
  - rewrite lookup_prepare_transaction_id.
    destruct clean_header_values as (H1 & H2 & H3).
    unfold MMSEncoder.normalize_aliases. cbn [foldl].
    rewrite lookup_use_alias_ne by (rewrite ?H3; discriminate).
    rewrite <- H2 at 1.
    rewrite lookup_use_alias_clean by (rewrite H2; discriminate).
    rewrite H2, !lookup_use_alias_ne by (rewrite ?H1; discriminate).
    by rewrite Halias, Hplain.
  - pose proof four_digits_range as Hall.
    rewrite forallb_forall in Hall.
    specialize (Hall rand). rewrite bool_decide_eq_true in Hall.
    apply Hall, list_elem_of_In, elem_of_seqZ. lia.
Qed.

End transaction_id.

(** [transaction_id_default] at the draw 1234 and a map that holds a
    Subject alone. *)
Lemma transaction_id_default_witness :
  ∃ s, MMSEncoder.prepare_headers 1234 (headers Examples.msg_subject)
         !! "Transaction-Id" = Some (VStr s)
       ∧ String.length s = 4%nat
       ∧ Forall (λ b, 48 ≤ b ≤ 57) (str_bytes s).
Proof.
  apply (transaction_id_default 1234 (headers Examples.msg_subject)).
  - lia.
  - reflexivity.
  - reflexivity.
Defined.
